(** * FriendZone+ rule core: connections, activities, ratings, blocks, reports

    A shallow embedding of [core/models.py], [core/signals.py],
    [core/forms.py], [core/views.py] and [core/urls.py].

    The database is an explicit [Store] value threaded through every
    model method and view.  Tables keyed by primary key are finite maps,
    join tables and uniqueness-constrained pairs are finite sets, and
    tables whose default ordering is read by the code ([Meta.ordering =
    ["-created_at"]], used by [.first()]) are lists kept newest first.

    A request is handled at one instant [now] (every [timezone.now()] of
    one request reads the same clock value). *)

From Stdlib Require Import ZArith QArith Qround.
From stdpp Require Import gmap strings list fin_maps.

Open Scope Z_scope.

(** ** What the platform supplies

    Values and operations the source uses but does not define: the float
    type with the database [Avg] aggregate and Python's [round], Python's
    [int] on a string, the timezone conversion of [timezone.make_aware],
    and whether the application configuration has imported
    [core/signals.py] (the [@receiver] decorators connect the handlers at
    import time). *)

Class Runtime := {
  float : Type;
  (** the literal [0.0] *)
  float_zero : float;
  (** [Avg('score')] over a non-empty result set *)
  db_avg : list Z → float;
  (** [round(x, ndigits)] *)
  py_round : float → Z → float;
  (** [int(s)]; [None] stands for [ValueError], which [int("")] raises *)
  py_int : string → option Z;
  py_int_empty : py_int "" = None;
  (** [timezone.make_aware]: naive local microseconds to an instant *)
  make_aware : Z → Z;
  (** the [post_save] receivers of [signals.py] are connected *)
  signals_ready : bool
}.

(** ** Model enums: [ConnectionStatus] *)

Inductive ConnectionStatus := PENDING | ACCEPTED | REJECTED.

Global Instance ConnectionStatus_eq_dec : EqDecision ConnectionStatus.
Proof. solve_decision. Defined.

(** ** Rows *)

(** [Profile]: one per user, keyed in the store by the user's pk. *)
Record Profile `{Runtime} := mkProfile {
  bio : string;
  age : option Z;
  gender : string;
  profile_city : string;
  interests : string;
  verified : bool;
  rating : float;
  average_rating : float;
  total_ratings : Z
}.

(** [Activity]: [date] counts days, [time] microseconds since midnight.
    The many-to-many [participants] lives in its own join table. *)
Record Activity := mkActivity {
  title : string;
  description : string;
  location : string;
  activity_city : string;
  date : Z;
  time : Z;
  creator : nat;
  is_active : bool
}.

Record Connection := mkConnection {
  connection_pk : nat;
  sender : nat;
  receiver : nat;
  status : ConnectionStatus
}.

Global Instance Connection_eq_dec : EqDecision Connection.
Proof. solve_decision. Defined.

Record Report := mkReport {
  reporter : nat;
  reported_user : nat;
  reason : string
}.

Record Rating := mkRating {
  rater : nat;
  rated_user : nat;
  activity : nat;
  score : Z;
  feedback : string
}.

(** ** The store *)

Record Store `{Runtime} := mkStore {
  (** [auth.User], by pk *)
  users : gset nat;
  (** [Profile], by [user_id] *)
  profiles : gmap nat Profile;
  (** [Activity], by pk *)
  activities : gmap nat Activity;
  (** [Activity.participants] join table: (activity pk, user pk) *)
  participants : gset (nat * nat);
  (** [Connection] rows, newest first *)
  connections : list Connection;
  (** the last key the id sequence of the [Connection] table handed out
      (an auto-increment key is never handed out twice, also after the
      row that had it is deleted) *)
  connection_seq : nat;
  (** [Report] rows, newest first *)
  reports : list Report;
  (** [Block] rows: (blocker, blocked_user), unique together *)
  blocks : gset (nat * nat);
  (** [Rating] rows, newest first *)
  ratings : list Rating
}.

(** ** Exceptions and results *)

(** Messages carried by [ValidationError]: the two score validators of
    [Rating.score], the foreign-key check of [clean_fields], the messages
    raised by [Rating.clean], and the violations of the three constraints
    of [Rating.Meta]. *)
Inductive ValidationMsg :=
  | fk_does_not_exist (field : string)
      (* "<model> instance with id <pk> does not exist." *)
  | min_value_1       (* MinValueValidator(1) *)
  | max_value_5       (* MaxValueValidator(5) *)
  | invalid_rating_configuration
      (* "Invalid rating configuration." *)
  | creator_cannot_rate_themselves
      (* "The activity creator cannot rate themselves." *)
  | only_creator_can_be_rated
      (* "Only the activity creator can be rated." *)
  | only_participants_can_rate
      (* "Only participants of this activity can rate the creator." *)
  | activity_not_yet_completed
      (* "Cannot rate an activity that has not yet been completed." *)
  | you_have_blocked_this_user
      (* "You have blocked this user." *)
  | this_user_has_blocked_you
      (* "This user has blocked you." *)
  | unique_rating_per_activity_per_rater
      (* UniqueConstraint(fields=["rater", "activity"]) *)
  | prevent_self_rating
      (* CheckConstraint(~Q(rater=F("rated_user"))) *)
  | score_range_1_to_5.
      (* CheckConstraint(Q(score__gte=1) & Q(score__lte=5)) *)

Inductive Exn :=
  | ValidationError (msgs : list ValidationMsg)
  | RelatedObjectDoesNotExist
  | IntegrityError.

Inductive Result (A : Type) :=
  | Ok (a : A)
  | Raise (e : Exn).
Arguments Ok {A} a.
Arguments Raise {A} e.

Global Instance Result_ret : MRet Result := λ A a, Ok a.
Global Instance Result_bind : MBind Result := λ A B k m,
  match m with
  | Ok a => k a
  | Raise e => Raise e
  end.

(** ** Requests and responses (views.py) *)

Inductive Level := ERROR | INFO | SUCCESS | WARNING.

(** One constructor per message literal of views.py. *)
Inductive Text :=
  | account_created               (* "Account created successfully!" *)
  | invalid_credentials           (* "Invalid username or password." *)
  | profile_updated               (* "Profile updated successfully!" *)
  | activity_created              (* "Activity created successfully!" *)
  | cannot_join_this_activity     (* "You cannot join this activity." *)
  | activity_no_longer_active     (* "This activity is no longer active." *)
  | cannot_join_past_activity     (* "You cannot join a past activity." *)
  | cannot_join_own_activity      (* "You cannot join your own activity." *)
  | already_joined                (* "You have already joined this activity." *)
  | you_joined (activity_title : string)   (* f"You joined {activity.title}!" *)
  | connection_not_allowed        (* "Connection not allowed." *)
  | cannot_connect_to_yourself
      (* "You cannot send a connection request to yourself." *)
  | already_connected             (* "You are already connected." *)
  | request_already_sent          (* "Connection request already sent." *)
  | incoming_request_exists       (* "This user has already sent you a request." *)
  | connection_request_sent (to : nat)
      (* f"Connection request sent to {receiver.username}!" *)
  | not_authorized_to_accept
      (* "You are not authorized to accept this request." *)
  | not_authorized_to_reject
      (* "You are not authorized to reject this request." *)
  | no_longer_pending             (* "This connection request is no longer pending." *)
  | now_connected_with (other : nat)
      (* f"You are now connected with {connection.sender.username}!" *)
  | request_rejected              (* "Connection request rejected." *)
  | cannot_report_yourself        (* "You cannot report yourself." *)
  | already_reported              (* "You have already reported this user." *)
  | report_reason_empty           (* "Report reason cannot be empty." *)
  | user_reported                 (* "User reported successfully." *)
  | cannot_block_yourself         (* "You cannot block yourself." *)
  | user_already_blocked          (* "User already blocked." *)
  | user_blocked                  (* "User blocked successfully." *)
  | user_unblocked                (* "User unblocked." *)
  | score_required
      (* "Score is required. Please rate between 1 and 5." *)
  | invalid_score
      (* "Invalid score. Please provide a number between 1 and 5." *)
  | cannot_rate_yourself          (* "You cannot rate yourself." *)
  | must_have_participated
      (* "You must have participated in this activity to rate." *)
  | only_after_completed
      (* "You can only rate after the activity is completed." *)
  | already_rated                 (* "You have already rated for this activity." *)
  | you_blocked_them (rated : nat)
      (* f"You have blocked {rated_user.username} and cannot rate them." *)
  | they_blocked_you (rated : nat)
      (* f"{rated_user.username} has blocked you. Your rating cannot be submitted." *)
  | rating_validation_failed (errors : list ValidationMsg)
      (* f"Rating validation failed: {error_message}" *)
  | successfully_rated (rated : nat) (score : Z)
      (* f"Successfully rated {rated_user.username} {score}/5 for the activity." *)
  | unexpected_error.
      (* "An unexpected error occurred while processing your rating. Please try again." *)

Inductive Target :=
  | to_discover
  | to_login
  | to_edit_profile
  | to_url (url : string).

(** What a view returns: a redirect or a rendered template, with the
    message it queued, or an error status.  [Raised] is an exception that
    left the view after it had queued the given messages, oldest first:
    the framework answers with an error page and the messages stay
    queued. *)
Inductive Response :=
  | Redirect (to : Target) (message : option (Level * Text))
  | Render (template : string) (message : option (Level * Text))
  | Http404
  | Http405
  | Http500
  | Raised (queued : list (Level * Text)).

Inductive Method := GET | POST.

Global Instance Method_eq_dec : EqDecision Method.
Proof. solve_decision. Defined.

(** The cleaned fields of [ProfileUpdateForm] and [ActivityForm]. *)
Record ProfileFields := mkProfileFields {
  f_bio : string;
  f_age : option Z;
  f_gender : string;
  f_city : string;
  f_interests : string
}.

Record ActivityFields := mkActivityFields {
  f_title : string;
  f_description : string;
  f_location : string;
  f_activity_city : string;
  f_date : Z;
  f_time : Z
}.

(** The routes of [urlpatterns] with their URL arguments.  For the three
    form views the bound form is part of the request: [builtin_ok] is
    the outcome of the framework's own field validation, the fields are
    what it parsed; [credentials] is what [authenticate] returned. *)
Inductive Route :=
  | path_home
  | path_discover
  | path_register (builtin_ok : bool)
  | path_login (credentials : option nat)
  | path_logout
  | path_edit_profile (builtin_ok : bool) (form : ProfileFields)
  | path_create_activity (builtin_ok : bool) (form : ActivityFields)
  | path_join (id : nat)
  | path_connect (id : nat)
  | path_accept (id : nat)
  | path_reject (id : nat)
  | path_rate (activity_id user_id : nat)
  | path_report (user_id : nat)
  | path_block (user_id : nat)
  | path_unblock (user_id : nat).

(** A [Referer] header, with what the framework makes of it:
    [urlparse_accepts] is whether [urlparse(url)] returns (it raises
    [ValueError] on a malformed address), and [redirect_location] is the
    location [redirect(url)] answers with, or [None] when it raises
    ([NoReverseMatch] for a text without [/] and [.] that is no URL name,
    [DisallowedRedirect] for a scheme it does not allow). *)
Record Referer := mkReferer {
  referer_url : string;
  urlparse_accepts : bool;
  redirect_location : option string
}.

Record Request := mkRequest {
  (** the user id stored in the session, if any *)
  session_user : option nat;
  method : Method;
  route : Route;
  (** [request.POST] *)
  POST_data : gmap string string;
  (** [request.META.get('HTTP_REFERER')] *)
  HTTP_REFERER : option Referer
}.

(** ** Python string helpers *)

(** [str.isspace] on one character (code points below 256) *)
Definition py_isspace (c : Ascii.ascii) : bool :=
  let n := Ascii.N_of_ascii c in
  ((9 <=? n) && (n <=? 13) || (28 <=? n) && (n <=? 32) ||
   (n =? 133) || (n =? 160))%N.

Fixpoint lstrip (s : string) : string :=
  match s with
  | String c rest => if py_isspace c then lstrip rest else s
  | EmptyString => EmptyString
  end.

Definition rstrip (s : string) : string :=
  String.rev (lstrip (String.rev s)).

(** [str.strip()] *)
Definition strip (s : string) : string := rstrip (lstrip s).

Arguments mkProfile {_} _ _ _ _ _ _ _ _ _.
Arguments mkStore {_} _ _ _ _ _ _ _ _ _.

Section Core.
Context `{RT : Runtime}.

Definition empty_store : Store :=
  mkStore ∅ ∅ ∅ ∅ [] 0%nat [] ∅ [].

Definition set_users (f : gset nat → gset nat) (s : Store) : Store :=
  mkStore (f (users s)) (profiles s) (activities s) (participants s)
          (connections s) (connection_seq s) (reports s) (blocks s) (ratings s).
Definition set_profiles (f : gmap nat Profile → gmap nat Profile) (s : Store) : Store :=
  mkStore (users s) (f (profiles s)) (activities s) (participants s)
          (connections s) (connection_seq s) (reports s) (blocks s) (ratings s).
Definition set_activities (f : gmap nat Activity → gmap nat Activity) (s : Store) : Store :=
  mkStore (users s) (profiles s) (f (activities s)) (participants s)
          (connections s) (connection_seq s) (reports s) (blocks s) (ratings s).
Definition set_participants (f : gset (nat * nat) → gset (nat * nat)) (s : Store) : Store :=
  mkStore (users s) (profiles s) (activities s) (f (participants s))
          (connections s) (connection_seq s) (reports s) (blocks s) (ratings s).
Definition set_connections (f : list Connection → list Connection) (s : Store) : Store :=
  mkStore (users s) (profiles s) (activities s) (participants s)
          (f (connections s)) (connection_seq s) (reports s) (blocks s) (ratings s).
Definition set_connection_seq (f : nat → nat) (s : Store) : Store :=
  mkStore (users s) (profiles s) (activities s) (participants s)
          (connections s) (f (connection_seq s)) (reports s) (blocks s) (ratings s).
Definition set_reports (f : list Report → list Report) (s : Store) : Store :=
  mkStore (users s) (profiles s) (activities s) (participants s)
          (connections s) (connection_seq s) (f (reports s)) (blocks s) (ratings s).
Definition set_blocks (f : gset (nat * nat) → gset (nat * nat)) (s : Store) : Store :=
  mkStore (users s) (profiles s) (activities s) (participants s)
          (connections s) (connection_seq s) (reports s) (f (blocks s)) (ratings s).
Definition set_ratings (f : list Rating → list Rating) (s : Store) : Store :=
  mkStore (users s) (profiles s) (activities s) (participants s)
          (connections s) (connection_seq s) (reports s) (blocks s) (f (ratings s)).

(** ** [Activity] (models.py) *)

Definition MICROSECONDS_PER_DAY : Z := 86400000000.

(** [datetime.combine(date, time)], as naive microseconds *)
Definition datetime_combine (d t : Z) : Z := d * MICROSECONDS_PER_DAY + t.

(** [Activity.is_past]: the combined value is always naive (a [TimeField]
    carries no zone), so [make_aware] is always applied; [timezone.now()]
    is an aware instant (time zone support is on, the framework's
    default), so the comparison is between two instants. *)
Definition Activity_is_past (a : Activity) (now : Z) : bool :=
  make_aware (datetime_combine (date a) (time a)) <? now.

Definition Activity_set_is_active (b : bool) (a : Activity) : Activity :=
  mkActivity (title a) (description a) (location a) (activity_city a)
             (date a) (time a) (creator a) b.

(** The in-memory effect of [Activity.save] on [self], before
    [super().save]. *)
Definition Activity_pre_save (a : Activity) (now : Z) : Activity :=
  if Activity_is_past a now && is_active a
  then Activity_set_is_active false a
  else a.

(** [Activity.save]: [pk = None] inserts under a key the table does not
    use yet, [pk = Some i] writes row [i].  Returns the store, the pk and
    the instance as it is after the call. *)
Definition Activity_save (s : Store) (pk : option nat) (a : Activity) (now : Z)
  : Store * nat * Activity :=
  let a' := Activity_pre_save a now in
  let i := match pk with
           | Some i => i
           | None => fresh (dom (activities s))
           end in
  (set_activities (insert i a') s, i, a').

(** ** [Profile] (models.py) *)

Definition default_profile : Profile :=
  mkProfile "" None "" "" "" false float_zero float_zero 0.

(** [Rating.objects.filter(rated_user=u)], projected on [score] *)
Definition scores_received (s : Store) (u : nat) : list Z :=
  score <$> filter (λ r, rated_user r = u) (ratings s).

(** [Avg('score')]: NULL on an empty result set *)
Definition aggregate_avg (l : list Z) : option float :=
  match l with
  | [] => None
  | _ => Some (db_avg l)
  end.

(** [Count('id')] *)
Definition aggregate_count (l : list Z) : Z := Z.of_nat (length l).

Definition Profile_set_stats (avg : float) (total : Z) (p : Profile) : Profile :=
  mkProfile (bio p) (age p) (gender p) (profile_city p) (interests p)
            (verified p) (rating p) avg total.

(** [Profile.update_rating_stats] on the profile of user [u] *)
Definition Profile_update_rating_stats (s : Store) (u : nat) : Store :=
  let stats := scores_received s u in
  let avg_score := aggregate_avg stats in
  let total_count := aggregate_count stats in
  let average := match avg_score with
                 | Some x => py_round x 2
                 | None => float_zero
                 end in
  set_profiles (alter (Profile_set_stats average total_count) u) s.

(** [hasattr(user, 'profile')] *)
Definition has_profile (s : Store) (u : nat) : bool :=
  bool_decide (is_Some (profiles s !! u)).

(** ** [Block] queries *)

Definition Block_exists (s : Store) (blocker blocked : nat) : bool :=
  bool_decide ((blocker, blocked) ∈ blocks s).

(** [Block.objects.filter(Q(blocker=a, blocked_user=b) |
    Q(blocker=b, blocked_user=a)).exists()] *)
Definition Block_exists_between (s : Store) (a b : nat) : bool :=
  Block_exists s a b || Block_exists s b a.

(** ** [Rating] (models.py) *)

(** [activity.participants.filter(pk=u).exists()] *)
Definition is_participant (s : Store) (activity_id u : nat) : bool :=
  bool_decide ((activity_id, u) ∈ participants s).

(** [Rating.objects.filter(rater=u, activity=a).exists()] *)
Definition Rating_exists (s : Store) (u activity_id : nat) : bool :=
  existsb (λ r, bool_decide (rater r = u) && bool_decide (activity r = activity_id))
          (ratings s).

(** [Rating.clean].  The three foreign keys of a [Rating] value are
    always set and model instances are truthy, so the defensive test on
    top never fires; reading [self.activity] when the row is missing
    raises [RelatedObjectDoesNotExist]. *)
Definition Rating_clean (s : Store) (r : Rating) (now : Z) : Result unit :=
  match activities s !! activity r with
  | None => Raise RelatedObjectDoesNotExist
  | Some a =>
      if bool_decide (rater r = creator a) then
        Raise (ValidationError [creator_cannot_rate_themselves])
      else if negb (bool_decide (rated_user r = creator a)) then
        Raise (ValidationError [only_creator_can_be_rated])
      else if negb (is_participant s (activity r) (rater r)) then
        Raise (ValidationError [only_participants_can_rate])
      else if negb (Activity_is_past a now) then
        Raise (ValidationError [activity_not_yet_completed])
      else if Block_exists s (rater r) (creator a) then
        Raise (ValidationError [you_have_blocked_this_user])
      else if Block_exists s (creator a) (rater r) then
        Raise (ValidationError [this_user_has_blocked_you])
      else Ok ()
  end.

(** [Model.clean_fields] on a [Rating]: per field, in declaration order,
    the names of failing fields with their messages.  Foreign keys must
    name an existing row; [score] runs its two validators. *)
Definition Rating_clean_fields (s : Store) (r : Rating)
  : list (string * ValidationMsg) :=
  (if bool_decide (rater r ∈ users s) then []
   else [("rater", fk_does_not_exist "rater")]) ++
  (if bool_decide (rated_user r ∈ users s) then []
   else [("rated_user", fk_does_not_exist "rated_user")]) ++
  (if bool_decide (is_Some (activities s !! activity r)) then []
   else [("activity", fk_does_not_exist "activity")]) ++
  (if score r <? 1 then [("score", min_value_1)] else []) ++
  (if 5 <? score r then [("score", max_value_5)] else []).

Definition excluded (exclude : list string) (field : string) : bool :=
  bool_decide (field ∈ exclude).

(** [Model.validate_constraints] on a [Rating]: a constraint that reads
    an excluded field (one that failed [clean_fields]) is skipped. *)
Definition Rating_validate_constraints (s : Store) (r : Rating)
    (exclude : list string) : list ValidationMsg :=
  (if excluded exclude "rater" || excluded exclude "activity" then []
   else if Rating_exists s (rater r) (activity r)
        then [unique_rating_per_activity_per_rater] else []) ++
  (if excluded exclude "rater" || excluded exclude "rated_user" then []
   else if bool_decide (rater r = rated_user r)
        then [prevent_self_rating] else []) ++
  (if excluded exclude "score" then []
   else if (1 <=? score r) && (score r <=? 5) then []
        else [score_range_1_to_5]).

(** [Model.full_clean]: [clean_fields], then [clean] even when fields
    failed, then the constraints; every [ValidationError] is collected
    and one is raised at the end with all messages.  Any other exception
    propagates at once. *)
Definition Rating_full_clean (s : Store) (r : Rating) (now : Z) : Result unit :=
  let field_errors := Rating_clean_fields s r in
  match Rating_clean s r now with
  | Raise (ValidationError clean_errors) =>
      Raise (ValidationError
               (field_errors.*2 ++ clean_errors ++
                Rating_validate_constraints s r field_errors.*1))
  | Raise e => Raise e
  | Ok _ =>
      match field_errors.*2 ++
            Rating_validate_constraints s r field_errors.*1 with
      | [] => Ok ()
      | errors => Raise (ValidationError errors)
      end
  end.

(** [signals.update_rated_user_stats], the [post_save] receiver of
    [Rating] *)
Definition update_rated_user_stats (s : Store) (instance : Rating) : Store :=
  if has_profile s (rated_user instance)
  then Profile_update_rating_stats s (rated_user instance)
  else s.

Definition post_save_Rating (s : Store) (instance : Rating) : Store :=
  if signals_ready then update_rated_user_stats s instance else s.

(** [Rating.save]: validation, INSERT, then the [post_save] signal. *)
Definition Rating_save (s : Store) (r : Rating) (now : Z) : Result Store :=
  _ ← Rating_full_clean s r now;
  Ok (post_save_Rating (set_ratings (cons r) s) r).

(** ** [Connection] persistence

    [Connection.Meta.constraints]: [prevent_self_connection] and
    [unique_connection_pair] (same direction).  A write that breaks one
    raises [IntegrityError]. *)

Definition Connection_constraints_hold (others : list Connection) (c : Connection) : bool :=
  negb (bool_decide (sender c = receiver c)) &&
  negb (existsb (λ c', bool_decide (sender c' = sender c) &&
                       bool_decide (receiver c' = receiver c)) others).

Definition other_rows (pk : nat) (rows : list Connection) : list Connection :=
  filter (λ c, connection_pk c ≠ pk) rows.

(** UPDATE ... WHERE id = pk *)
Definition replace_row (c : Connection) (rows : list Connection) : list Connection :=
  fmap (λ c', if bool_decide (connection_pk c' = connection_pk c) then c else c')
       rows.

(** [connection.save()] on a loaded row: UPDATE by pk *)
Definition Connection_save (s : Store) (c : Connection) : Result Store :=
  if Connection_constraints_hold (other_rows (connection_pk c) (connections s)) c
  then Ok (set_connections (replace_row c) s)
  else Raise IntegrityError.

(** The key the next INSERT into the [Connection] table receives: the
    successor of the last one handed out. *)
Definition new_connection_pk (s : Store) : nat := S (connection_seq s).

(** [Connection.objects.create(...)]: INSERT under a new pk, which
    advances the id sequence *)
Definition Connection_create (s : Store) (from to : nat) (st : ConnectionStatus)
  : Result Store :=
  let c := mkConnection (new_connection_pk s) from to st in
  if Connection_constraints_hold (connections s) c
  then Ok (set_connection_seq (λ _, connection_pk c)
             (set_connections (cons c) s))
  else Raise IntegrityError.

(** [Q(sender=a, receiver=b) | Q(sender=b, receiver=a)] *)
Definition Connection_between (a b : nat) (c : Connection) : bool :=
  bool_decide (sender c = a ∧ receiver c = b) ||
  bool_decide (sender c = b ∧ receiver c = a).

Definition Connection_set_status (st : ConnectionStatus) (c : Connection) : Connection :=
  mkConnection (connection_pk c) (sender c) (receiver c) st.

(** ** [auth.User] creation and its [post_save] receivers (signals.py) *)

(** [create_user_profile]: [Profile.objects.get_or_create(user=instance)] *)
Definition create_user_profile (s : Store) (instance : nat) (created : bool) : Store :=
  if created then
    match profiles s !! instance with
    | Some _ => s
    | None => set_profiles (insert instance default_profile) s
    end
  else s.

(** [save_user_profile]: re-saves the profile row as it is *)
Definition save_user_profile (s : Store) (instance : nat) : Store := s.

Definition post_save_User (s : Store) (instance : nat) (created : bool) : Store :=
  if signals_ready
  then save_user_profile (create_user_profile s instance created) instance
  else s.

(** ** forms.py *)

(** [ProfileUpdateForm.clean_age] *)
Definition clean_age (age : option Z) : bool :=
  match age with
  | Some a => negb ((a <? 13) || (120 <? a))
  | None => true
  end.

(** [ActivityForm.clean_date]: [timezone.now().date()] is the day of the
    instant [now]. *)
Definition clean_date (d now : Z) : bool :=
  negb (d <? now `div` MICROSECONDS_PER_DAY).

Definition apply_profile_fields (f : ProfileFields) (p : Profile) : Profile :=
  mkProfile (f_bio f) (f_age f) (f_gender f) (f_city f) (f_interests f)
            (verified p) (rating p) (average_rating p) (total_ratings p).

(** ** views.py *)

Definition flash (to : Target) (l : Level) (t : Text) : Response :=
  Redirect to (Some (l, t)).

(** the authentication middleware: a session names a user only while
    the row exists *)
Definition request_user (s : Store) (req : Request) : option nat :=
  match session_user req with
  | Some u => if bool_decide (u ∈ users s) then Some u else None
  | None => None
  end.

Definition home (s : Store) (req : Request) : Store * Response :=
  match request_user s req with
  | Some _ => (s, Redirect to_discover None)
  | None => (s, Render "home.html" None)
  end.

Definition discover (s : Store) (user : nat) : Store * Response :=
  (s, Render "discover.html" None).

(** [register]: [form.save()] inserts the user, which fires the
    [post_save] receivers of [auth.User]; the [login] that follows only
    touches the session. *)
Definition register (s : Store) (m : Method) (builtin_ok : bool) : Store * Response :=
  if bool_decide (m = POST) then
    if builtin_ok then
      let user := fresh (users s) in
      let s := set_users (union {[user]}) s in
      let s := post_save_User s user true in
      (s, flash to_edit_profile SUCCESS account_created)
    else (s, Render "register.html" None)
  else (s, Render "register.html" None).

Definition login_view (s : Store) (m : Method) (credentials : option nat)
  : Store * Response :=
  if bool_decide (m = POST) then
    match credentials with
    | Some _ => (s, Redirect to_discover None)
    | None => (s, Render "login.html" (Some (ERROR, invalid_credentials)))
    end
  else (s, Render "login.html" None).

Definition edit_profile (s : Store) (user : nat) (m : Method)
    (builtin_ok : bool) (form : ProfileFields) : Store * Response :=
  match profiles s !! user with
  | None => (s, Http500)
  | Some profile =>
      if bool_decide (m = POST) then
        if builtin_ok && clean_age (f_age form) then
          (set_profiles (insert user (apply_profile_fields form profile)) s,
           flash to_discover SUCCESS profile_updated)
        else (s, Render "edit_profile.html" None)
      else (s, Render "edit_profile.html" None)
  end.

Definition create_activity (s : Store) (user : nat) (m : Method)
    (builtin_ok : bool) (form : ActivityFields) (now : Z) : Store * Response :=
  if bool_decide (m = POST) then
    if builtin_ok && clean_date (f_date form) now then
      let activity := mkActivity (f_title form) (f_description form)
                        (f_location form) (f_activity_city form)
                        (f_date form) (f_time form) user true in
      ((Activity_save s None activity now).1.1,
       flash to_discover SUCCESS activity_created)
    else (s, Render "create_activity.html" None)
  else (s, Render "create_activity.html" None).

Definition join_activity (s : Store) (user : nat) (id : nat) (now : Z)
  : Store * Response :=
  match activities s !! id with
  | None => (s, Http404)
  | Some activity =>
      if Block_exists_between s user (creator activity) then
        (s, flash to_discover ERROR cannot_join_this_activity)
      else if negb (is_active activity) then
        (s, flash to_discover ERROR activity_no_longer_active)
      else if Activity_is_past activity now then
        (s, flash to_discover ERROR cannot_join_past_activity)
      else if bool_decide (creator activity = user) then
        (s, flash to_discover ERROR cannot_join_own_activity)
      else if is_participant s id user then
        (s, flash to_discover INFO already_joined)
      else
        (set_participants (union {[(id, user)]}) s,
         flash to_discover SUCCESS (you_joined (title activity)))
  end.

Definition send_connection (s : Store) (user : nat) (id : nat) : Store * Response :=
  if negb (bool_decide (id ∈ users s)) then (s, Http404) else
  let receiver := id in
  if Block_exists_between s user receiver then
    (s, flash to_discover ERROR connection_not_allowed)
  else if bool_decide (user = receiver) then
    (s, flash to_discover ERROR cannot_connect_to_yourself)
  else
    let create :=
      match Connection_create s user receiver PENDING with
      | Ok s' => (s', flash to_discover SUCCESS (connection_request_sent receiver))
      | Raise _ => (s, Http500)
      end in
    match find (Connection_between user receiver) (connections s) with
    | Some existing_connection =>
        match status existing_connection with
        | ACCEPTED => (s, flash to_discover INFO already_connected)
        | PENDING =>
            if bool_decide (sender existing_connection = user)
            then (s, flash to_discover INFO request_already_sent)
            else (s, flash to_discover INFO incoming_request_exists)
        | REJECTED =>
            match Connection_save s
                    (mkConnection (connection_pk existing_connection)
                                  user receiver PENDING) with
            | Ok s' => (s', flash to_discover SUCCESS (connection_request_sent receiver))
            | Raise _ => (s, Http500)
            end
        end
    | None => create
    end.

Definition get_connection (s : Store) (id : nat) : option Connection :=
  find (λ c, bool_decide (connection_pk c = id)) (connections s).

Definition accept_connection (s : Store) (user : nat) (id : nat) : Store * Response :=
  match get_connection s id with
  | None => (s, Http404)
  | Some connection =>
      if negb (bool_decide (receiver connection = user)) then
        (s, flash to_discover ERROR not_authorized_to_accept)
      else if negb (bool_decide (status connection = PENDING)) then
        (s, flash to_discover INFO no_longer_pending)
      else
        match Connection_save s (Connection_set_status ACCEPTED connection) with
        | Ok s' => (s', flash to_discover SUCCESS (now_connected_with (sender connection)))
        | Raise _ => (s, Http500)
        end
  end.

Definition reject_connection (s : Store) (user : nat) (id : nat) : Store * Response :=
  match get_connection s id with
  | None => (s, Http404)
  | Some connection =>
      if negb (bool_decide (receiver connection = user)) then
        (s, flash to_discover ERROR not_authorized_to_reject)
      else if negb (bool_decide (status connection = PENDING)) then
        (s, flash to_discover INFO no_longer_pending)
      else
        match Connection_save s (Connection_set_status REJECTED connection) with
        | Ok s' => (s', flash to_discover INFO request_rejected)
        | Raise _ => (s, Http500)
        end
  end.

(** [is_safe_url]: on what [urlparse] returns the source answers
    [not parsed.netloc or parsed.netloc == parsed.netloc], which holds
    whatever was parsed; when [urlparse] raises, [except Exception]
    answers [False]. *)
Definition is_safe_url (referrer : Referer) : bool := urlparse_accepts referrer.

(** [redirect_to_referrer]: the target of the redirect it returns, or
    [None] when [redirect(referrer)] raises.  [redirect('discover')]
    names a route of urls.py and always resolves. *)
Definition redirect_to_referrer (req : Request) : option Target :=
  match HTTP_REFERER req with
  | Some referrer =>
      if negb (bool_decide (referer_url referrer = "")) && is_safe_url referrer
      then to_url <$> redirect_location referrer
      else Some to_discover
  | None => Some to_discover
  end.

(** The [except Exception] handler of [rate_user], entered on an
    exception raised before any message was queued: it queues the
    generic message and returns [redirect_to_referrer(request)]; when
    that raises, the exception leaves the view. *)
Definition rate_user_except (req : Request) : Response :=
  match redirect_to_referrer req with
  | Some back => flash back ERROR unexpected_error
  | None => Raised [(ERROR, unexpected_error)]
  end.

(** [messages.<level>(request, text); return redirect_to_referrer(request)]
    inside the [try] of [rate_user].  When [redirect] raises, the
    handler catches the exception with [(l, t)] already queued, queues
    the generic message behind it, and its own
    [redirect_to_referrer(request)] raises again, out of the view. *)
Definition rate_user_reply (req : Request) (l : Level) (t : Text) : Response :=
  match redirect_to_referrer req with
  | Some back => flash back l t
  | None => Raised [(l, t); (ERROR, unexpected_error)]
  end.

(** [rate_user].  views.py binds this name twice; the later [def]
    replaces the earlier one and is the view urls.py routes to.  The whole
    body sits in [try ... except Exception], so [Http404] and any error
    raised while saving end in the same generic message, and
    [transaction.atomic] discards the writes of a failed save.  The
    success message is queued and the redirect built after the
    [transaction.atomic] block has committed. *)
Definition rate_user (s : Store) (user : nat) (activity_id user_id : nat)
    (req : Request) (now : Z) : Store * Response :=
  let reply := rate_user_reply req in
  let unexpected := (s, rate_user_except req) in
  let score := POST_data req !! "score" in
  let feedback := default "" (POST_data req !! "feedback") in
  match score with
  | None => (s, reply ERROR score_required)
  | Some score =>
  if bool_decide (score = "") then (s, reply ERROR score_required) else
  match py_int score with
  | None => (s, reply ERROR invalid_score)
  | Some score =>
  if negb (bool_decide (user_id ∈ users s)) then unexpected else
  let rated_user := user_id in
  match activities s !! activity_id with
  | None => unexpected
  | Some activity =>
  if bool_decide (user = rated_user) then
    (s, reply ERROR cannot_rate_yourself)
  else if negb (is_participant s activity_id user) then
    (s, reply ERROR must_have_participated)
  else if negb (Activity_is_past activity now) then
    (s, reply ERROR only_after_completed)
  else if Rating_exists s user activity_id then
    (s, reply WARNING already_rated)
  else if Block_exists s user rated_user then
    (s, reply ERROR (you_blocked_them rated_user))
  else if Block_exists s rated_user user then
    (s, reply ERROR (they_blocked_you rated_user))
  else
    let rating := mkRating user rated_user activity_id score (strip feedback) in
    match Rating_full_clean s rating now with
    | Raise (ValidationError error_messages) =>
        (s, reply ERROR (rating_validation_failed error_messages))
    | Raise _ => unexpected
    | Ok _ =>
        match Rating_save s rating now with
        | Raise _ => unexpected
        | Ok s' =>
            let s' := if has_profile s' rated_user
                      then Profile_update_rating_stats s' rated_user
                      else s' in
            (s', reply SUCCESS (successfully_rated rated_user score))
        end
    end
  end end end.

(** [Report.objects.filter(reporter=a, reported_user=b).exists()] *)
Definition Report_exists (s : Store) (a b : nat) : bool :=
  existsb (λ r, bool_decide (reporter r = a) && bool_decide (reported_user r = b))
          (reports s).

Definition report_user (s : Store) (user : nat) (user_id : nat) (req : Request)
  : Store * Response :=
  if negb (bool_decide (user_id ∈ users s)) then (s, Http404) else
  let reported_user := user_id in
  if bool_decide (user = reported_user) then
    (s, flash to_discover ERROR cannot_report_yourself)
  else if Report_exists s user reported_user then
    (s, flash to_discover INFO already_reported)
  else if bool_decide (method req = POST) then
    let reason := strip (default "" (POST_data req !! "reason")) in
    if bool_decide (reason = "") then
      (s, flash to_discover ERROR report_reason_empty)
    else
      (set_reports (cons (mkReport user reported_user reason)) s,
       flash to_discover SUCCESS user_reported)
  else (s, Render "report_user.html" None).

Definition block_user (s : Store) (user : nat) (user_id : nat) : Store * Response :=
  if negb (bool_decide (user_id ∈ users s)) then (s, Http404) else
  let user_to_block := user_id in
  if bool_decide (user = user_to_block) then
    (s, flash to_discover ERROR cannot_block_yourself)
  else if Block_exists s user user_to_block then
    (s, flash to_discover INFO user_already_blocked)
  else
    let s := set_connections
               (filter (λ c, ¬ Connection_between user user_to_block c)) s in
    let s := set_blocks (union {[(user, user_to_block)]}) s in
    (s, flash to_discover SUCCESS user_blocked).

Definition unblock_user (s : Store) (user : nat) (user_id : nat) : Store * Response :=
  if negb (bool_decide (user_id ∈ users s)) then (s, Http404) else
  let user_to_unblock := user_id in
  (set_blocks (λ b, b ∖ {[(user, user_to_unblock)]}) s,
   flash to_discover SUCCESS user_unblocked).

Definition logout_view (s : Store) (user : nat) : Store * Response :=
  (s, Redirect to_login None).

(** ** urls.py *)

(** [@login_required] *)
Definition login_required (s : Store) (req : Request)
    (view : nat → Store * Response) : Store * Response :=
  match request_user s req with
  | Some user => view user
  | None => (s, Redirect to_login None)
  end.

(** [@require_http_methods(["POST"])] *)
Definition require_POST (s : Store) (req : Request)
    (view : Store * Response) : Store * Response :=
  if bool_decide (method req = POST) then view else (s, Http405).

(** [urlpatterns]: one request, served at instant [now] *)
Definition urlpatterns (s : Store) (now : Z) (req : Request) : Store * Response :=
  match route req with
  | path_home => home s req
  | path_discover => login_required s req (discover s)
  | path_register ok => register s (method req) ok
  | path_login credentials => login_view s (method req) credentials
  | path_logout => login_required s req (logout_view s)
  | path_edit_profile ok form =>
      login_required s req (λ u, edit_profile s u (method req) ok form)
  | path_create_activity ok form =>
      login_required s req (λ u, create_activity s u (method req) ok form now)
  | path_join id => login_required s req (λ u, join_activity s u id now)
  | path_connect id => login_required s req (λ u, send_connection s u id)
  | path_accept id => login_required s req (λ u, accept_connection s u id)
  | path_reject id => login_required s req (λ u, reject_connection s u id)
  | path_rate activity_id user_id =>
      login_required s req
        (λ u, require_POST s req (rate_user s u activity_id user_id req now))
  | path_report user_id => login_required s req (λ u, report_user s u user_id req)
  | path_block user_id => login_required s req (λ u, block_user s u user_id)
  | path_unblock user_id => login_required s req (λ u, unblock_user s u user_id)
  end.

(** A history of the site: requests with the instants they were served
    at, oldest first, starting from an empty database. *)
Definition serve (s : Store) (h : list (Z * Request)) : Store :=
  foldl (λ s e, (urlpatterns s e.1 e.2).1) s h.

End Core.

(** ** A concrete runtime

    A double is represented by the rational it is; the average is the
    quotient of the sum by the count, rounded once to the nearest
    double, and [round] rounds the double's exact value half to even at
    the given decimal and answers with the nearest double.  [int] reads
    Python's decimal integer literals (among the code points below 256
    the decimal digits are [0] to [9]), and UTC is the current timezone.
    Used to run the model on concrete data. *)

Definition is_decimal_digit (c : Ascii.ascii) : bool :=
  let n := Ascii.N_of_ascii c in ((48 <=? n) && (n <=? 57))%N.

(** The digits of a literal, in which single underscores may separate
    digits: the value and the number of digits. *)
Fixpoint digits_value (s : string) (acc : Z) (count : nat) : option (Z * nat) :=
  match s with
  | EmptyString => Some (acc, count)
  | String c rest =>
      if is_decimal_digit c then
        digits_value rest (10 * acc + Z.of_N (Ascii.N_of_ascii c - 48)) (S count)
      else if (Ascii.N_of_ascii c =? 95)%N then
        match rest with
        | String d _ =>
            if is_decimal_digit d then digits_value rest acc count else None
        | EmptyString => None
        end
      else None
  end.

(** [sys.get_int_max_str_digits()], the interpreter's default *)
Definition MAX_STR_DIGITS : nat := 4300.

(** An unsigned literal: it starts with a digit and has no more digits
    than the interpreter converts. *)
Definition decimal_literal (s : string) : option Z :=
  match s with
  | String c _ =>
      if is_decimal_digit c then
        match digits_value s 0 0 with
        | Some (v, n) => if (MAX_STR_DIGITS <? n)%nat then None else Some v
        | None => None
        end
      else None
  | EmptyString => None
  end.

(** [int(s)] for a string: surrounding whitespace, an optional sign, a
    literal *)
Definition decimal_int (s : string) : option Z :=
  match strip s with
  | EmptyString => None
  | String c rest =>
      if (Ascii.N_of_ascii c =? 45)%N then Z.opp <$> decimal_literal rest
      else if (Ascii.N_of_ascii c =? 43)%N then decimal_literal rest
      else decimal_literal (String c rest)
  end.

(** the integer nearest to [y], ties to even *)
Definition nearest_even (y : Q) : Z :=
  let f := Qfloor y in
  match Qcompare (y - inject_Z f) (1 # 2) with
  | Lt => f
  | Gt => f + 1
  | Eq => if Z.even f then f else f + 1
  end.

(** The double nearest to [x], ties to even, for [x] within the range of
    doubles: 53 significant bits, and no bit below [2 ^ -1074]. *)
Definition binary64 (x : Q) : Q :=
  if Qeq_bool x 0 then 0%Q else
  let a := (Z.abs (Qnum x) # Qden x)%Q in
  let e0 := Z.log2 (Qnum a) - Z.log2 (Zpos (Qden a)) in
  let e := if Qle_bool (2 ^ e0)%Q a then e0 else e0 - 1 in
  let shift := Z.min (52 - e) 1074 in
  let m := nearest_even (a * 2 ^ shift)%Q in
  Qred (inject_Z (Z.sgn (Qnum x) * m) * 2 ^ (- shift))%Q.

Definition mean (l : list Z) : Q :=
  binary64 (foldr Z.add 0 l # Pos.of_nat (length l)).

(** [round(x, ndigits)] on a double: beyond 323 decimals it answers [x],
    below -308 zero. *)
Definition round_half_even (x : Q) (ndigits : Z) : Q :=
  if 323 <? ndigits then x
  else if ndigits <? -308 then 0%Q
  else
    let scale := (10 ^ ndigits)%Q in
    binary64 (inject_Z (nearest_even (x * scale)%Q) / scale)%Q.

Definition exact_runtime : Runtime := {|
  float := Q;
  float_zero := 0%Q;
  db_avg := mean;
  py_round := round_half_even;
  py_int := decimal_int;
  py_int_empty := eq_refl;
  make_aware := λ naive, naive;
  signals_ready := true
|}.

(** ** Outcomes in the vocabulary of the specification *)

Inductive Reason :=
  | Forbidden | InvalidState | InvalidOperation | AlreadyExists
  | InvalidInput | NotFound | OperationFailed
  | SelfRatingForbidden | OnlyCreatorCanBeRated | NotAParticipant
  | ActivityNotCompleted | DuplicateRating | BlockedRelationship
  | InvalidScore
  | AlreadyConnected | RequestAlreadySent | IncomingRequestExists.

Global Instance Reason_eq_dec : EqDecision Reason.
Proof. solve_decision. Defined.

Definition reason_of_validation (m : ValidationMsg) : Reason :=
  match m with
  | fk_does_not_exist _ => NotFound
  | min_value_1 | max_value_5 | score_range_1_to_5 => InvalidScore
  | invalid_rating_configuration => InvalidInput
  | creator_cannot_rate_themselves | prevent_self_rating => SelfRatingForbidden
  | only_creator_can_be_rated => OnlyCreatorCanBeRated
  | only_participants_can_rate => NotAParticipant
  | activity_not_yet_completed => ActivityNotCompleted
  | you_have_blocked_this_user | this_user_has_blocked_you => BlockedRelationship
  | unique_rating_per_activity_per_rater => DuplicateRating
  end.

(** The reasons a message reports; none for a success message. *)
Definition reasons_of_text (t : Text) : list Reason :=
  match t with
  | invalid_credentials => [Forbidden]
  | cannot_join_this_activity => [Forbidden]
  | activity_no_longer_active | cannot_join_past_activity => [InvalidState]
  | cannot_join_own_activity => [InvalidOperation]
  | already_joined => [AlreadyExists]
  | connection_not_allowed => [Forbidden]
  | cannot_connect_to_yourself => [InvalidOperation]
  | already_connected => [AlreadyConnected]
  | request_already_sent => [RequestAlreadySent]
  | incoming_request_exists => [IncomingRequestExists]
  | not_authorized_to_accept | not_authorized_to_reject => [Forbidden]
  | no_longer_pending => [InvalidState]
  | cannot_report_yourself => [InvalidOperation]
  | already_reported => [AlreadyExists]
  | report_reason_empty => [InvalidInput]
  | cannot_block_yourself => [InvalidOperation]
  | user_already_blocked => [AlreadyExists]
  | score_required | invalid_score => [InvalidScore]
  | cannot_rate_yourself => [SelfRatingForbidden]
  | must_have_participated => [NotAParticipant]
  | only_after_completed => [ActivityNotCompleted]
  | already_rated => [DuplicateRating]
  | you_blocked_them _ | they_blocked_you _ => [BlockedRelationship]
  | rating_validation_failed errors => reason_of_validation <$> errors
  | unexpected_error => [OperationFailed]
  | account_created | profile_updated | activity_created | you_joined _
  | connection_request_sent _ | now_connected_with _ | request_rejected
  | user_reported | user_blocked | user_unblocked
  | successfully_rated _ _ => []
  end.

(** The message of a response: the first one the view queued. *)
Definition message_of (r : Response) : option (Level * Text) :=
  match r with
  | Redirect _ m | Render _ m => m
  | Http404 | Http405 | Http500 => None
  | Raised queued => head queued
  end.

Definition level_of (r : Response) : option Level := fst <$> message_of r.

(** The reasons a response reports: those of every message it queued;
    an error status without messages reports itself. *)
Definition reasons (r : Response) : list Reason :=
  match r with
  | Http404 => [NotFound]
  | Http405 | Http500 => [OperationFailed]
  | Raised queued => queued ≫= λ m, reasons_of_text m.2
  | _ => from_option (λ m, reasons_of_text m.2) [] (message_of r)
  end.

(** "An ordered sequence of boolean checks where the first failing check
    determines the reported reason": each entry is a check that must
    hold and the reason reported when it does not. *)
Fixpoint first_failure (checks : list (bool * Reason)) : option Reason :=
  match checks with
  | [] => None
  | (holds, r) :: rest => if holds then first_failure rest else Some r
  end.

Section Contracts.
Context `{RT : Runtime}.

(** The checks of [join] in the order the specification lists them. *)
Definition join_checks (s : Store) (user id : nat) (a : Activity) (now : Z)
  : list (bool * Reason) :=
  [ (negb (Block_exists_between s user (creator a)), Forbidden);
    (is_active a, InvalidState);
    (negb (Activity_is_past a now), InvalidState);
    (negb (bool_decide (user = creator a)), InvalidOperation);
    (negb (is_participant s id user), AlreadyExists) ].

(** [can_rate] as the specification orders it. *)
Definition can_rate_checks (s : Store) (rater rated_user activity_id : nat)
    (a : Activity) (now : Z) : list (bool * Reason) :=
  [ (negb (bool_decide (rater = rated_user)), SelfRatingForbidden);
    (bool_decide (rated_user = creator a), OnlyCreatorCanBeRated);
    (is_participant s activity_id rater, NotAParticipant);
    (Activity_is_past a now, ActivityNotCompleted);
    (negb (Rating_exists s rater activity_id), DuplicateRating);
    (negb (Block_exists_between s rater rated_user), BlockedRelationship) ].

(** The same checks in the order [rate_user] reaches them: the view's
    own five, then the two creator checks of [Rating.clean]. *)
Definition rate_user_checks (s : Store) (rater rated_user activity_id : nat)
    (a : Activity) (now : Z) : list (bool * Reason) :=
  [ (negb (bool_decide (rater = rated_user)), SelfRatingForbidden);
    (is_participant s activity_id rater, NotAParticipant);
    (Activity_is_past a now, ActivityNotCompleted);
    (negb (Rating_exists s rater activity_id), DuplicateRating);
    (negb (Block_exists_between s rater rated_user), BlockedRelationship);
    (negb (bool_decide (rater = creator a)), SelfRatingForbidden);
    (bool_decide (rated_user = creator a), OnlyCreatorCanBeRated) ].

(** [file_report] as the specification orders it. *)
Definition file_report_checks (s : Store) (reporter reported_user : nat)
    (reason : string) : list (bool * Reason) :=
  [ (negb (bool_decide (reporter = reported_user)), InvalidOperation);
    (negb (bool_decide (strip reason = "")), InvalidInput);
    (negb (Report_exists s reporter reported_user), AlreadyExists) ].

(** The same checks in the order [report_user] reaches them. *)
Definition report_user_checks (s : Store) (reporter reported_user : nat)
    (reason : string) : list (bool * Reason) :=
  [ (negb (bool_decide (reporter = reported_user)), InvalidOperation);
    (negb (Report_exists s reporter reported_user), AlreadyExists);
    (negb (bool_decide (strip reason = "")), InvalidInput) ].

(** The statistics the specification requires of a profile:
    [round(mean(scores), 2)], or [0.0] without ratings, and the count. *)
Definition expected_average (scores : list Z) : float :=
  match scores with
  | [] => float_zero
  | _ => py_round (db_avg scores) 2
  end.

Definition stats_current (s : Store) (u : nat) (p : Profile) : Prop :=
  average_rating p = expected_average (scores_received s u) ∧
  total_ratings p = Z.of_nat (length (scores_received s u)).

(** "All Ratings where rated_user == u", read off the table row by row. *)
Fixpoint ratings_received (u : nat) (rows : list Rating) : list Rating :=
  match rows with
  | [] => []
  | r :: rows =>
      if Nat.eqb (rated_user r) u
      then r :: ratings_received u rows
      else ratings_received u rows
  end.

(** How [rate_user] answers once it has queued the message [(l, t)]:
    with a redirect that carries this message alone, to the discover
    page when the request has no referrer, an empty one or one that
    [urlparse] refuses, and to the location [redirect] makes of the
    referrer otherwise; when [redirect] raises, with an error, the
    generic message queued behind [(l, t)]. *)
Definition answered (req : Request) (l : Level) (t : Text) (out : Response)
  : Prop :=
  message_of out = Some (l, t) ∧
  match HTTP_REFERER req with
  | None => out = Redirect to_discover (Some (l, t))
  | Some referrer =>
      if bool_decide (referer_url referrer = "") || negb (urlparse_accepts referrer)
      then out = Redirect to_discover (Some (l, t))
      else match redirect_location referrer with
           | Some url => out = Redirect (to_url url) (Some (l, t))
           | None => out = Raised [(l, t); (ERROR, unexpected_error)]
           end
  end.

(** The relationship ledger is well formed: every connection joins two
    distinct existing users that have not blocked each other, primary
    keys are unique, no two rows join the same unordered pair, and
    every block joins two existing users, never a user with themselves. *)
Record ledger_inv (us : gset nat) (cs : list Connection)
    (bs : gset (nat * nat)) : Prop := {
  conn_users : ∀ c, c ∈ cs → sender c ∈ us ∧ receiver c ∈ us;
  conn_not_self : ∀ c, c ∈ cs → sender c ≠ receiver c;
  conn_not_blocked :
    ∀ c, c ∈ cs →
      ((sender c, receiver c) ∉ bs) ∧ ((receiver c, sender c) ∉ bs);
  conn_pk_unique : NoDup (connection_pk <$> cs);
  conn_pair_unique :
    ∀ c1 c2, c1 ∈ cs → c2 ∈ cs →
      Connection_between (sender c1) (receiver c1) c2 = true → c1 = c2;
  block_users : ∀ a b, (a, b) ∈ bs → a ∈ us ∧ b ∈ us;
  block_not_self : ∀ a, (a, a) ∉ bs
}.

Definition ledger_ok (s : Store) : Prop :=
  ledger_inv (users s) (connections s) (blocks s).

(** Every key in the [Connection] table was handed out by its id
    sequence. *)
Definition connection_keys_ok (s : Store) : Prop :=
  ∀ c, c ∈ connections s → (connection_pk c ≤ connection_seq s)%nat.

(** What saving a rating leaves alone. *)
Definition same_but_ratings_and_profiles (s s' : Store) : Prop :=
  users s' = users s ∧ activities s' = activities s ∧
  participants s' = participants s ∧ connections s' = connections s ∧
  reports s' = reports s ∧ blocks s' = blocks s.

End Contracts.

(** ** Sample data

    Three users; one activity created by [carol] on day 10 at midnight,
    joined by [alice]; a rejected connection from [alice] to [bob]; one
    report by [alice] against [bob]. *)

Definition alice : nat := 1.
Definition bob : nat := 2.
Definition carol : nat := 3.

Definition hike : Activity :=
  mkActivity "Hike" "" "Trailhead" "Pune" 10 0 carol true.

Definition day (n : Z) : Z := n * MICROSECONDS_PER_DAY.

Definition sample_store : @Store exact_runtime :=
  @mkStore exact_runtime
    {[alice; bob; carol]}
    (<[alice := @default_profile exact_runtime]>
       (<[bob := @default_profile exact_runtime]>
          {[carol := @default_profile exact_runtime]}))
    {[0%nat := hike]}
    {[(0%nat, alice)]}
    [mkConnection 1 alice bob REJECTED]
    1%nat
    [mkReport alice bob "spam"]
    ∅
    [].

(** A POST request with the given form data. *)
Definition post_request (u : nat) (r : Route) (data : list (string * string))
  : Request :=
  mkRequest (Some u) POST r (list_to_map data) None.

(** Two users register (pks 0 and 1), user 0 asks user 1 to connect, and
    user 1 rejects the request. *)
Definition sample_history : list (Z * Request) :=
  [ (0, mkRequest None POST (path_register true) ∅ None);
    (1, mkRequest None POST (path_register true) ∅ None);
    (2, post_request 0 (path_connect 1) []);
    (3, post_request 1 (path_reject 1) []) ].

(** ** Further code: the discover listing, counts, the admin preview *)

Section Listing.
Context `{RT : Runtime}.

(** [discover]: the [users] queryset handed to the template, as the set
    of profile rows it selects (the template order is not modelled):
    [Profile.objects.exclude(user__id__in=blocked_users)
       .exclude(user__id__in=blocked_by).exclude(user=request.user)]. *)
Definition discover_users (s : Store) (user : nat) : gmap nat Profile :=
  filter (λ row, ((user, row.1) ∉ blocks s) ∧ ((row.1, user) ∉ blocks s) ∧
                 row.1 ≠ user)
         (profiles s).

(** [discover]: [Activity.objects.filter(is_active=True)] *)
Definition discover_activities (s : Store) : gmap nat Activity :=
  filter (λ row, is_active row.2 = true) (activities s).

(** [Activity.participant_count] *)
Definition Activity_participant_count (s : Store) (id : nat) : nat :=
  size (filter (λ row, row.1 = id) (participants s)).

End Listing.

(** [ReportAdmin.reason_preview] (admin.py):
    [obj.reason[:50] + "..." if len(obj.reason) > 50 else obj.reason] *)
Definition reason_preview (reason : string) : string :=
  if (50 <? String.length reason)%nat
  then String.append (String.substring 0 50 reason) "..."
  else reason.

(** ** What one request can do to the store, and what every history keeps *)

Section Effects.
Context `{RT : Runtime}.

(** What a rating must satisfy for [Rating.save] to store it. *)
Definition Rating_acceptable (s : Store) (r : Rating) (now : Z) : Prop :=
  rater r ∈ users s ∧ rated_user r ∈ users s ∧ 1 ≤ score r ≤ 5 ∧
  rater r ≠ rated_user r ∧
  Rating_exists s (rater r) (activity r) = false ∧
  ∃ a, activities s !! activity r = Some a ∧
       rated_user r = creator a ∧
       (activity r, rater r) ∈ participants s ∧
       Activity_is_past a now = true ∧
       Block_exists_between s (rater r) (rated_user r) = false.

(** The writes a request can make, each with the facts the code has
    checked before it makes them. *)
Inductive Effect (s : Store) : Store → Prop :=
  | eff_none : Effect s s
  | eff_register (u : nat) (ps : gmap nat Profile) :
      u ∉ users s →
      ps = profiles s ∨
        (profiles s !! u = None ∧ ps = <[u := default_profile]> (profiles s)) →
      (signals_ready = true → is_Some (ps !! u)) →
      Effect s (set_profiles (λ _, ps) (set_users (union {[u]}) s))
  | eff_edit_profile (u : nat) (p : Profile) (form : ProfileFields) :
      u ∈ users s →
      profiles s !! u = Some p →
      clean_age (f_age form) = true →
      Effect s (set_profiles (insert u (apply_profile_fields form p)) s)
  | eff_create_activity (u i : nat) (a : Activity) (now : Z) :
      u ∈ users s →
      creator a = u →
      activities s !! i = None →
      is_active a = negb (Activity_is_past a now) →
      Effect s (set_activities (insert i a) s)
  | eff_join (u id : nat) (a : Activity) (now : Z) :
      u ∈ users s →
      activities s !! id = Some a →
      creator a ≠ u →
      Block_exists_between s u (creator a) = false →
      is_active a = true →
      Activity_is_past a now = false →
      (id, u) ∉ participants s →
      Effect s (set_participants (union {[(id, u)]}) s)
  | eff_connections (cs : list Connection) (n : nat) (bs : gset (nat * nat)) :
      Effect s (set_blocks (λ _, bs)
                  (set_connection_seq (λ _, n) (set_connections (λ _, cs) s)))
  | eff_rate (r : Rating) (a : Activity) (now : Z) :
      rater r ∈ users s →
      rated_user r ∈ users s →
      activities s !! activity r = Some a →
      creator a = rated_user r →
      rater r ≠ rated_user r →
      (activity r, rater r) ∈ participants s →
      Activity_is_past a now = true →
      Block_exists_between s (rater r) (rated_user r) = false →
      Rating_exists s (rater r) (activity r) = false →
      1 ≤ score r ≤ 5 →
      Effect s (Profile_update_rating_stats (set_ratings (cons r) s)
                  (rated_user r))
  | eff_report (r : Report) :
      reporter r ∈ users s →
      reported_user r ∈ users s →
      reporter r ≠ reported_user r →
      Report_exists s (reporter r) (reported_user r) = false →
      reason r ≠ "" →
      Effect s (set_reports (cons r) s).

(** Every rating row is within the rules: one per (rater, activity), a
    score in 1..5, given by a participant to the creator of the
    activity, both existing users, never to oneself. *)
Definition ratings_ok (s : Store) : Prop :=
  NoDup ((λ r, (rater r, activity r)) <$> ratings s) ∧
  ∀ r, r ∈ ratings s →
    1 ≤ score r ≤ 5 ∧ rater r ≠ rated_user r ∧
    rater r ∈ users s ∧ rated_user r ∈ users s ∧
    (activity r, rater r) ∈ participants s ∧
    ∃ a, activities s !! activity r = Some a ∧ creator a = rated_user r.

(** Profiles belong to users and their statistics are current. *)
Definition profiles_ok (s : Store) : Prop :=
  dom (profiles s) ⊆ users s ∧
  (signals_ready = true → users s ⊆ dom (profiles s)) ∧
  ∀ u p, profiles s !! u = Some p → stats_current s u p.

(** Participant rows join an existing user to an existing activity that
    someone else created. *)
Definition participants_ok (s : Store) : Prop :=
  ∀ id u, (id, u) ∈ participants s →
    u ∈ users s ∧ ∃ a, activities s !! id = Some a ∧ creator a ≠ u.

(** Every activity was created by an existing user. *)
Definition activities_ok (s : Store) : Prop :=
  ∀ id a, activities s !! id = Some a → creator a ∈ users s.

(** One report per (reporter, reported user), between two distinct
    existing users, with a reason. *)
Definition reports_ok (s : Store) : Prop :=
  NoDup ((λ r, (reporter r, reported_user r)) <$> reports s) ∧
  ∀ r, r ∈ reports s →
    reporter r ≠ reported_user r ∧ reason r ≠ "" ∧
    reporter r ∈ users s ∧ reported_user r ∈ users s.

Definition store_ok (s : Store) : Prop :=
  ratings_ok s ∧ profiles_ok s ∧ participants_ok s ∧ activities_ok s ∧
  reports_ok s.

End Effects.

(** ** More sample data *)

(** Two users register and user 0 asks user 1 to connect. *)
Definition pending_history : list (Z * Request) :=
  [ (0, mkRequest None POST (path_register true) ∅ None);
    (1, mkRequest None POST (path_register true) ∅ None);
    (2, post_request 0 (path_connect 1) []) ].

(** Two users register, user 0 asks user 1 to connect, then blocks user
    1, which deletes the request, and unblocks user 1 again. *)
Definition unblocked_history : list (Z * Request) :=
  [ (0, mkRequest None POST (path_register true) ∅ None);
    (1, mkRequest None POST (path_register true) ∅ None);
    (2, post_request 0 (path_connect 1) []);
    (3, post_request 0 (path_block 1) []);
    (4, post_request 0 (path_unblock 1) []) ].

(** A POST request with the given form data and a [Referer] that names
    no address and no route: [redirect] raises on it. *)
Definition post_request_from (referrer : string) (u : nat) (r : Route)
    (data : list (string * string)) : Request :=
  mkRequest (Some u) POST r (list_to_map data)
            (Some (mkReferer referrer true None)).

(** Three users register; user 2 creates a hike for day 10; user 0
    joins it, connects with user 1, who accepts; after the hike user 0
    rates user 2 with 4, and user 1 reports user 0. *)
Definition busy_history : list (Z * Request) :=
  [ (0, mkRequest None POST (path_register true) ∅ None);
    (1, mkRequest None POST (path_register true) ∅ None);
    (2, mkRequest None POST (path_register true) ∅ None);
    (day 1, post_request 2
              (path_create_activity true
                 (mkActivityFields "Hike" "" "Trailhead" "Pune" 10 0)) []);
    (day 2, post_request 0 (path_join 0) []);
    (day 2, post_request 0 (path_connect 1) []);
    (day 3, post_request 1 (path_accept 1) []);
    (day 11, post_request 0 (path_rate 0 2) [("score", "4")]);
    (day 11, post_request 1 (path_report 0) [("reason", "rude")]) ].

(** * Properties *)

Section Properties.
Context `{RT : Runtime}.

(** ** Activity lifecycle *)

Lemma Activity_is_past_set_is_active (b : bool) (a : Activity) (now : Z) :
  Activity_is_past (Activity_set_is_active b a) now = Activity_is_past a now.
Proof. reflexivity. Qed.

Lemma Activity_pre_save_is_past (a : Activity) (now : Z) :
  Activity_is_past (Activity_pre_save a now) now = Activity_is_past a now.
Proof.
  unfold Activity_pre_save.
  destruct (Activity_is_past a now && is_active a); reflexivity.
Qed.

Lemma Activity_pre_save_inactive (a : Activity) (now : Z) :
  Activity_is_past a now = true → is_active (Activity_pre_save a now) = false.
Proof.
  intros Hpast. unfold Activity_pre_save. rewrite Hpast. simpl.
  destruct (is_active a) eqn:Hact; [reflexivity | exact Hact].
Qed.

(** C2.  Whatever instance is saved, under a new key or over an existing
    row, at whatever instant: if the instance the save leaves behind is
    past at that instant then it is inactive, and the stored row is that
    same inactive instance. *)
Theorem Activity_save_deactivates_past
    (s s' : Store) (pk : option nat) (a a' : Activity) (i : nat) (now : Z) :
  Activity_save s pk a now = (s', i, a') →
  Activity_is_past a' now = true →
  is_active a' = false ∧ activities s' !! i = Some a' ∧
  (∀ j, pk = Some j → i = j).
Proof.
  unfold Activity_save. intros Hsave Hpast.
  injection Hsave as Hs Hi Ha. subst s' a'.
  rewrite Activity_pre_save_is_past in Hpast.
  split; [by apply Activity_pre_save_inactive |].
  split; [rewrite <- Hi; simpl; apply lookup_insert_eq |].
  intros j ->. by rewrite <- Hi.
Qed.

(** ** Joining an activity *)

(** C7.  On an existing activity the checks of [join] are reached in the
    specification's order: the first one that fails fixes the reported
    reason and nothing is written (the duplicate is reported at level
    INFO, every other failure at level ERROR); when none fails the user
    is a participant of the activity afterwards: the participant table
    is the old one with the row (activity, user) added, the user was not
    in it before, and every other table is as it was. *)
Theorem join_activity_check_order
    (s : Store) (user id : nat) (a : Activity) (now : Z) :
  activities s !! id = Some a →
  match first_failure (join_checks s user id a now) with
  | Some r =>
      (join_activity s user id now).1 = s ∧
      reasons (join_activity s user id now).2 = [r] ∧
      level_of (join_activity s user id now).2
        = Some (if decide (r = AlreadyExists) then INFO else ERROR)
  | None =>
      (join_activity s user id now).1
        = set_participants (union {[(id, user)]}) s ∧
      level_of (join_activity s user id now).2 = Some SUCCESS ∧
      let s' := (join_activity s user id now).1 in
      ((id, user) ∉ participants s) ∧
      ((id, user) ∈ participants s') ∧
      is_participant s' id user = true ∧
      participants s' = {[(id, user)]} ∪ participants s ∧
      (∀ row, row ∈ participants s' ↔ row = (id, user) ∨ row ∈ participants s) ∧
      users s' = users s ∧ profiles s' = profiles s ∧
      activities s' = activities s ∧ connections s' = connections s ∧
      connection_seq s' = connection_seq s ∧ reports s' = reports s ∧
      blocks s' = blocks s ∧ ratings s' = ratings s
  end.
Proof.
  intros Ha. unfold join_activity, join_checks. rewrite Ha. simpl.
  rewrite (bool_decide_ext (creator a = user) (user = creator a))
    by (split; congruence).
  destruct (Block_exists_between s user (creator a)); simpl; [done |].
  destruct (is_active a); simpl; [| done].
  destruct (Activity_is_past a now); simpl; [done |].
  destruct (bool_decide (user = creator a)); simpl; [done |].
  destruct (is_participant s id user) eqn:Hpart; simpl; [done |].
  apply bool_decide_eq_false in Hpart.
  split_and!; try done.
  - apply elem_of_union_l, elem_of_singleton. done.
  - unfold is_participant. simpl. apply bool_decide_eq_true.
    apply elem_of_union_l, elem_of_singleton. done.
  - intros row. rewrite elem_of_union, elem_of_singleton. done.
Qed.

(** ** Saving a rating *)

Lemma Rating_save_Ok (s s' : Store) (r : Rating) (now : Z) :
  Rating_save s r now = Ok s' →
  Rating_full_clean s r now = Ok () ∧
  s' = post_save_Rating (set_ratings (cons r) s) r.
Proof.
  unfold Rating_save, mbind, Result_bind.
  destruct (Rating_full_clean s r now) as [[] | e]; [| discriminate].
  intros [= <-]. done.
Qed.

Lemma Rating_full_clean_Ok (s : Store) (r : Rating) (now : Z) :
  Rating_full_clean s r now = Ok () →
  Rating_clean s r now = Ok () ∧ Rating_clean_fields s r = [] ∧
  Rating_validate_constraints s r [] = [].
Proof.
  unfold Rating_full_clean.
  destruct (Rating_clean s r now) as [[] | [msgs | |]]; try discriminate.
  destruct (Rating_clean_fields s r) as [| e l] eqn:Hf; simpl.
  - destruct (Rating_validate_constraints s r []); [done | discriminate].
  - discriminate.
Qed.

Lemma Rating_clean_creator (s : Store) (r : Rating) (a : Activity) (now : Z) :
  activities s !! activity r = Some a →
  rater r = creator a →
  Rating_clean s r now = Raise (ValidationError [creator_cannot_rate_themselves]).
Proof.
  intros Ha Hr. unfold Rating_clean. rewrite Ha.
  by rewrite bool_decide_eq_true_2.
Qed.

Lemma post_save_Rating_frame (s : Store) (r : Rating) :
  same_but_ratings_and_profiles s (post_save_Rating s r) ∧
  ratings (post_save_Rating s r) = ratings s.
Proof.
  unfold post_save_Rating, update_rated_user_stats.
  destruct signals_ready, (has_profile s (rated_user r)); done.
Qed.

Lemma rate_user_except_message (req : Request) :
  message_of (rate_user_except req) = Some (ERROR, unexpected_error).
Proof.
  unfold rate_user_except. by destruct (redirect_to_referrer req).
Qed.

Lemma rate_user_reply_message (req : Request) (l : Level) (t : Text) :
  message_of (rate_user_reply req l t) = Some (l, t).
Proof.
  unfold rate_user_reply.
  by destruct (redirect_to_referrer req).
Qed.

Lemma rate_user_reply_answered (req : Request) (l : Level) (t : Text) :
  answered req l t (rate_user_reply req l t).
Proof.
  split; [apply rate_user_reply_message |].
  unfold rate_user_reply, redirect_to_referrer, is_safe_url.
  destruct (HTTP_REFERER req) as [referrer |]; [| done].
  destruct (bool_decide (referer_url referrer = "")),
    (urlparse_accepts referrer), (redirect_location referrer); done.
Qed.

Lemma rate_user_unchanged_or_created
    (s : Store) (user activity_id user_id : nat) (req : Request) (now : Z) :
  ((rate_user s user activity_id user_id req now).1 = s ∧
   level_of (rate_user s user activity_id user_id req now).2 ≠ Some SUCCESS) ∨
  ∃ score a,
    activities s !! activity_id = Some a ∧
    Rating_full_clean s
      (mkRating user user_id activity_id score
                (strip (default "" (POST_data req !! "feedback")))) now = Ok () ∧
    (rate_user s user activity_id user_id req now).2
      = rate_user_reply req SUCCESS (successfully_rated user_id score) ∧
    let r := mkRating user user_id activity_id score
               (strip (default "" (POST_data req !! "feedback"))) in
    let s1 := post_save_Rating (set_ratings (cons r) s) r in
    (rate_user s user activity_id user_id req now).1
      = if has_profile s1 user_id
        then Profile_update_rating_stats s1 user_id else s1.
Proof.
  assert (Hl : ∀ l t, l ≠ SUCCESS →
            level_of (rate_user_reply req l t) ≠ Some SUCCESS).
  { intros l t Hne. unfold level_of. rewrite rate_user_reply_message.
    simpl. congruence. }
  assert (He : level_of (rate_user_except req) ≠ Some SUCCESS).
  { unfold level_of. by rewrite rate_user_except_message. }
  unfold rate_user.
  destruct (POST_data req !! "score") as [raw |]; [| left; eauto].
  destruct (bool_decide (raw = "")); [left; eauto |].
  destruct (py_int raw) as [z |]; [| left; eauto].
  destruct (bool_decide (user_id ∈ users s)); cbn [negb]; [| left; eauto].
  destruct (activities s !! activity_id) as [a |] eqn:Ha; [| left; eauto].
  destruct (bool_decide (user = user_id)); [left; eauto |].
  destruct (is_participant s activity_id user); cbn [negb]; [| left; eauto].
  destruct (Activity_is_past a now); cbn [negb]; [| left; eauto].
  destruct (Rating_exists s user activity_id); [left; eauto |].
  destruct (Block_exists s user user_id); [left; eauto |].
  destruct (Block_exists s user_id user); [left; eauto |].
  destruct (Rating_full_clean s _ now) as [[] | [msgs | |]] eqn:Hclean;
    try (left; eauto; fail).
  destruct (Rating_save s _ now) as [s' | e] eqn:Hsave; [| left; eauto].
  apply Rating_save_Ok in Hsave as [_ ->].
  right. exists z, a. done.
Qed.

(** C9.  When the rater is the creator of the activity, [Rating.save]
    raises a [ValidationError] that carries "The activity creator cannot
    rate themselves.", whoever the rated user is; and the view, called by
    the creator for any rated user and any form data, writes nothing. *)
Theorem creator_cannot_rate
    (s : Store) (r : Rating) (a : Activity) (now : Z) :
  activities s !! activity r = Some a →
  rater r = creator a →
  (∃ msgs, Rating_save s r now = Raise (ValidationError msgs) ∧
           creator_cannot_rate_themselves ∈ msgs) ∧
  (∀ user_id req,
     (rate_user s (rater r) (activity r) user_id req now).1 = s).
Proof.
  intros Ha Hr.
  pose proof (Rating_clean_creator s r a now Ha Hr) as Hclean.
  split.
  - unfold Rating_save, Rating_full_clean. rewrite Hclean. simpl.
    eexists. split; [reflexivity |].
    rewrite elem_of_app, elem_of_cons. right. by left.
  - intros user_id req.
    destruct (rate_user_unchanged_or_created s (rater r) (activity r)
                user_id req now) as [[Hs _] | (z & a' & _ & Hfull & _)]; [done |].
    apply Rating_full_clean_Ok in Hfull as [Hc _].
    unfold Rating_clean in Hc. simpl in Hc. rewrite Ha in Hc.
    rewrite bool_decide_eq_true_2 in Hc by done. discriminate.
Qed.

(** ** The participant table only grows *)

Lemma Connection_save_Ok (s s' : Store) (c : Connection) :
  Connection_save s c = Ok s' →
  Connection_constraints_hold (other_rows (connection_pk c) (connections s)) c = true ∧
  s' = set_connections (replace_row c) s.
Proof.
  unfold Connection_save.
  destruct (Connection_constraints_hold _ c); [| discriminate].
  by intros [= <-].
Qed.

Lemma Connection_create_Ok (s s' : Store) (from to : nat) (st : ConnectionStatus) :
  Connection_create s from to st = Ok s' →
  let c := mkConnection (new_connection_pk s) from to st in
  Connection_constraints_hold (connections s) c = true ∧
  s' = set_connection_seq (λ _, new_connection_pk s)
         (set_connections (cons c) s).
Proof.
  unfold Connection_create.
  destruct (Connection_constraints_hold _ _); [| discriminate].
  by intros [= <-].
Qed.

Ltac connection_writes :=
  repeat match goal with
  | H : Connection_save _ _ = Ok _ |- _ => apply Connection_save_Ok in H as [_ ->]
  | H : Connection_create _ _ _ _ = Ok _ |- _ =>
      apply Connection_create_Ok in H as [_ ->]
  end.

Lemma join_activity_participants (s : Store) (user id : nat) (now : Z) :
  participants (join_activity s user id now).1 = participants s ∨
  participants (join_activity s user id now).1 = {[(id, user)]} ∪ participants s.
Proof. unfold join_activity. repeat case_match; simpl; auto. Qed.

Lemma rate_user_frame
    (s : Store) (user activity_id user_id : nat) (req : Request) (now : Z) :
  same_but_ratings_and_profiles s (rate_user s user activity_id user_id req now).1.
Proof.
  destruct (rate_user_unchanged_or_created s user activity_id user_id req now)
    as [[-> _] | (z & a & _ & _ & _ & ->)]; [done |].
  cbv zeta.
  match goal with
  | |- context [post_save_Rating ?s1 ?r] =>
      destruct (post_save_Rating_frame s1 r) as [(Hu & Ha & Hp & Hc & Hr & Hb) _]
  end.
  case_match; unfold same_but_ratings_and_profiles; simpl in *; done.
Qed.

Lemma urlpatterns_participants (s : Store) (now : Z) (req : Request) :
  participants s ⊆ participants (urlpatterns s now req).1.
Proof.
  unfold urlpatterns, login_required, require_POST.
  destruct (route req); repeat case_match; simpl; try done.
  - unfold home. by repeat case_match.
  - unfold register, post_save_User, save_user_profile, create_user_profile.
    by repeat case_match.
  - unfold login_view. by repeat case_match.
  - unfold edit_profile. by repeat case_match.
  - unfold create_activity. by repeat case_match.
  - destruct (join_activity_participants s n id now) as [-> | ->]; set_solver.
  - unfold send_connection. repeat case_match; connection_writes; done.
  - unfold accept_connection. repeat case_match; connection_writes; done.
  - unfold reject_connection. repeat case_match; connection_writes; done.
  - destruct (rate_user_frame s n activity_id user_id req now)
      as (_ & _ & -> & _); done.
  - unfold report_user. by repeat case_match.
  - unfold block_user. by repeat case_match.
  - unfold unblock_user. by repeat case_match.
Qed.

(** C10.  Along every history of requests served over the routes of
    [urlpatterns], from any database, every (activity, user) row of the
    participant table is still there at the end; one [join_activity]
    leaves the table as it was or adds exactly the caller's row. *)
Theorem participants_only_grow (s : Store) (h : list (Z * Request)) :
  participants s ⊆ participants (serve s h) ∧
  (∀ user id now,
     participants (join_activity s user id now).1 = participants s ∨
     participants (join_activity s user id now).1
       = {[(id, user)]} ∪ participants s).
Proof.
  split; [| intros; apply join_activity_participants].
  revert s. induction h as [| [now req] h IH]; intros s; [done |].
  simpl. etrans; [apply (urlpatterns_participants s now req) | apply IH].
Qed.

(** ** Profile statistics *)

Lemma aggregate_avg_expected (scores : list Z) :
  match aggregate_avg scores with
  | Some x => py_round x 2
  | None => float_zero
  end = expected_average scores.
Proof. by destruct scores. Qed.

Lemma Profile_update_rating_stats_current (s : Store) (u : nat) (p : Profile) :
  profiles (Profile_update_rating_stats s u) !! u = Some p →
  stats_current (Profile_update_rating_stats s u) u p.
Proof.
  unfold Profile_update_rating_stats, stats_current. simpl.
  rewrite lookup_alter_eq.
  destruct (profiles s !! u) as [p0 |]; [| discriminate].
  intros [= <-]. simpl. rewrite aggregate_avg_expected.
  unfold scores_received, aggregate_count. simpl. done.
Qed.

Lemma Profile_update_rating_stats_ratings (s : Store) (u : nat) :
  ratings (Profile_update_rating_stats s u) = ratings s.
Proof. reflexivity. Qed.

Lemma has_profile_false (s : Store) (u : nat) :
  has_profile s u = false → profiles s !! u = None.
Proof.
  unfold has_profile. intros H%bool_decide_eq_false.
  destruct (profiles s !! u); [| done]. destruct H. eauto.
Qed.

Lemma update_rated_user_stats_current (s : Store) (r : Rating) (p : Profile) :
  profiles (update_rated_user_stats s r) !! rated_user r = Some p →
  stats_current (update_rated_user_stats s r) (rated_user r) p.
Proof.
  unfold update_rated_user_stats.
  destruct (has_profile s (rated_user r)) eqn:Hp.
  - apply Profile_update_rating_stats_current.
  - apply has_profile_false in Hp. congruence.
Qed.

Lemma scores_received_rows (s : Store) (u : nat) :
  scores_received s u = score <$> ratings_received u (ratings s).
Proof.
  unfold scores_received.
  induction (ratings s) as [| r rows IH]; [done |].
  rewrite filter_cons. cbn [ratings_received].
  destruct (Nat.eqb_spec (rated_user r) u) as [Heq | Hne].
  - rewrite decide_True by done. rewrite !fmap_cons. by rewrite IH.
  - by rewrite decide_False.
Qed.

Lemma stats_current_rows (s : Store) (u : nat) (p : Profile) :
  stats_current s u p →
  average_rating p = expected_average (score <$> ratings_received u (ratings s)) ∧
  total_ratings p = Z.of_nat (length (ratings_received u (ratings s))).
Proof.
  unfold stats_current. rewrite scores_received_rows, length_fmap. done.
Qed.

(** C3.  A rating naming [u] as rated user is created either by the view
    queuing its success message, or by [Rating.save] with the [post_save]
    receivers connected.  In the store either one leaves, the new row
    heads the rating table, it is the first of the rows whose rated user
    is [u], and the profile of [u], when [u] has one, holds
    [round(mean, 2)] of the scores of exactly the rows whose rated user
    is [u], and their number. *)
Theorem rating_creation_refreshes_stats
    (s s' : Store) (r : Rating) (req : Request) (now : Z) (p : Profile) :
  ((rate_user s (rater r) (activity r) (rated_user r) req now).1 = s' ∧
   message_of (rate_user s (rater r) (activity r) (rated_user r) req now).2
     = Some (SUCCESS, successfully_rated (rated_user r) (score r)))
  ∨ (signals_ready = true ∧ Rating_save s r now = Ok s') →
  profiles s' !! rated_user r = Some p →
  let received := ratings_received (rated_user r) (ratings s') in
  average_rating p = expected_average (score <$> received) ∧
  total_ratings p = Z.of_nat (length received) ∧
  ∃ r', ratings s' = r' :: ratings s ∧
        received = r' :: ratings_received (rated_user r) (ratings s) ∧
        rater r' = rater r ∧ rated_user r' = rated_user r ∧
        activity r' = activity r ∧ score r' = score r.
Proof.
  intros Hcreated Hp received.
  assert (Hrows : ∃ r', ratings s' = r' :: ratings s ∧
            rater r' = rater r ∧ rated_user r' = rated_user r ∧
            activity r' = activity r ∧ score r' = score r).
  { destruct Hcreated as [[Hstore Hmsg] | [Hsig Hsave]].
    - destruct (rate_user_unchanged_or_created s (rater r) (activity r)
                  (rated_user r) req now)
        as [[_ Hlevel] | (z & a & _ & _ & Hresp & Hs')].
      { unfold level_of in Hlevel. rewrite Hmsg in Hlevel. by destruct Hlevel. }
      rewrite Hresp, rate_user_reply_message in Hmsg. injection Hmsg as Hz.
      rewrite Hstore in Hs'. cbv zeta in Hs'.
      match type of Hs' with
      | context [post_save_Rating ?s0 ?r0] =>
          destruct (post_save_Rating_frame s0 r0) as [_ Hr];
          set (s1 := post_save_Rating s0 r0) in *
      end.
      assert (ratings s' = ratings s1) as ->.
      { rewrite Hs'. by destruct (has_profile s1 (rated_user r)). }
      rewrite Hr. simpl. eexists. split; [reflexivity |]. simpl. done.
    - apply Rating_save_Ok in Hsave as [_ ->].
      destruct (post_save_Rating_frame (set_ratings (cons r) s) r) as [_ ->].
      simpl. eauto 10. }
  assert (Hstats : stats_current s' (rated_user r) p).
  { destruct Hcreated as [[Hstore Hmsg] | [Hsig Hsave]].
    - destruct (rate_user_unchanged_or_created s (rater r) (activity r)
                  (rated_user r) req now)
        as [[_ Hlevel] | (z & a & _ & _ & _ & Hs')].
      { unfold level_of in Hlevel. rewrite Hmsg in Hlevel. by destruct Hlevel. }
      rewrite Hstore in Hs'. cbv zeta in Hs'.
      match type of Hs' with
      | context [post_save_Rating ?s0 ?r0] =>
          set (s1 := post_save_Rating s0 r0) in *
      end.
      destruct (has_profile s1 (rated_user r)) eqn:Hhas.
      + rewrite Hs' in Hp |- *. by apply Profile_update_rating_stats_current.
      + rewrite Hs' in Hp. apply has_profile_false in Hhas. congruence.
    - apply Rating_save_Ok in Hsave as [_ ->].
      unfold post_save_Rating in *. rewrite Hsig in *.
      by apply (update_rated_user_stats_current _ r). }
  apply stats_current_rows in Hstats as [Havg Htotal].
  split; [exact Havg |]. split; [exact Htotal |].
  destruct Hrows as (r' & Hr' & H1 & H2 & H3 & H4).
  exists r'. split_and!; try done.
  subst received. rewrite Hr'. simpl.
  by rewrite H2, Nat.eqb_refl.
Qed.

(** ** The order of the checks in [rate_user] *)

Lemma py_int_nonempty (raw : string) (z : Z) :
  py_int raw = Some z → bool_decide (raw = "") = false.
Proof.
  intros H. apply bool_decide_eq_false. intros ->.
  rewrite py_int_empty in H. discriminate.
Qed.

Lemma score_in_range (z : Z) :
  (z <? 1) = false → (5 <? z) = false → (1 <=? z) && (z <=? 5) = true.
Proof. lia. Qed.

(** C1, as the view has it.  For a logged-in rater, an existing rated
    user, an existing activity and a score that reads as an integer, the
    eligibility checks are reached in the order (1) rater differs from
    rated user, (2) rater is a participant, (3) the activity is past,
    (4) no rating by this rater for this activity, (5) no block in
    either direction, (6) rater is not the creator, (7) rated user is the
    creator.  The view queues one message of its own.  When a check
    fails, the first that fails is the one eligibility reason this
    message reports, beside any score error, and nothing is written.
    When all hold the message reports no eligibility reason; a score in
    1..5 then puts the rating at the head of the table and the message is
    the success message, and another score writes nothing.  The answer
    is a redirect that carries this message alone, or, when the redirect
    to the referrer cannot be built, an error with the generic message
    queued behind it. *)
Theorem rate_user_check_order
    (s : Store) (user activity_id user_id : nat) (req : Request) (now : Z)
    (raw : string) (z : Z) (a : Activity) :
  POST_data req !! "score" = Some raw →
  py_int raw = Some z →
  user ∈ users s →
  user_id ∈ users s →
  activities s !! activity_id = Some a →
  let out := rate_user s user activity_id user_id req now in
  ∃ l t,
    answered req l t out.2 ∧
    match first_failure (rate_user_checks s user user_id activity_id a now) with
    | Some r =>
        out.1 = s ∧ filter (λ x, x ≠ InvalidScore) (reasons_of_text t) = [r]
    | None =>
        filter (λ x, x ≠ InvalidScore) (reasons_of_text t) = [] ∧
        (1 ≤ z ≤ 5 →
         l = SUCCESS ∧ t = successfully_rated user_id z ∧
         ratings out.1
           = mkRating user user_id activity_id z
               (strip (default "" (POST_data req !! "feedback"))) :: ratings s) ∧
        (¬ (1 ≤ z ≤ 5) → out.1 = s)
    end.
Proof.
  intros Hraw Hz Hu Hid Ha out. subst out.
  unfold rate_user, rate_user_checks, Block_exists_between.
  rewrite Hraw, (py_int_nonempty raw z Hz), Hz, Ha.
  rewrite (bool_decide_eq_true_2 _ Hid). cbn [negb fst snd first_failure].
  destruct (bool_decide (user = user_id)) eqn:Hself; cbn [negb fst snd];
    [eexists _, _; split; [apply rate_user_reply_answered | done] |].
  destruct (is_participant s activity_id user) eqn:Hpart; cbn [negb fst snd];
    [| eexists _, _; split; [apply rate_user_reply_answered | done]].
  destruct (Activity_is_past a now) eqn:Hpast; cbn [negb fst snd];
    [| eexists _, _; split; [apply rate_user_reply_answered | done]].
  destruct (Rating_exists s user activity_id) eqn:Hdup; cbn [negb fst snd];
    [eexists _, _; split; [apply rate_user_reply_answered | done] |].
  destruct (Block_exists s user user_id) eqn:Hb1; cbn [negb orb fst snd];
    [eexists _, _; split; [apply rate_user_reply_answered | done] |].
  destruct (Block_exists s user_id user) eqn:Hb2; cbn [negb orb fst snd];
    [eexists _, _; split; [apply rate_user_reply_answered | done] |].
  unfold Rating_save, mbind, Result_bind.
  unfold Rating_full_clean, Rating_clean, Rating_clean_fields,
    Rating_validate_constraints, excluded. simpl.
  rewrite Ha, Hpart, Hpast, Hdup, Hself.
  rewrite (bool_decide_eq_true_2 _ Hu), (bool_decide_eq_true_2 _ Hid).
  rewrite (bool_decide_eq_true_2 (is_Some _)) by eauto.
  simpl.
  pose proof (score_in_range z) as Hrange.
  destruct (bool_decide (user = creator a)) eqn:Hcreator; simpl.
  { destruct (z <? 1), (5 <? z); simpl; rewrite ?Hrange by done;
      (eexists _, _; split; [apply rate_user_reply_answered | done]). }
  destruct (bool_decide (user_id = creator a)) eqn:Hrated; simpl.
  2: { destruct (z <? 1), (5 <? z); simpl; rewrite ?Hrange by done;
         (eexists _, _; split; [apply rate_user_reply_answered | done]). }
  apply bool_decide_eq_true in Hrated. subst user_id.
  rewrite Hb1, Hb2.
  destruct (z <? 1) eqn:Hlo, (5 <? z) eqn:Hhi; simpl;
    rewrite ?Hrange by done; simpl;
    (eexists _, _; split; [apply rate_user_reply_answered |]);
    try (split; [done |]; split; [intros [? ?]; lia | done]).
  split; [done |]. split; [| intros Hout; destruct Hout; lia].
  intros _. split; [done |]. split; [done |].
  unfold post_save_Rating, update_rated_user_stats.
  repeat case_match; done.
Qed.

(** ** A score outside 1..5 *)

(** C4, as the view has it.  A participant rates the creator with a
    score that reads as an integer outside 1..5.  Nothing is written: no
    rating row and no profile change.  The view queues one message of
    its own; the reason it reports is that of the first failing
    eligibility check in the view's order, and [InvalidScore] when every
    eligibility check holds.  The answer is a redirect that carries this
    message alone, or, when the redirect to the referrer cannot be
    built, an error with the generic message queued behind it. *)
Theorem out_of_range_score_writes_nothing
    (s : Store) (user activity_id user_id : nat) (req : Request) (now : Z)
    (raw : string) (z : Z) (a : Activity) :
  POST_data req !! "score" = Some raw →
  py_int raw = Some z →
  ¬ (1 ≤ z ≤ 5) →
  user ∈ users s →
  user_id ∈ users s →
  activities s !! activity_id = Some a →
  creator a = user_id →
  is_participant s activity_id user = true →
  let out := rate_user s user activity_id user_id req now in
  out.1 = s ∧ ratings out.1 = ratings s ∧ profiles out.1 = profiles s ∧
  ∃ l t,
    answered req l t out.2 ∧
    reasons_of_text t
      = [default InvalidScore
           (first_failure (rate_user_checks s user user_id activity_id a now))].
Proof.
  intros Hraw Hz Hout Hu Hid Ha Hcreator Hpart out. subst out.
  unfold rate_user, rate_user_checks, Block_exists_between.
  rewrite Hraw, (py_int_nonempty raw z Hz), Hz, Ha.
  rewrite (bool_decide_eq_true_2 _ Hid), Hpart.
  cbn [negb fst snd first_failure].
  destruct (bool_decide (user = user_id)) eqn:Hself; cbn [negb fst snd];
    [split_and!; try done;
     eexists _, _; split; [apply rate_user_reply_answered | done] |].
  destruct (Activity_is_past a now) eqn:Hpast; cbn [negb fst snd];
    [| split_and!; try done;
       eexists _, _; split; [apply rate_user_reply_answered | done]].
  destruct (Rating_exists s user activity_id) eqn:Hdup; cbn [negb fst snd];
    [split_and!; try done;
     eexists _, _; split; [apply rate_user_reply_answered | done] |].
  destruct (Block_exists s user user_id) eqn:Hb1; cbn [negb orb fst snd];
    [split_and!; try done;
     eexists _, _; split; [apply rate_user_reply_answered | done] |].
  destruct (Block_exists s user_id user) eqn:Hb2; cbn [negb orb fst snd];
    [split_and!; try done;
     eexists _, _; split; [apply rate_user_reply_answered | done] |].
  unfold Rating_full_clean, Rating_clean, Rating_clean_fields,
    Rating_validate_constraints, excluded. simpl.
  rewrite Ha, Hpart, Hpast, Hdup, Hself, Hcreator, Hself, Hb1, Hb2.
  rewrite (bool_decide_eq_true_2 _ Hu), (bool_decide_eq_true_2 _ Hid).
  rewrite (bool_decide_eq_true_2 (is_Some _)) by eauto.
  rewrite (bool_decide_eq_true_2 (user_id = user_id)) by done.
  simpl.
  destruct (z <? 1) eqn:Hlo, (5 <? z) eqn:Hhi; simpl; try lia;
    (split_and!; try done;
     eexists _, _; split; [apply rate_user_reply_answered | done]).
Qed.

(** ** Reports *)

(** C8, as the view has it.  On a POST naming an existing user the
    checks of [report_user] are reached in the order (1) reporter differs
    from reported user, (2) no earlier report by this reporter against
    this user, (3) the reason is not empty once stripped.  The first that
    fails fixes the reported reason and nothing is written; when all hold
    the report, with its stripped reason, heads the report table, which
    is otherwise as it was. *)
Theorem report_user_check_order
    (s : Store) (user user_id : nat) (req : Request) :
  method req = POST →
  user_id ∈ users s →
  let reason := default "" (POST_data req !! "reason") in
  let out := report_user s user user_id req in
  match first_failure (report_user_checks s user user_id reason) with
  | Some r => out.1 = s ∧ reasons out.2 = [r]
  | None =>
      out.1 = set_reports (cons (mkReport user user_id (strip reason))) s ∧
      level_of out.2 = Some SUCCESS ∧
      reports out.1 = mkReport user user_id (strip reason) :: reports s
  end.
Proof.
  intros Hm Hid reason out. subst out reason.
  unfold report_user, report_user_checks.
  rewrite (bool_decide_eq_true_2 _ Hid), (bool_decide_eq_true_2 _ Hm). simpl.
  destruct (bool_decide (user = user_id)); simpl; [done |].
  destruct (Report_exists s user user_id); simpl; [done |].
  destruct (bool_decide (strip _ = "")); simpl; done.
Qed.

(** ** The relationship ledger along a history *)

Lemma Connection_between_spec (a b : nat) (c : Connection) :
  Connection_between a b c = true ↔
  (sender c = a ∧ receiver c = b) ∨ (sender c = b ∧ receiver c = a).
Proof.
  unfold Connection_between.
  rewrite orb_true_iff, !bool_decide_eq_true. done.
Qed.

Lemma Connection_between_false (a b : nat) (c : Connection) :
  Connection_between a b c = false ↔
  ¬ ((sender c = a ∧ receiver c = b) ∨ (sender c = b ∧ receiver c = a)).
Proof.
  rewrite <- Connection_between_spec. by destruct (Connection_between a b c).
Qed.

Lemma ledger_inv_empty : ledger_inv ∅ [] ∅.
Proof.
  split; try (intros ? H; by apply elem_of_nil in H).
  - constructor.
  - intros ? ? H. by apply elem_of_nil in H.
  - intros ? ? H. by apply elem_of_empty in H.
  - intros ? H. by apply elem_of_empty in H.
Qed.

Lemma ledger_inv_users_mono (us us' : gset nat) (cs : list Connection)
    (bs : gset (nat * nat)) :
  us ⊆ us' → ledger_inv us cs bs → ledger_inv us' cs bs.
Proof.
  intros Hsub [H1 H2 H3 H4 H5 H6 H7]. split; try done.
  - intros c Hc. destruct (H1 c Hc). set_solver.
  - intros a b Hab. destruct (H6 a b Hab). set_solver.
Qed.

Lemma ledger_inv_blocks_shrink (us : gset nat) (cs : list Connection)
    (bs bs' : gset (nat * nat)) :
  bs' ⊆ bs → ledger_inv us cs bs → ledger_inv us cs bs'.
Proof.
  intros Hsub [H1 H2 H3 H4 H5 H6 H7]. split; try done.
  - intros c Hc. destruct (H3 c Hc). set_solver.
  - intros a b Hab. apply H6. set_solver.
  - intros a Ha. apply (H7 a). set_solver.
Qed.

Lemma pk_determines_row (cs : list Connection) (x y : Connection) :
  NoDup (connection_pk <$> cs) → x ∈ cs → y ∈ cs →
  connection_pk x = connection_pk y → x = y.
Proof.
  induction cs as [| c cs IH]; simpl; intros Hnd Hx Hy Hpk.
  - by apply elem_of_nil in Hx.
  - apply NoDup_cons in Hnd as [Hc Hnd].
    apply elem_of_cons in Hx as [-> | Hx], Hy as [-> | Hy]; try done.
    + destruct Hc. rewrite Hpk. by apply list_elem_of_fmap_2.
    + destruct Hc. rewrite <- Hpk. by apply list_elem_of_fmap_2.
    + by apply IH.
Qed.

Lemma replace_row_pks (c' : Connection) (cs : list Connection) :
  connection_pk <$> replace_row c' cs = connection_pk <$> cs.
Proof.
  unfold replace_row. rewrite <- list_fmap_compose.
  apply list_fmap_ext. intros i x _. simpl. by case_bool_decide.
Qed.

Lemma elem_of_replace_row (c' x' : Connection) (cs : list Connection) :
  x' ∈ replace_row c' cs →
  ∃ x, x ∈ cs ∧
       ((connection_pk x = connection_pk c' ∧ x' = c') ∨
        (connection_pk x ≠ connection_pk c' ∧ x' = x)).
Proof.
  unfold replace_row. intros (x & -> & Hx)%list_elem_of_fmap.
  exists x. split; [done |]. case_bool_decide; auto.
Qed.

Lemma ledger_inv_replace (us : gset nat) (cs : list Connection)
    (bs : gset (nat * nat)) (c c' : Connection) :
  ledger_inv us cs bs → c ∈ cs →
  connection_pk c' = connection_pk c →
  Connection_between (sender c) (receiver c) c' = true →
  ledger_inv us (replace_row c' cs) bs.
Proof.
  intros [H1 H2 H3 H4 H5 H6 H7] Hc Hpk Hpair.
  apply Connection_between_spec in Hpair.
  assert (Hrow : ∀ x', x' ∈ replace_row c' cs →
            ∃ x, x ∈ cs ∧
                 ((sender x' = sender x ∧ receiver x' = receiver x) ∨
                  (sender x' = receiver x ∧ receiver x' = sender x)) ∧
                 (connection_pk x ≠ connection_pk c → x' = x) ∧
                 (connection_pk x = connection_pk c → x' = c')).
  { intros x' (x & Hx & [[Hxpk ->] | [Hxpk ->]])%elem_of_replace_row.
    - assert (x = c) as -> by (apply (pk_determines_row cs); congruence).
      exists c. split; [done |]. split; [exact Hpair |].
      split; [intros Hne; by destruct Hne | done].
    - exists x. split; [done |]. split; [by left |].
      split; [done | intros He; destruct Hxpk; congruence]. }
  split; [| | | | | done | done].
  - intros x' (x & Hx & Hends & _)%Hrow. destruct (H1 x Hx).
    by destruct Hends as [[-> ->] | [-> ->]].
  - intros x' (x & Hx & Hends & _)%Hrow. specialize (H2 x Hx).
    destruct Hends as [[-> ->] | [-> ->]]; congruence.
  - intros x' (x & Hx & Hends & _)%Hrow. destruct (H3 x Hx).
    by destruct Hends as [[-> ->] | [-> ->]].
  - by rewrite replace_row_pks.
  - intros x1' x2' (x1 & Hx1 & Hends1 & Hne1 & Heq1)%Hrow
      (x2 & Hx2 & Hends2 & Hne2 & Heq2)%Hrow Hb.
    apply Connection_between_spec in Hb.
    assert (x1 = x2) as <-.
    { apply H5; try done. apply Connection_between_spec.
      destruct Hends1 as [[E1 E2] | [E1 E2]], Hends2 as [[E3 E4] | [E3 E4]],
        Hb as [[E5 E6] | [E5 E6]];
        first [left; split; congruence | right; split; congruence]. }
    destruct (decide (connection_pk x1 = connection_pk c)) as [He | He].
    + by rewrite (Heq1 He), (Heq2 He).
    + by rewrite (Hne1 He), (Hne2 He).
Qed.

Lemma new_connection_pk_fresh (s : Store) (c : Connection) :
  connection_keys_ok s →
  c ∈ connections s → (connection_pk c < new_connection_pk s)%nat.
Proof.
  intros Hkeys Hc. specialize (Hkeys c Hc). unfold new_connection_pk. lia.
Qed.

Lemma ledger_inv_insert (us : gset nat) (cs : list Connection)
    (bs : gset (nat * nat)) (pk u r : nat) (st : ConnectionStatus) :
  ledger_inv us cs bs → u ∈ us → r ∈ us → u ≠ r →
  (u, r) ∉ bs → (r, u) ∉ bs →
  (∀ c, c ∈ cs → connection_pk c ≠ pk) →
  (∀ c, c ∈ cs → Connection_between u r c = false) →
  ledger_inv us (mkConnection pk u r st :: cs) bs.
Proof.
  intros [H1 H2 H3 H4 H5 H6 H7] Hu Hr Hne Hb1 Hb2 Hfresh Hnone.
  split; try done.
  - intros c [-> | Hc]%elem_of_cons; [done | by apply H1].
  - intros c [-> | Hc]%elem_of_cons; [done | by apply H2].
  - intros c [-> | Hc]%elem_of_cons; [done | by apply H3].
  - simpl. apply NoDup_cons. split; [| done].
    intros (c & Hpk & Hc)%list_elem_of_fmap.
    by apply (Hfresh c Hc).
  - intros c1 c2 [-> | Hc1]%elem_of_cons [-> | Hc2]%elem_of_cons Hb;
      simpl in *; try done.
    + specialize (Hnone c2 Hc2). congruence.
    + specialize (Hnone c1 Hc1). apply Connection_between_false in Hnone.
      apply Connection_between_spec in Hb. simpl in Hb. naive_solver.
    + by apply H5.
Qed.

Lemma ledger_inv_block (us : gset nat) (cs : list Connection)
    (bs : gset (nat * nat)) (u t : nat) :
  ledger_inv us cs bs → u ∈ us → t ∈ us → u ≠ t →
  ledger_inv us (filter (λ c, ¬ Connection_between u t c) cs)
             ({[(u, t)]} ∪ bs).
Proof.
  intros [H1 H2 H3 H4 H5 H6 H7] Hu Ht Hne.
  split.
  - intros c [_ Hc]%list_elem_of_filter. by apply H1.
  - intros c [_ Hc]%list_elem_of_filter. by apply H2.
  - intros c [Hnb Hc]%list_elem_of_filter. destruct (H3 c Hc).
    apply Is_true_false, Connection_between_false in Hnb.
    rewrite !elem_of_union, !elem_of_singleton. naive_solver.
  - induction cs as [| c cs IH]; [constructor |].
    apply NoDup_cons in H4 as [Hc Hnd].
    rewrite filter_cons. case_decide.
    + simpl. apply NoDup_cons. split.
      * intros (x & Hpk & [_ Hx]%list_elem_of_filter)%list_elem_of_fmap.
        apply Hc. rewrite Hpk. by apply list_elem_of_fmap_2.
      * apply IH; try done; intros; first [apply H1 | apply H2 | apply H3 | apply H5];
          try done; by apply elem_of_cons; right.
    + apply IH; try done; intros; first [apply H1 | apply H2 | apply H3 | apply H5];
        try done; by apply elem_of_cons; right.
  - intros c1 c2 [_ Hc1]%list_elem_of_filter [_ Hc2]%list_elem_of_filter.
    by apply H5.
  - intros a b [Hab%elem_of_singleton | Hab]%elem_of_union.
    + by injection Hab as -> ->.
    + by apply H6.
  - intros a [Hab%elem_of_singleton | Hab]%elem_of_union.
    + injection Hab as -> ->. done.
    + by apply (H7 a).
Qed.

Lemma request_user_Some (s : Store) (req : Request) (u : nat) :
  request_user s req = Some u → u ∈ users s.
Proof.
  unfold request_user. destruct (session_user req) as [v |]; [| done].
  case_bool_decide; [| done]. by intros [= <-].
Qed.

Lemma ledger_ok_frame (s s' : Store) :
  users s' = users s → connections s' = connections s →
  blocks s' = blocks s → ledger_ok s → ledger_ok s'.
Proof. unfold ledger_ok. by intros -> -> ->. Qed.

Lemma find_elem_of (f : Connection → bool) (cs : list Connection) (c : Connection) :
  find f cs = Some c → c ∈ cs ∧ f c = true.
Proof. intros [Hin Hf]%find_some. by rewrite list_elem_of_In. Qed.

Lemma find_None_elem_of (f : Connection → bool) (cs : list Connection) :
  find f cs = None → ∀ c, c ∈ cs → f c = false.
Proof.
  intros Hnone c Hc. apply (find_none f cs Hnone). by rewrite <- list_elem_of_In.
Qed.

Lemma Block_exists_between_elem (s : Store) (a b : nat) :
  Block_exists_between s a b = false →
  ((a, b) ∉ blocks s) ∧ ((b, a) ∉ blocks s).
Proof.
  unfold Block_exists_between, Block_exists.
  intros [H1 H2]%orb_false_iff.
  by apply bool_decide_eq_false in H1, H2.
Qed.

Lemma send_connection_ledger (s : Store) (user id : nat) :
  ledger_ok s → connection_keys_ok s → user ∈ users s →
  ledger_ok (send_connection s user id).1.
Proof.
  intros Hok Hkeys Hu. unfold send_connection.
  case_bool_decide as Hid; simpl; [| done].
  destruct (Block_exists_between s user id) eqn:Hblock; [done |].
  apply Block_exists_between_elem in Hblock as [Hb1 Hb2].
  case_bool_decide as Hself; [done |].
  destruct (find (Connection_between user id) (connections s)) as [e |] eqn:Hfind.
  - apply find_elem_of in Hfind as [He Hbetween].
    destruct (status e); [by case_bool_decide | done |].
    destruct (Connection_save s _) as [s' |] eqn:Hsave; [| done].
    apply Connection_save_Ok in Hsave as [_ ->]. simpl.
    apply (ledger_inv_replace _ _ _ e); try done.
    apply Connection_between_spec in Hbetween.
    apply Connection_between_spec. simpl.
    destruct Hbetween as [[<- <-] | [<- <-]]; auto.
  - destruct (Connection_create s user id PENDING) as [s' |] eqn:Hcreate; [| done].
    apply Connection_create_Ok in Hcreate as [_ ->]. simpl.
    apply ledger_inv_insert; try done.
    + intros c Hc%(new_connection_pk_fresh s); [lia | done].
    + by apply find_None_elem_of.
Qed.

Lemma set_status_ledger (s s' : Store) (id : nat) (c : Connection)
    (st : ConnectionStatus) :
  ledger_ok s → get_connection s id = Some c →
  Connection_save s (Connection_set_status st c) = Ok s' → ledger_ok s'.
Proof.
  intros Hok [Hc _]%find_elem_of [_ ->]%Connection_save_Ok.
  apply (ledger_inv_replace _ _ _ c); try done.
  apply Connection_between_spec. simpl. auto.
Qed.

Lemma accept_connection_ledger (s : Store) (user id : nat) :
  ledger_ok s → ledger_ok (accept_connection s user id).1.
Proof.
  intros Hok. unfold accept_connection.
  destruct (get_connection s id) as [c |] eqn:Hget; [| done].
  repeat (case_bool_decide; simpl; try done).
  destruct (Connection_save s _) as [s' |] eqn:Hsave; [| done].
  by eapply set_status_ledger.
Qed.

Lemma reject_connection_ledger (s : Store) (user id : nat) :
  ledger_ok s → ledger_ok (reject_connection s user id).1.
Proof.
  intros Hok. unfold reject_connection.
  destruct (get_connection s id) as [c |] eqn:Hget; [| done].
  repeat (case_bool_decide; simpl; try done).
  destruct (Connection_save s _) as [s' |] eqn:Hsave; [| done].
  by eapply set_status_ledger.
Qed.

Lemma block_user_ledger (s : Store) (user id : nat) :
  ledger_ok s → user ∈ users s → ledger_ok (block_user s user id).1.
Proof.
  intros Hok Hu. unfold block_user.
  case_bool_decide as Hid; simpl; [| done].
  case_bool_decide as Hself; [done |].
  destruct (Block_exists s user id); [done |]. simpl.
  by apply ledger_inv_block.
Qed.

Lemma unblock_user_ledger (s : Store) (user id : nat) :
  ledger_ok s → ledger_ok (unblock_user s user id).1.
Proof.
  intros Hok. unfold unblock_user.
  case_bool_decide; simpl; [| done].
  apply (ledger_inv_blocks_shrink _ _ (blocks s)); [set_solver | done].
Qed.

Lemma post_save_User_frame (s : Store) (u : nat) (created : bool) :
  users (post_save_User s u created) = users s ∧
  connections (post_save_User s u created) = connections s ∧
  blocks (post_save_User s u created) = blocks s.
Proof.
  unfold post_save_User, save_user_profile, create_user_profile.
  repeat case_match; done.
Qed.

Lemma register_ledger (s : Store) (m : Method) (ok : bool) :
  ledger_ok s → ledger_ok (register s m ok).1.
Proof.
  intros Hok. unfold register.
  case_bool_decide; [| done]. destruct ok; [| done]. simpl.
  match goal with
  | |- ledger_ok (post_save_User ?s1 ?u ?b) =>
      destruct (post_save_User_frame s1 u b) as (Hu & Hc & Hb);
      apply (ledger_ok_frame s1); try done
  end.
  unfold ledger_ok. simpl.
  apply (ledger_inv_users_mono (users s)); [set_solver | done].
Qed.

Lemma urlpatterns_ledger (s : Store) (now : Z) (req : Request) :
  ledger_ok s → connection_keys_ok s → ledger_ok (urlpatterns s now req).1.
Proof.
  intros Hok Hkeys. unfold urlpatterns, login_required, require_POST.
  destruct (route req); try (destruct (request_user s req) as [u |] eqn:Hreq;
    [apply request_user_Some in Hreq | done]).
  - unfold home. by case_match.
  - done.
  - by apply register_ledger.
  - unfold login_view. by repeat case_match.
  - done.
  - unfold edit_profile. repeat case_match; done.
  - unfold create_activity. repeat case_match; done.
  - unfold join_activity. repeat case_match; done.
  - by apply send_connection_ledger.
  - by apply accept_connection_ledger.
  - by apply reject_connection_ledger.
  - case_bool_decide; [| done].
    destruct (rate_user_frame s u activity_id user_id req now)
      as (Hu & _ & _ & Hc & _ & Hb).
    by apply (ledger_ok_frame s).
  - unfold report_user. repeat case_match; done.
  - by apply block_user_ledger.
  - by apply unblock_user_ledger.
Qed.

Lemma connection_keys_ok_replace (s : Store) (c : Connection) :
  connection_keys_ok s → (connection_pk c ≤ connection_seq s)%nat →
  connection_keys_ok (set_connections (replace_row c) s).
Proof.
  intros Hkeys Hc x (y & Hy & [[_ ->] | [_ ->]])%elem_of_replace_row;
    [done | by apply Hkeys].
Qed.

Lemma send_connection_keys (s : Store) (user id : nat) :
  connection_keys_ok s → connection_keys_ok (send_connection s user id).1.
Proof.
  intros Hkeys. unfold send_connection.
  case_bool_decide as Hid; simpl; [| done].
  destruct (Block_exists_between s user id); [done |].
  case_bool_decide as Hself; [done |].
  destruct (find (Connection_between user id) (connections s)) as [e |] eqn:Hfind.
  - apply find_elem_of in Hfind as [He _].
    destruct (status e); [by case_bool_decide | done |].
    destruct (Connection_save s _) as [s' |] eqn:Hsave; [| done].
    apply Connection_save_Ok in Hsave as [_ ->].
    apply connection_keys_ok_replace; [done |]. simpl. by apply Hkeys.
  - destruct (Connection_create s user id PENDING) as [s' |] eqn:Hcreate; [| done].
    apply Connection_create_Ok in Hcreate as [_ ->].
    intros c [-> | Hc]%elem_of_cons; simpl; [done |].
    specialize (Hkeys c Hc). unfold new_connection_pk. lia.
Qed.

Lemma set_status_keys (s s' : Store) (id : nat) (c : Connection)
    (st : ConnectionStatus) :
  connection_keys_ok s → get_connection s id = Some c →
  Connection_save s (Connection_set_status st c) = Ok s' →
  connection_keys_ok s'.
Proof.
  intros Hkeys [Hc _]%find_elem_of [_ ->]%Connection_save_Ok.
  apply connection_keys_ok_replace; [done |]. simpl. by apply Hkeys.
Qed.

Lemma urlpatterns_keys (s : Store) (now : Z) (req : Request) :
  connection_keys_ok s → connection_keys_ok (urlpatterns s now req).1.
Proof.
  intros Hkeys. unfold urlpatterns, login_required, require_POST.
  destruct (route req); try (destruct (request_user s req) as [u |] eqn:Hreq;
    [| done]).
  - unfold home. by case_match.
  - done.
  - unfold register, post_save_User, save_user_profile, create_user_profile.
    repeat case_match; done.
  - unfold login_view. by repeat case_match.
  - done.
  - unfold edit_profile. repeat case_match; done.
  - unfold create_activity. repeat case_match; done.
  - unfold join_activity. repeat case_match; done.
  - by apply send_connection_keys.
  - unfold accept_connection.
    destruct (get_connection s id) as [c |] eqn:Hget; [| done].
    repeat (case_bool_decide; simpl; try done).
    destruct (Connection_save s _) as [s' |] eqn:Hsave; [| done].
    by eapply set_status_keys.
  - unfold reject_connection.
    destruct (get_connection s id) as [c |] eqn:Hget; [| done].
    repeat (case_bool_decide; simpl; try done).
    destruct (Connection_save s _) as [s' |] eqn:Hsave; [| done].
    by eapply set_status_keys.
  - case_bool_decide; [| done].
    destruct (rate_user_unchanged_or_created s u activity_id user_id req now)
      as [[-> _] | (z & a & _ & _ & _ & ->)]; [done |].
    cbv zeta. unfold post_save_Rating, update_rated_user_stats.
    repeat case_match; done.
  - unfold report_user. repeat case_match; done.
  - unfold block_user. repeat case_match; try done.
    intros c [_ Hc]%list_elem_of_filter. by apply Hkeys.
  - unfold unblock_user. repeat case_match; done.
Qed.

Lemma serve_ledger (s : Store) (h : list (Z * Request)) :
  ledger_ok s → connection_keys_ok s →
  ledger_ok (serve s h) ∧ connection_keys_ok (serve s h).
Proof.
  revert s. induction h as [| [now req] h IH]; intros s Hok Hkeys; [done |].
  simpl. apply IH; [by apply urlpatterns_ledger | by apply urlpatterns_keys].
Qed.

Lemma empty_store_keys : connection_keys_ok empty_store.
Proof. intros c Hc. by apply elem_of_nil in Hc. Qed.

Lemma history_ledger (h : list (Z * Request)) :
  ledger_ok (serve empty_store h).
Proof. apply serve_ledger; [apply ledger_inv_empty | apply empty_store_keys]. Qed.

Lemma history_keys (h : list (Z * Request)) :
  connection_keys_ok (serve empty_store h).
Proof. apply serve_ledger; [apply ledger_inv_empty | apply empty_store_keys]. Qed.

(** C5.  In any store a history of requests leads to, take a connection
    row [c] between [a] and [b], in either direction, whose status is
    Rejected.  A new request from [a] to [b] succeeds and rewrites that
    very row, found by its primary key, to sender [a], receiver [b],
    status Pending; every other row and every other table is as before,
    so no second row appears. *)
Theorem rejected_connection_rerequest
    (h : list (Z * Request)) (a b : nat) (c : Connection) :
  let s := serve empty_store h in
  c ∈ connections s →
  Connection_between a b c = true →
  status c = REJECTED →
  let out := send_connection s a b in
  let row := mkConnection (connection_pk c) a b PENDING in
  out.2 = flash to_discover SUCCESS (connection_request_sent b) ∧
  out.1 = set_connections (replace_row row) s ∧
  row ∈ connections out.1 ∧
  length (connections out.1) = length (connections s) ∧
  (∀ x, x ∈ connections out.1 → Connection_between a b x = true → x = row).
Proof.
  intros s Hc Hbetween Hstatus out row.
  pose proof (history_ledger h) as Hok. fold s in Hok.
  destruct Hok as [H1 H2 H3 H4 H5 H6 H7].
  pose proof Hbetween as Hends. apply Connection_between_spec in Hends.
  destruct (H1 c Hc) as [Hs Hr]. specialize (H2 c Hc).
  destruct (H3 c Hc) as [Hb1 Hb2].
  assert (b ∈ users s) as Hb by (destruct Hends as [[<- <-] | [<- <-]]; done).
  assert (a ≠ b) as Hab by (destruct Hends as [[<- <-] | [<- <-]]; congruence).
  assert (Block_exists_between s a b = false) as Hnb.
  { unfold Block_exists_between, Block_exists.
    apply orb_false_iff.
    split; apply bool_decide_eq_false;
      destruct Hends as [[<- <-] | [<- <-]]; done. }
  assert (find (Connection_between a b) (connections s) = Some c) as Hfind.
  { destruct (find (Connection_between a b) (connections s)) as [e |] eqn:Hf.
    - apply find_elem_of in Hf as [He Hbe]. f_equal. symmetry.
      apply H5; try done. apply Connection_between_spec.
      apply Connection_between_spec in Hbe.
      destruct Hends as [[<- <-] | [<- <-]]; destruct Hbe as [[? ?] | [? ?]]; auto.
    - rewrite (find_None_elem_of _ _ Hf c Hc) in Hbetween. discriminate. }
  assert (Connection_save s row = Ok (set_connections (replace_row row) s))
    as Hsave.
  { unfold Connection_save.
    replace (Connection_constraints_hold _ row) with true; [done |].
    symmetry. unfold Connection_constraints_hold. simpl.
    rewrite (bool_decide_eq_false_2 _ Hab). simpl.
    apply negb_true_iff, not_true_iff_false.
    intros (x & Hx & Hsame)%existsb_exists.
    apply list_elem_of_In, list_elem_of_filter in Hx as [Hpk Hx].
    apply andb_true_iff in Hsame as [Hxs%bool_decide_eq_true Hxr%bool_decide_eq_true].
    destruct Hpk. f_equal. symmetry. apply H5; try done.
    apply Connection_between_spec.
    destruct Hends as [[<- <-] | [<- <-]]; auto. }
  subst out. unfold send_connection.
  rewrite (bool_decide_eq_true_2 _ Hb), Hnb, (bool_decide_eq_false_2 _ Hab).
  simpl. rewrite Hfind, Hstatus. fold row. rewrite Hsave. simpl.
  split; [done |]. split; [done |].
  assert (row ∈ replace_row row (connections s)) as Hrow.
  { unfold replace_row. apply list_elem_of_fmap. exists c.
    split; [| done]. by rewrite bool_decide_eq_true_2. }
  split; [done |]. split; [unfold replace_row; by rewrite length_fmap |].
  intros x (x0 & Hx0 & [[Hpk ->] | [Hpk ->]])%elem_of_replace_row Hbx; [done |].
  destruct Hpk. simpl. f_equal. symmetry. apply H5; try done.
  apply Connection_between_spec. apply Connection_between_spec in Hbx.
  destruct Hends as [[<- <-] | [<- <-]]; destruct Hbx as [[? ?] | [? ?]]; auto.
Qed.


End Properties.

(** * Further properties *)

Section Further.
Context `{RT : Runtime}.

(** ** What [Rating.save] accepts *)

Lemma Rating_exists_false (s : Store) (u id : nat) :
  Rating_exists s u id = false ↔
  ∀ r, r ∈ ratings s → ¬ (rater r = u ∧ activity r = id).
Proof.
  unfold Rating_exists. rewrite <- not_true_iff_false, existsb_exists.
  split.
  - intros Hno r Hr [Hu Ha]. apply Hno. exists r.
    rewrite <- list_elem_of_In. split; [done |].
    by rewrite !bool_decide_eq_true_2.
  - intros Hno (r & Hr & Hb). apply list_elem_of_In in Hr.
    apply andb_true_iff in Hb as [H1%bool_decide_eq_true H2%bool_decide_eq_true].
    by apply (Hno r Hr).
Qed.

Lemma Rating_clean_Ok (s : Store) (r : Rating) (now : Z) :
  Rating_clean s r now = Ok () ↔
  ∃ a, activities s !! activity r = Some a ∧
       rater r ≠ creator a ∧ rated_user r = creator a ∧
       (activity r, rater r) ∈ participants s ∧
       Activity_is_past a now = true ∧
       Block_exists_between s (rater r) (rated_user r) = false.
Proof.
  unfold Rating_clean, Block_exists_between, is_participant.
  destruct (activities s !! activity r) as [a |]; [| split; [done | by intros (? & ? & _)]].
  split.
  - repeat (case_bool_decide; simpl; try done).
    destruct (Activity_is_past a now) eqn:Hpast; simpl; [| done].
    destruct (Block_exists s (rater r) (creator a)) eqn:Hb1; [done |].
    destruct (Block_exists s (creator a) (rater r)) eqn:Hb2; [done |].
    intros _. exists a. repeat split; try done.
    replace (rated_user r) with (creator a). by rewrite Hb1, Hb2.
  - intros (a' & [= <-] & Hne & Heq & Hpart & Hpast & Hb).
    rewrite Heq in Hb. apply orb_false_iff in Hb as [-> ->].
    rewrite Hpast.
    rewrite (bool_decide_eq_false_2 _ Hne), (bool_decide_eq_true_2 _ Heq),
      (bool_decide_eq_true_2 _ Hpart). done.
Qed.

Lemma Rating_clean_fields_nil (s : Store) (r : Rating) :
  Rating_clean_fields s r = [] ↔
  rater r ∈ users s ∧ rated_user r ∈ users s ∧
  is_Some (activities s !! activity r) ∧ 1 ≤ score r ≤ 5.
Proof.
  unfold Rating_clean_fields.
  repeat case_bool_decide; simpl;
    destruct (score r <? 1) eqn:Hlo, (5 <? score r) eqn:Hhi; simpl;
    split; try done; try (intros (? & ? & ? & ?); done || lia).
  intros _. repeat split; try done; lia.
Qed.

Lemma Rating_validate_constraints_nil (s : Store) (r : Rating) :
  1 ≤ score r ≤ 5 →
  Rating_validate_constraints s r [] = [] ↔
  Rating_exists s (rater r) (activity r) = false ∧ rater r ≠ rated_user r.
Proof.
  intros Hscore. unfold Rating_validate_constraints, excluded.
  rewrite !(bool_decide_eq_false_2 (_ ∈ [])) by apply not_elem_of_nil.
  simpl.
  replace (1 <=? score r) with true by (symmetry; apply Z.leb_le; lia).
  replace (score r <=? 5) with true by (symmetry; apply Z.leb_le; lia).
  simpl. rewrite app_nil_r.
  destruct (Rating_exists s (rater r) (activity r)); case_bool_decide; simpl;
    split; try done; by intros [? ?].
Qed.

Lemma Rating_full_clean_acceptable (s : Store) (r : Rating) (now : Z) :
  Rating_full_clean s r now = Ok () ↔ Rating_acceptable s r now.
Proof.
  split.
  - intros (Hclean & Hfields & Hcons)%Rating_full_clean_Ok.
    apply Rating_clean_Ok in Hclean as (a & Ha & Hne & Heq & Hpart & Hpast & Hb).
    apply Rating_clean_fields_nil in Hfields as (Hu & Hv & _ & Hscore).
    apply Rating_validate_constraints_nil in Hcons as [Hdup Hself]; [| done].
    refine (conj Hu (conj Hv (conj Hscore (conj Hself (conj Hdup _))))).
    by exists a.
  - intros (Hu & Hv & Hscore & Hself & Hdup & a & Ha & Heq & Hpart & Hpast & Hb).
    assert (Rating_clean s r now = Ok ()) as Hclean.
    { apply Rating_clean_Ok. exists a. split_and!; done || congruence. }
    assert (Rating_clean_fields s r = []) as Hfields.
    { apply Rating_clean_fields_nil. split_and!; by eauto || lia. }
    assert (Rating_validate_constraints s r [] = []) as Hcons
      by by apply Rating_validate_constraints_nil.
    unfold Rating_full_clean. rewrite Hclean, Hfields. simpl. by rewrite Hcons.
Qed.

(** X1.  [Rating.save] stores a rating exactly when rater and rated
    user exist, the score is in 1..5, the rater is not the rated user,
    has not rated this activity before, is a participant of it, the
    rated user is its creator, it is past, and neither has blocked the
    other.  A stored rating heads the table; a refused one changes
    nothing, the save raises. *)
Theorem Rating_save_accepts_iff (s : Store) (r : Rating) (now : Z) :
  (Rating_acceptable s r now ↔ ∃ s', Rating_save s r now = Ok s') ∧
  (∀ s', Rating_save s r now = Ok s' → ratings s' = r :: ratings s) ∧
  (¬ Rating_acceptable s r now → ∃ e, Rating_save s r now = Raise e).
Proof.
  split; [| split].
  - rewrite <- Rating_full_clean_acceptable. unfold Rating_save, mbind, Result_bind.
    destruct (Rating_full_clean s r now) as [[] | e]; split; try done.
    + intros _. eauto.
    + by intros [? ?].
  - intros s' [_ ->]%Rating_save_Ok.
    by rewrite (proj2 (post_save_Rating_frame _ r)).
  - rewrite <- Rating_full_clean_acceptable. unfold Rating_save, mbind, Result_bind.
    destruct (Rating_full_clean s r now) as [[] | e]; [done | eauto].
Qed.

(** ** Recomputing the statistics *)

Lemma Store_eq (s s' : Store) :
  users s = users s' → profiles s = profiles s' →
  activities s = activities s' → participants s = participants s' →
  connections s = connections s' → connection_seq s = connection_seq s' →
  reports s = reports s' →
  blocks s = blocks s' → ratings s = ratings s' → s = s'.
Proof. destruct s, s'. simpl. by intros -> -> -> -> -> -> -> -> ->. Qed.

Lemma Profile_update_rating_stats_lookup (s : Store) (u v : nat) :
  profiles (Profile_update_rating_stats s u) !! v
    = if decide (u = v)
      then Profile_set_stats (expected_average (scores_received s u))
             (Z.of_nat (length (scores_received s u))) <$> profiles s !! u
      else profiles s !! v.
Proof.
  unfold Profile_update_rating_stats. simpl.
  rewrite lookup_alter, aggregate_avg_expected. done.
Qed.

Lemma Profile_update_rating_stats_idem (s : Store) (u : nat) :
  Profile_update_rating_stats (Profile_update_rating_stats s u) u
    = Profile_update_rating_stats s u.
Proof.
  apply Store_eq; try done.
  apply map_eq. intros v.
  rewrite !Profile_update_rating_stats_lookup.
  case_decide; [| done]. subst v.
  rewrite decide_True by done.
  destruct (profiles s !! u) as [p |]; done.
Qed.

Lemma Profile_update_rating_stats_no_profile (s : Store) (u : nat) :
  profiles s !! u = None → Profile_update_rating_stats s u = s.
Proof.
  intros Hnone. apply Store_eq; try done.
  apply map_eq. intros v. rewrite Profile_update_rating_stats_lookup.
  case_decide; [| done]. subst v. by rewrite Hnone.
Qed.

(** X2.  [Profile.update_rating_stats] may be called again at no cost:
    a second call changes nothing.  One call rewrites only
    [average_rating] and [total_ratings] of that user's profile, to the
    rounded mean and the count of the ratings received ([0.0] and [0]
    when there are none), and leaves every other profile and table as
    it was. *)
Theorem update_rating_stats_idempotent (s : Store) (u : nat) :
  let s' := Profile_update_rating_stats s u in
  Profile_update_rating_stats s' u = s' ∧
  same_but_ratings_and_profiles s s' ∧ ratings s' = ratings s ∧
  (∀ v, v ≠ u → profiles s' !! v = profiles s !! v) ∧
  (∀ p, profiles s !! u = Some p →
        profiles s' !! u
          = Some (mkProfile (bio p) (age p) (gender p) (profile_city p)
                    (interests p) (verified p) (rating p)
                    (expected_average (scores_received s u))
                    (Z.of_nat (length (scores_received s u))))) ∧
  (scores_received s u = [] →
   ∀ p, profiles s' !! u = Some p →
        average_rating p = float_zero ∧ total_ratings p = 0).
Proof.
  intros s'. subst s'. split; [apply Profile_update_rating_stats_idem |].
  split; [done |]. split; [done |]. split; [| split].
  - intros v Hv. rewrite Profile_update_rating_stats_lookup.
    by rewrite decide_False.
  - intros p Hp. rewrite Profile_update_rating_stats_lookup.
    rewrite decide_True by done. by rewrite Hp.
  - intros Hnone p. rewrite Profile_update_rating_stats_lookup.
    rewrite decide_True by done. rewrite Hnone.
    destruct (profiles s !! u); [| done]. by intros [= <-].
Qed.

(** ** One request, one effect *)

Lemma rate_user_store
    (s : Store) (user activity_id user_id : nat) (req : Request) (now : Z) :
  (rate_user s user activity_id user_id req now).1 = s ∨
  ∃ r, rater r = user ∧ rated_user r = user_id ∧ activity r = activity_id ∧
       Rating_acceptable s r now ∧
       (rate_user s user activity_id user_id req now).1
         = Profile_update_rating_stats (set_ratings (cons r) s) user_id.
Proof.
  destruct (rate_user_unchanged_or_created s user activity_id user_id req now)
    as [[Hs _] | (z & a & Ha & Hfull & _ & Hstore)]; [by left |].
  right. eexists. split; [| split; [| split; [| split]]];
    [| | | by apply Rating_full_clean_acceptable, Hfull |]; try done.
  rewrite Hstore. cbv zeta.
  unfold post_save_Rating, update_rated_user_stats. simpl.
  set (s0 := set_ratings _ s).
  destruct (has_profile s0 user_id) eqn:Hhas0.
  - destruct signals_ready.
    + replace (has_profile (Profile_update_rating_stats s0 user_id) user_id)
        with true.
      * apply Profile_update_rating_stats_idem.
      * symmetry. unfold has_profile in *.
        apply bool_decide_eq_true in Hhas0 as [p Hp].
        apply bool_decide_eq_true.
        rewrite Profile_update_rating_stats_lookup, decide_True by done.
        rewrite Hp. by eexists.
    + by rewrite Hhas0.
  - assert (Hnone : profiles s0 !! user_id = None) by by apply has_profile_false.
    destruct signals_ready; rewrite Hhas0;
      by rewrite Profile_update_rating_stats_no_profile.
Qed.

Lemma fresh_user (s : Store) : fresh (users s) ∉ users s.
Proof. apply is_fresh. Qed.

Lemma fresh_activity (s : Store) :
  activities s !! fresh (dom (activities s)) = None.
Proof. apply not_elem_of_dom. apply is_fresh. Qed.

Ltac rows_written :=
  repeat match goal with
  | H : Connection_save _ _ = Ok _ |- _ => apply Connection_save_Ok in H as [_ ->]
  | H : Connection_create _ _ _ _ = Ok _ |- _ =>
      apply Connection_create_Ok in H as [_ ->]
  end.

Lemma eff_connections_frame (s s' : Store) :
  users s' = users s → profiles s' = profiles s →
  activities s' = activities s → participants s' = participants s →
  reports s' = reports s → ratings s' = ratings s → Effect s s'.
Proof.
  intros Hu Hp Ha Hpa Hr Hra.
  assert (s' = set_blocks (λ _, blocks s')
                 (set_connection_seq (λ _, connection_seq s')
                    (set_connections (λ _, connections s') s))) as ->
    by (by apply Store_eq).
  apply eff_connections.
Qed.

Lemma urlpatterns_effect (s : Store) (now : Z) (req : Request) :
  Effect s (urlpatterns s now req).1.
Proof.
  unfold urlpatterns, login_required, require_POST.
  destruct (route req); try (destruct (request_user s req) as [u |] eqn:Hreq;
    [apply request_user_Some in Hreq | apply eff_none]).
  - unfold home. case_match; apply eff_none.
  - apply eff_none.
  - unfold register. case_bool_decide; [| apply eff_none].
    destruct builtin_ok; [| apply eff_none]. simpl.
    pose proof (fresh_user s) as Hfresh.
    unfold post_save_User, save_user_profile, create_user_profile. simpl.
    destruct signals_ready eqn:Hsig.
    + destruct (profiles s !! fresh (users s)) eqn:Hp.
      * apply (eff_register s _ (profiles s)); auto; rewrite ?Hp; eauto.
      * apply (eff_register s _ (<[fresh (users s) := default_profile]> (profiles s)));
          auto; rewrite ?lookup_insert_eq; eauto.
    + apply (eff_register s _ (profiles s)); auto; congruence.
  - unfold login_view. repeat case_match; apply eff_none.
  - apply eff_none.
  - unfold edit_profile.
    destruct (profiles s !! u) as [p |] eqn:Hp; [| apply eff_none].
    case_bool_decide; [| apply eff_none].
    destruct (builtin_ok && clean_age (f_age form)) eqn:Hok; [| apply eff_none].
    apply andb_true_iff in Hok as [_ Hage]. simpl. by apply eff_edit_profile.
  - unfold create_activity. case_bool_decide; [| apply eff_none].
    destruct (builtin_ok && clean_date (f_date form) now); [| apply eff_none].
    simpl. eapply (eff_create_activity s u _ _ now); try done.
    + unfold Activity_pre_save. simpl. by case_match.
    + apply fresh_activity.
    + unfold Activity_pre_save. simpl.
      destruct (Activity_is_past _ now) eqn:Hpast; simpl; [| by rewrite Hpast].
      by rewrite Activity_is_past_set_is_active, Hpast.
  - unfold join_activity.
    destruct (activities s !! id) as [a |] eqn:Ha; [| apply eff_none].
    destruct (Block_exists_between s u (creator a)) eqn:Hb; [apply eff_none |].
    destruct (is_active a) eqn:Hact; simpl; [| apply eff_none].
    destruct (Activity_is_past a now) eqn:Hpast; [apply eff_none |].
    case_bool_decide as Hc; [apply eff_none |].
    destruct (is_participant s id u) eqn:Hpart; [apply eff_none |].
    apply bool_decide_eq_false in Hpart.
    by apply (eff_join s u id a now).
  - unfold send_connection. repeat case_match; rows_written;
      first [apply eff_none | by apply eff_connections_frame].
  - unfold accept_connection. repeat case_match; rows_written;
      first [apply eff_none | by apply eff_connections_frame].
  - unfold reject_connection. repeat case_match; rows_written;
      first [apply eff_none | by apply eff_connections_frame].
  - case_bool_decide; [| apply eff_none].
    destruct (rate_user_store s u activity_id user_id req now)
      as [-> | (r & <- & <- & <- & Hacc & ->)]; [apply eff_none |].
    destruct Hacc as (Hu & Hv & Hscore & Hself & Hdup & a & Ha & Heq & Hpart & Hpast & Hb).
    by apply (eff_rate s r a now).
  - unfold report_user. case_bool_decide as Hid; simpl; [| apply eff_none].
    case_bool_decide as Hself; [apply eff_none |].
    destruct (Report_exists s u user_id) eqn:Hdup; [apply eff_none |].
    case_bool_decide; [| apply eff_none].
    case_bool_decide as Hreason; [apply eff_none |]. simpl.
    by apply (eff_report s (mkReport u user_id _)).
  - unfold block_user. repeat case_match; simpl;
      first [apply eff_none | by apply eff_connections_frame].
  - unfold unblock_user. repeat case_match; simpl;
      first [apply eff_none | by apply eff_connections_frame].
Qed.

(** ** What every effect keeps *)

Lemma Effect_users (s s' : Store) : Effect s s' → users s ⊆ users s'.
Proof. destruct 1; simpl; set_solver. Qed.

Lemma Effect_activities (s s' : Store) (id : nat) (a : Activity) :
  Effect s s' → activities s !! id = Some a → activities s' !! id = Some a.
Proof.
  destruct 1; simpl; try done.
  intros Ha. rewrite lookup_insert_ne; [done | congruence].
Qed.

Lemma Effect_participants (s s' : Store) :
  Effect s s' → participants s ⊆ participants s'.
Proof. destruct 1; simpl; set_solver. Qed.

Lemma Effect_ratings (s s' : Store) :
  Effect s s' → ratings s' = ratings s ∨ ∃ r, ratings s' = r :: ratings s.
Proof. destruct 1; simpl; eauto. Qed.

Lemma Effect_reports (s s' : Store) :
  Effect s s' → reports s' = reports s ∨ ∃ r, reports s' = r :: reports s.
Proof. destruct 1; simpl; eauto. Qed.

Lemma ratings_ok_step (s s' : Store) :
  ratings_ok s →
  users s ⊆ users s' →
  participants s ⊆ participants s' →
  (∀ id a, activities s !! id = Some a → activities s' !! id = Some a) →
  ratings s' = ratings s ∨
    (∃ r a, ratings s' = r :: ratings s ∧
            Rating_exists s (rater r) (activity r) = false ∧
            1 ≤ score r ≤ 5 ∧ rater r ≠ rated_user r ∧
            rater r ∈ users s ∧ rated_user r ∈ users s ∧
            (activity r, rater r) ∈ participants s ∧
            activities s !! activity r = Some a ∧ creator a = rated_user r) →
  ratings_ok s'.
Proof.
  intros [Hnd Hrows] Hu Hp Ha Hr.
  assert (Hold : ∀ r, r ∈ ratings s →
            1 ≤ score r ≤ 5 ∧ rater r ≠ rated_user r ∧
            rater r ∈ users s' ∧ rated_user r ∈ users s' ∧
            (activity r, rater r) ∈ participants s' ∧
            ∃ a, activities s' !! activity r = Some a ∧ creator a = rated_user r).
  { intros r (H1 & H2 & H3 & H4 & H5 & a & H6 & H7)%Hrows.
    split; [done |]. split; [done |].
    split; [by apply Hu |]. split; [by apply Hu |]. split; [by apply Hp |].
    exists a. split; [by apply Ha | done]. }
  destruct Hr as [Heq | (r & a & Heq & Hdup & H1 & H2 & H3 & H4 & H5 & H6 & H7)];
    unfold ratings_ok; rewrite Heq.
  - done.
  - split.
    + rewrite fmap_cons. apply NoDup_cons. split; [| done].
      intros (r' & Hpair & Hr')%list_elem_of_fmap.
      injection Hpair as Hp1 Hp2.
      by apply (proj1 (Rating_exists_false _ _ _) Hdup r' Hr').
    + intros r' [-> | Hr']%elem_of_cons; [| by apply Hold].
      split; [done |]. split; [done |].
      split; [by apply Hu |]. split; [by apply Hu |]. split; [by apply Hp |].
      exists a. split; [by apply Ha | done].
Qed.

Lemma Effect_ratings_ok (s s' : Store) :
  Effect s s' → ratings_ok s → ratings_ok s'.
Proof.
  intros Heff Hok.
  apply (ratings_ok_step s s' Hok).
  - by apply Effect_users.
  - by apply Effect_participants.
  - intros id a. by apply Effect_activities.
  - destruct Heff; simpl; try (by left).
    right. exists r, a. split_and!; try done; lia.
Qed.

Lemma Effect_participants_ok (s s' : Store) :
  Effect s s' → participants_ok s → participants_ok s'.
Proof.
  intros Heff Hok id u Hrow.
  assert (Hold : (id, u) ∈ participants s →
            u ∈ users s' ∧ ∃ a, activities s' !! id = Some a ∧ creator a ≠ u).
  { intros [Hu (a & Ha & Hc)]%Hok. split; [by apply (Effect_users s) |].
    exists a. split; [by apply (Effect_activities s) | done]. }
  destruct Heff; simpl in *; try by apply Hold.
  apply elem_of_union in Hrow as [Hnew%elem_of_singleton | Hrow];
    [| by apply Hold].
  injection Hnew as -> ->. split; [done |]. by exists a.
Qed.

Lemma Effect_activities_ok (s s' : Store) :
  Effect s s' → activities_ok s → activities_ok s'.
Proof.
  intros Heff Hok id a' Ha'.
  pose proof (Effect_users s s' Heff) as Hu.
  destruct Heff; try (apply Hu; by apply (Hok id a')).
  apply Hu. simpl in Ha'.
  destruct (decide (i = id)) as [-> | Hne].
  - rewrite lookup_insert_eq in Ha'. injection Ha' as <-. congruence.
  - rewrite lookup_insert_ne in Ha' by done. by apply (Hok id a').
Qed.

Lemma Report_exists_false (s : Store) (a b : nat) :
  Report_exists s a b = false ↔
  ∀ r, r ∈ reports s → ¬ (reporter r = a ∧ reported_user r = b).
Proof.
  unfold Report_exists. rewrite <- not_true_iff_false, existsb_exists.
  split.
  - intros Hno r Hr [Hu Ha]. apply Hno. exists r.
    rewrite <- list_elem_of_In. split; [done |].
    by rewrite !bool_decide_eq_true_2.
  - intros Hno (r & Hr & Hb). apply list_elem_of_In in Hr.
    apply andb_true_iff in Hb as [H1%bool_decide_eq_true H2%bool_decide_eq_true].
    by apply (Hno r Hr).
Qed.

Lemma Effect_reports_ok (s s' : Store) :
  Effect s s' → reports_ok s → reports_ok s'.
Proof.
  intros Heff [Hnd Hrows].
  pose proof (Effect_users s s' Heff) as Hu.
  assert (Hold : ∀ r, r ∈ reports s →
            reporter r ≠ reported_user r ∧ reason r ≠ "" ∧
            reporter r ∈ users s' ∧ reported_user r ∈ users s').
  { intros r (H1 & H2 & H3 & H4)%Hrows.
    split; [done |]. split; [done |]. split; by apply Hu. }
  destruct Heff; simpl in *; try (by split).
  split; simpl.
  - apply NoDup_cons. split; [| done].
    intros (r' & Hpair & Hr')%list_elem_of_fmap.
    injection Hpair as Hp1 Hp2.
    match goal with H : Report_exists _ _ _ = false |- _ =>
      by apply (proj1 (Report_exists_false _ _ _) H r' Hr') end.
  - intros r' [-> | Hr']%elem_of_cons; [done | by apply Hold].
Qed.

Lemma scores_received_cons (s : Store) (r : Rating) (f : Store → Store) (u : nat) :
  ratings (f s) = r :: ratings s →
  scores_received (f s) u
    = if decide (rated_user r = u) then score r :: scores_received s u
      else scores_received s u.
Proof.
  unfold scores_received. intros ->. rewrite filter_cons.
  by case_decide.
Qed.

Lemma stats_current_ext (s s' : Store) (u : nat) (p : Profile) :
  scores_received s' u = scores_received s u →
  stats_current s u p → stats_current s' u p.
Proof. unfold stats_current. by intros ->. Qed.

Lemma no_ratings_for_stranger (s : Store) (u : nat) :
  ratings_ok s → u ∉ users s → scores_received s u = [].
Proof.
  intros [_ Hratings] Hu. unfold scores_received.
  destruct (filter (λ r, rated_user r = u) (ratings s)) as [| r l] eqn:Hf;
    [done |].
  assert (r ∈ filter (λ r, rated_user r = u) (ratings s)) as Hr
    by (rewrite Hf; apply list_elem_of_here).
  apply list_elem_of_filter in Hr as [<- Hr].
  destruct (Hratings r Hr) as (_ & _ & _ & Hin & _). done.
Qed.

Lemma profiles_ok_same (s s' : Store) :
  users s' = users s → profiles s' = profiles s → ratings s' = ratings s →
  profiles_ok s → profiles_ok s'.
Proof.
  unfold profiles_ok, stats_current, scores_received.
  by intros -> -> ->.
Qed.

Lemma Effect_profiles_ok (s s' : Store) :
  Effect s s' → ratings_ok s → profiles_ok s → profiles_ok s'.
Proof.
  intros Heff Hratings Hok.
  destruct Heff as [| u ps Hfresh Hps Hsig | u p form Hu Hp Hage | | | |
                    r a now | ];
    try (by apply (profiles_ok_same s)).
  - (* register *)
    destruct Hok as (Hdom & Hall & Hstats).
    pose proof (no_ratings_for_stranger s u Hratings Hfresh) as Hnone.
    unfold profiles_ok. simpl.
    split; [| split].
    + destruct Hps as [-> | [_ ->]]; [| rewrite dom_insert_L]; set_solver.
    + intros Hs v [->%elem_of_singleton | Hv]%elem_of_union.
      * apply elem_of_dom. auto.
      * destruct Hps as [-> | [_ ->]]; [by apply Hall |].
        rewrite dom_insert_L. apply elem_of_union. right. by apply Hall.
    + intros v q Hq. destruct Hps as [-> | [Hfree ->]]; [by apply Hstats |].
      destruct (decide (u = v)) as [-> | Hne].
      * rewrite lookup_insert_eq in Hq. injection Hq as <-.
        unfold stats_current.
        change (scores_received _ v) with (scores_received s v).
        by rewrite Hnone.
      * rewrite lookup_insert_ne in Hq by done. by apply Hstats.
  - (* edit_profile *)
    destruct Hok as (Hdom & Hall & Hstats).
    unfold profiles_ok. simpl.
    split; [| split].
    + rewrite dom_insert_L. apply union_least; [| done].
      by apply singleton_subseteq_l.
    + intros Hs. rewrite dom_insert_L. specialize (Hall Hs). set_solver.
    + intros v q Hq. destruct (decide (u = v)) as [-> | Hne].
      * rewrite lookup_insert_eq in Hq. injection Hq as <-.
        by apply (Hstats v p).
      * rewrite lookup_insert_ne in Hq by done. by apply Hstats.
  - (* rate_user *)
    destruct Hok as (Hdom & Hall & Hstats).
    split; [| split].
    + unfold Profile_update_rating_stats. simpl. by rewrite dom_alter_L.
    + unfold Profile_update_rating_stats. simpl. by rewrite dom_alter_L.
    + intros v q Hq.
      destruct (decide (rated_user r = v)) as [<- | Hne].
      * by apply (Profile_update_rating_stats_current (set_ratings (cons r) s)).
      * rewrite Profile_update_rating_stats_lookup in Hq.
        rewrite decide_False in Hq by done. simpl in Hq.
        apply (stats_current_ext s); [| by apply Hstats].
        unfold scores_received. simpl. rewrite filter_cons.
        by rewrite decide_False.
Qed.

Lemma Effect_store_ok (s s' : Store) : Effect s s' → store_ok s → store_ok s'.
Proof.
  intros Heff (H1 & H2 & H3 & H4 & H5).
  split; [by apply (Effect_ratings_ok s) |].
  split; [by apply (Effect_profiles_ok s) |].
  split; [by apply (Effect_participants_ok s) |].
  split; [by apply (Effect_activities_ok s) |].
  by apply (Effect_reports_ok s).
Qed.

Lemma store_ok_empty : store_ok empty_store.
Proof.
  split; [| split; [| split; [| split]]].
  - split; [constructor | intros r Hr; by apply elem_of_nil in Hr].
  - split; [| split]; simpl.
    + by rewrite dom_empty_L.
    + done.
    + intros u p Hp. simpl in Hp. by rewrite lookup_empty in Hp.
  - intros id u Hrow. by apply elem_of_empty in Hrow.
  - intros id a Ha. simpl in Ha. by rewrite lookup_empty in Ha.
  - split; [constructor | intros r Hr; by apply elem_of_nil in Hr].
Qed.

Lemma serve_store_ok (s : Store) (h : list (Z * Request)) :
  store_ok s → store_ok (serve s h).
Proof.
  revert s. induction h as [| [now req] h IH]; intros s Hok; [done |].
  simpl. apply IH. apply (Effect_store_ok s); [apply urlpatterns_effect | done].
Qed.

Lemma history_store_ok (h : list (Z * Request)) :
  store_ok (serve empty_store h).
Proof. apply serve_store_ok, store_ok_empty. Qed.

Lemma serve_effects (s : Store) (h : list (Z * Request)) (P : Store → Store → Prop) :
  (∀ s, P s s) →
  (∀ s1 s2 s3, P s1 s2 → Effect s2 s3 → P s1 s3) →
  P s (serve s h).
Proof.
  intros Hrefl Hstep.
  enough (∀ s0, P s s0 → P s (serve s0 h)) by auto.
  induction h as [| [now req] h IH]; intros s0 H0; [done |].
  simpl. apply IH. apply (Hstep s s0); [done | apply urlpatterns_effect].
Qed.

(** ** Along every history *)

(** X3.  In every store a history of requests leads to, the rating
    table holds at most one row per (rater, activity), and every row has
    a score in 1..5, was given by a participant of the activity to its
    creator, joins two different existing users, and names an existing
    activity. *)
Theorem ratings_within_rules (h : list (Z * Request)) :
  let s := serve empty_store h in
  NoDup ((λ r, (rater r, activity r)) <$> ratings s) ∧
  ∀ r, r ∈ ratings s →
    1 ≤ score r ≤ 5 ∧ rater r ≠ rated_user r ∧
    rater r ∈ users s ∧ rated_user r ∈ users s ∧
    (activity r, rater r) ∈ participants s ∧
    ∃ a, activities s !! activity r = Some a ∧ creator a = rated_user r.
Proof. exact (proj1 (history_store_ok h)). Qed.

(** X4.  In every store a history of requests leads to, every profile
    belongs to a user and its [average_rating] and [total_ratings] are
    the rounded mean ([0.0] without ratings) and the count of the
    ratings that user has received: the stored statistics are never
    stale. *)
Theorem profile_stats_never_stale (h : list (Z * Request)) :
  let s := serve empty_store h in
  ∀ u p, profiles s !! u = Some p →
    u ∈ users s ∧
    average_rating p = expected_average (scores_received s u) ∧
    total_ratings p = Z.of_nat (length (scores_received s u)).
Proof.
  intros s u p Hp.
  destruct (history_store_ok h) as (_ & (Hdom & _ & Hstats) & _).
  split; [| by apply Hstats].
  apply Hdom, elem_of_dom. by eexists.
Qed.

(** X5.  With the [post_save] receivers connected, every user has a
    profile in every store a history of requests leads to, so
    [edit_profile] never answers a logged-in user with a server
    error. *)
Theorem every_user_has_a_profile (h : list (Z * Request)) (u : nat) :
  signals_ready = true →
  u ∈ users (serve empty_store h) →
  is_Some (profiles (serve empty_store h) !! u) ∧
  ∀ m ok form, (edit_profile (serve empty_store h) u m ok form).2 ≠ Http500.
Proof.
  intros Hsig Hu.
  destruct (history_store_ok h) as (_ & (_ & Hall & _) & _).
  assert (is_Some (profiles (serve empty_store h) !! u)) as [p Hp]
    by by apply elem_of_dom, Hall.
  split; [by eexists |].
  intros m ok form. unfold edit_profile. rewrite Hp.
  repeat case_match; done.
Qed.

(** X6.  In every store a history of requests leads to, every
    participant row joins an existing user to an existing activity
    created by someone else: a creator is never a participant of their
    own activity. *)
Theorem creator_never_participant (h : list (Z * Request)) :
  let s := serve empty_store h in
  ∀ id u, (id, u) ∈ participants s →
    u ∈ users s ∧ ∃ a, activities s !! id = Some a ∧ creator a ≠ u.
Proof. exact (proj1 (proj2 (proj2 (history_store_ok h)))). Qed.

(** X7.  No route deletes a user, edits or deletes an activity, or
    edits or deletes a rating or a report: along any history, from any
    store, users stay, every activity row stays exactly as it was
    created (its [is_active] flag included), and the rating and report
    tables only receive new rows in front. *)
Theorem rows_are_never_edited (s : Store) (h : list (Z * Request)) :
  users s ⊆ users (serve s h) ∧
  (∀ id a, activities s !! id = Some a → activities (serve s h) !! id = Some a) ∧
  ratings s `suffix_of` ratings (serve s h) ∧
  reports s `suffix_of` reports (serve s h).
Proof.
  apply (serve_effects s h (λ s1 s2,
    users s1 ⊆ users s2 ∧
    (∀ id a, activities s1 !! id = Some a → activities s2 !! id = Some a) ∧
    ratings s1 `suffix_of` ratings s2 ∧ reports s1 `suffix_of` reports s2)).
  - done.
  - intros s1 s2 s3 (Hu & Ha & Hr & Hp) Heff.
    split; [etrans; [done | by apply Effect_users] |].
    split; [intros id a Hin; by apply (Effect_activities s2), Ha |].
    split.
    + etrans; [done |].
      destruct (Effect_ratings s2 s3 Heff) as [-> | [r ->]];
        [done | by apply suffix_cons_r].
    + etrans; [done |].
      destruct (Effect_reports s2 s3 Heff) as [-> | [r ->]];
        [done | by apply suffix_cons_r].
Qed.

(** X8.  In every store a history of requests leads to, the report
    table holds at most one row per (reporter, reported user), and
    every row joins two different existing users and carries a
    non-empty reason. *)
Theorem reports_within_rules (h : list (Z * Request)) :
  let s := serve empty_store h in
  NoDup ((λ r, (reporter r, reported_user r)) <$> reports s) ∧
  ∀ r, r ∈ reports s →
    reporter r ≠ reported_user r ∧ reason r ≠ "" ∧
    reporter r ∈ users s ∧ reported_user r ∈ users s.
Proof. exact (proj2 (proj2 (proj2 (proj2 (history_store_ok h))))). Qed.

(** X9.  In every store a history of requests leads to, connection
    rows have distinct primary keys, no two rows join the same
    unordered pair of users, every row joins two different existing
    users neither of whom has blocked the other, and no user has
    blocked themselves. *)
Theorem connections_within_rules (h : list (Z * Request)) :
  let s := serve empty_store h in
  NoDup (connection_pk <$> connections s) ∧
  (∀ c1 c2, c1 ∈ connections s → c2 ∈ connections s →
     Connection_between (sender c1) (receiver c1) c2 = true → c1 = c2) ∧
  (∀ c, c ∈ connections s →
     sender c ≠ receiver c ∧ sender c ∈ users s ∧ receiver c ∈ users s ∧
     Block_exists_between s (sender c) (receiver c) = false) ∧
  (∀ a b, (a, b) ∈ blocks s → a ≠ b ∧ a ∈ users s ∧ b ∈ users s).
Proof.
  intros s. subst s. destruct (history_ledger h) as [H1 H2 H3 H4 H5 H6 H7].
  split; [done |]. split; [done |]. split.
  - intros c Hc. destruct (H1 c Hc), (H3 c Hc).
    split; [by apply H2 |]. split; [done |]. split; [done |].
    unfold Block_exists_between, Block_exists.
    by rewrite !bool_decide_eq_false_2.
  - intros a b Hab. destruct (H6 a b Hab). split; [| done].
    intros ->. by apply (H7 b).
Qed.

(** ** Connections: accepting, rejecting, asking again *)

Lemma get_connection_elem (s : Store) (c : Connection) :
  ledger_ok s → c ∈ connections s → get_connection s (connection_pk c) = Some c.
Proof.
  intros Hok Hc. unfold get_connection.
  destruct (find _ (connections s)) as [e |] eqn:Hfind.
  - apply find_elem_of in Hfind as [He Hpk%bool_decide_eq_true].
    f_equal. by apply (pk_determines_row (connections s)); [apply Hok | | |].
  - pose proof (find_None_elem_of _ _ Hfind c Hc) as Hno.
    simpl in Hno. by apply bool_decide_eq_false in Hno.
Qed.

Lemma Connection_save_same_pair (s : Store) (c c' : Connection) :
  ledger_ok s → c ∈ connections s →
  connection_pk c' = connection_pk c →
  Connection_between (sender c) (receiver c) c' = true →
  Connection_save s c' = Ok (set_connections (replace_row c') s).
Proof.
  intros [H1 H2 H3 H4 H5 H6 H7] Hc Hpk Hpair.
  apply Connection_between_spec in Hpair.
  unfold Connection_save.
  replace (Connection_constraints_hold _ c') with true; [done |].
  symmetry. unfold Connection_constraints_hold.
  apply andb_true_iff. split.
  - apply negb_true_iff, bool_decide_eq_false.
    specialize (H2 c Hc). destruct Hpair as [[-> ->] | [-> ->]]; congruence.
  - apply negb_true_iff, not_true_iff_false.
    intros (x & Hx & Hsame)%existsb_exists.
    apply list_elem_of_In, list_elem_of_filter in Hx as [Hxpk Hx].
    apply andb_true_iff in Hsame as [Hxs%bool_decide_eq_true Hxr%bool_decide_eq_true].
    destruct Hxpk. rewrite Hpk. f_equal. symmetry. apply H5; try done.
    apply Connection_between_spec.
    destruct Hpair as [[E1 E2] | [E1 E2]]; [left | right]; split; congruence.
Qed.

Lemma replace_row_elem (c c' : Connection) (cs : list Connection) :
  c ∈ cs → connection_pk c' = connection_pk c → c' ∈ replace_row c' cs.
Proof.
  intros Hc Hpk. unfold replace_row. apply list_elem_of_fmap.
  exists c. split; [| done]. by rewrite bool_decide_eq_true_2.
Qed.

(** X10.  In any store a history of requests leads to, for a connection
    row [c]: [accept_connection] by anyone but its receiver is refused
    as [Forbidden]; by the receiver when the row is not Pending it is
    refused as [InvalidState]; both write nothing.  By the receiver of a
    Pending row it succeeds and rewrites that row, and only its status,
    to Accepted.  An id no row has is answered 404. *)
Theorem accept_connection_contract
    (h : list (Z * Request)) (user : nat) (c : Connection) :
  let s := serve empty_store h in
  c ∈ connections s →
  let out := accept_connection s user (connection_pk c) in
  (receiver c ≠ user → out.1 = s ∧ reasons out.2 = [Forbidden]) ∧
  (receiver c = user → status c ≠ PENDING →
   out.1 = s ∧ reasons out.2 = [InvalidState]) ∧
  (receiver c = user → status c = PENDING →
   out.1 = set_connections (replace_row (Connection_set_status ACCEPTED c)) s ∧
   out.2 = flash to_discover SUCCESS (now_connected_with (sender c)) ∧
   Connection_set_status ACCEPTED c ∈ connections out.1) ∧
  (∀ id, get_connection s id = None →
         accept_connection s user id = (s, Http404)).
Proof.
  intros s Hc out. subst out.
  pose proof (history_ledger h) as Hok. fold s in Hok.
  unfold accept_connection. rewrite (get_connection_elem s c Hok Hc).
  split; [| split; [| split]].
  - intros Hne. by rewrite bool_decide_eq_false_2.
  - intros Heq Hst. rewrite bool_decide_eq_true_2 by done. simpl.
    by rewrite bool_decide_eq_false_2.
  - intros Heq Hst. rewrite !bool_decide_eq_true_2 by done. simpl.
    rewrite (Connection_save_same_pair s c) by
      (try done; apply Connection_between_spec; simpl; auto).
    simpl. split; [done |]. split; [done |]. by apply (replace_row_elem c).
  - intros id ->. done.
Qed.

(** X11.  In any store a history of requests leads to, for a connection
    row [c]: [reject_connection] by anyone but its receiver is refused
    as [Forbidden]; by the receiver when the row is not Pending it is
    refused as [InvalidState]; both write nothing.  By the receiver of a
    Pending row it rewrites that row, and only its status, to
    Rejected.  An id no row has is answered 404. *)
Theorem reject_connection_contract
    (h : list (Z * Request)) (user : nat) (c : Connection) :
  let s := serve empty_store h in
  c ∈ connections s →
  let out := reject_connection s user (connection_pk c) in
  (receiver c ≠ user → out.1 = s ∧ reasons out.2 = [Forbidden]) ∧
  (receiver c = user → status c ≠ PENDING →
   out.1 = s ∧ reasons out.2 = [InvalidState]) ∧
  (receiver c = user → status c = PENDING →
   out.1 = set_connections (replace_row (Connection_set_status REJECTED c)) s ∧
   out.2 = flash to_discover INFO request_rejected ∧
   Connection_set_status REJECTED c ∈ connections out.1) ∧
  (∀ id, get_connection s id = None →
         reject_connection s user id = (s, Http404)).
Proof.
  intros s Hc out. subst out.
  pose proof (history_ledger h) as Hok. fold s in Hok.
  unfold reject_connection. rewrite (get_connection_elem s c Hok Hc).
  split; [| split; [| split]].
  - intros Hne. by rewrite bool_decide_eq_false_2.
  - intros Heq Hst. rewrite bool_decide_eq_true_2 by done. simpl.
    by rewrite bool_decide_eq_false_2.
  - intros Heq Hst. rewrite !bool_decide_eq_true_2 by done. simpl.
    rewrite (Connection_save_same_pair s c) by
      (try done; apply Connection_between_spec; simpl; auto).
    simpl. split; [done |]. split; [done |]. by apply (replace_row_elem c).
  - intros id ->. done.
Qed.

Lemma find_between_elem (s : Store) (a b : nat) (c : Connection) :
  ledger_ok s → c ∈ connections s → Connection_between a b c = true →
  find (Connection_between a b) (connections s) = Some c.
Proof.
  intros Hok Hc Hbetween.
  destruct (find (Connection_between a b) (connections s)) as [e |] eqn:Hf.
  - apply find_elem_of in Hf as [He Hbe]. f_equal. symmetry.
    apply (conn_pair_unique _ _ _ Hok); try done.
    apply Connection_between_spec.
    apply Connection_between_spec in Hbe, Hbetween.
    destruct Hbetween as [[<- <-] | [<- <-]]; destruct Hbe as [[? ?] | [? ?]]; auto.
  - rewrite (find_None_elem_of _ _ Hf c Hc) in Hbetween. discriminate.
Qed.

(** X12.  In any store a history of requests leads to, asking for a
    connection to a user one already has a row with, in either
    direction, never adds a row: an Accepted row answers
    [AlreadyConnected], a Pending row sent by the caller answers
    [RequestAlreadySent], a Pending row sent by the other user answers
    [IncomingRequestExists], and the store is left as it was. *)
Theorem send_connection_existing
    (h : list (Z * Request)) (user id : nat) (c : Connection) :
  let s := serve empty_store h in
  c ∈ connections s →
  Connection_between user id c = true →
  status c ≠ REJECTED →
  let out := send_connection s user id in
  out.1 = s ∧
  reasons out.2
    = [match status c with
       | ACCEPTED => AlreadyConnected
       | _ => if decide (sender c = user) then RequestAlreadySent
              else IncomingRequestExists
       end] ∧
  level_of out.2 = Some INFO.
Proof.
  intros s Hc Hbetween Hstatus out. subst out.
  pose proof (history_ledger h) as Hok. fold s in Hok.
  pose proof Hbetween as Hends. apply Connection_between_spec in Hends.
  destruct (conn_users _ _ _ Hok c Hc) as [Hs Hr].
  pose proof (conn_not_self _ _ _ Hok c Hc) as Hne.
  destruct (conn_not_blocked _ _ _ Hok c Hc) as [Hb1 Hb2].
  assert (id ∈ users s) as Hid by (destruct Hends as [[<- <-] | [<- <-]]; done).
  assert (user ≠ id) as Hui by (destruct Hends as [[<- <-] | [<- <-]]; congruence).
  assert (Block_exists_between s user id = false) as Hnb.
  { unfold Block_exists_between, Block_exists. apply orb_false_iff.
    split; apply bool_decide_eq_false;
      destruct Hends as [[<- <-] | [<- <-]]; done. }
  unfold send_connection.
  rewrite (bool_decide_eq_true_2 _ Hid), Hnb, (bool_decide_eq_false_2 _ Hui).
  simpl. rewrite (find_between_elem s user id c Hok Hc Hbetween).
  destruct (status c); [| done | done].
  case_bool_decide; case_decide; done.
Qed.

(** X13.  Whatever the store, a request to an existing user with whom
    the caller has no row in either direction, who is not the caller and
    with whom no block exists either way, creates one Pending row from
    the caller to that user, in front of the table, under the key that
    follows the last one the id sequence handed out; that key becomes
    the last one handed out and nothing else changes.  In a store that
    a history of requests leads to, every key in the table is below the
    new one, whatever rows were deleted in between. *)
Theorem send_connection_new (s : Store) (user id : nat) :
  id ∈ users s →
  user ≠ id →
  Block_exists_between s user id = false →
  (∀ c, c ∈ connections s → Connection_between user id c = false) →
  let out := send_connection s user id in
  let row := mkConnection (S (connection_seq s)) user id PENDING in
  out.2 = flash to_discover SUCCESS (connection_request_sent id) ∧
  connections out.1 = row :: connections s ∧
  connection_seq out.1 = S (connection_seq s) ∧
  users out.1 = users s ∧ profiles out.1 = profiles s ∧
  activities out.1 = activities s ∧ participants out.1 = participants s ∧
  reports out.1 = reports s ∧ blocks out.1 = blocks s ∧
  ratings out.1 = ratings s ∧
  (∀ h, s = serve empty_store h →
     ∀ c, c ∈ connections s → (connection_pk c < connection_pk row)%nat).
Proof.
  intros Hid Hne Hnb Hnone out row. subst out.
  assert (find (Connection_between user id) (connections s) = None) as Hfind.
  { destruct (find _ (connections s)) as [e |] eqn:Hf; [| done].
    apply find_elem_of in Hf as [He Hbe]. by rewrite (Hnone e He) in Hbe. }
  assert (Connection_create s user id PENDING
            = Ok (set_connection_seq (λ _, S (connection_seq s))
                    (set_connections (cons row) s)))
    as Hcreate.
  { unfold Connection_create, new_connection_pk. fold row.
    replace (Connection_constraints_hold (connections s) row) with true; [done |].
    symmetry. unfold Connection_constraints_hold. simpl.
    rewrite (bool_decide_eq_false_2 _ Hne). simpl.
    apply negb_true_iff, not_true_iff_false.
    intros (x & Hx%list_elem_of_In & Hsame)%existsb_exists.
    apply andb_true_iff in Hsame as [Hxs%bool_decide_eq_true Hxr%bool_decide_eq_true].
    specialize (Hnone x Hx). apply Connection_between_false in Hnone. auto. }
  unfold send_connection.
  rewrite (bool_decide_eq_true_2 _ Hid), Hnb, (bool_decide_eq_false_2 _ Hne).
  simpl. rewrite Hfind, Hcreate. simpl.
  split_and!; try done.
  intros h -> c Hc. apply (history_keys h) in Hc. lia.
Qed.

(** ** Blocks *)

Lemma send_connection_blocked (s : Store) (a b : nat) :
  Block_exists_between s a b = true → b ∈ users s →
  send_connection s a b = (s, flash to_discover ERROR connection_not_allowed).
Proof.
  intros Hblock Hb. unfold send_connection.
  by rewrite (bool_decide_eq_true_2 _ Hb), Hblock.
Qed.

Lemma join_activity_blocked (s : Store) (a b id : nat) (act : Activity) (now : Z) :
  Block_exists_between s a b = true →
  activities s !! id = Some act → creator act = b →
  join_activity s a id now
    = (s, flash to_discover ERROR cannot_join_this_activity).
Proof.
  intros Hblock Hact <-. unfold join_activity. by rewrite Hact, Hblock.
Qed.

Lemma rate_user_blocked (s : Store) (a b id : nat) (req : Request) (now : Z) :
  Block_exists_between s a b = true →
  (rate_user s a id b req now).1 = s.
Proof.
  intros Hblock.
  destruct (rate_user_store s a id b req now)
    as [Hs | (r & <- & <- & _ & Hacc & _)]; [done |].
  destruct Hacc as (_ & _ & _ & _ & _ & act & _ & _ & _ & _ & Hnb). congruence.
Qed.

Lemma Block_exists_between_sym (s : Store) (a b : nat) :
  Block_exists_between s b a = Block_exists_between s a b.
Proof. unfold Block_exists_between. apply orb_comm. Qed.

(** X14.  While a block exists between two users, in either direction,
    neither can ask the other for a connection, join an activity the
    other created, or rate the other: the first two are refused as
    [Forbidden], and all three leave the store as it was.  A successful
    [block_user], by a user on another existing user they have not
    blocked, puts the two users in that situation: in the store it
    leaves, the block row exists, a block exists between the two
    whichever is asked first, and each of the three interactions is
    refused in both directions. *)
Theorem block_gates_interactions (s : Store) (a b : nat) :
  (Block_exists_between s a b = true →
   (b ∈ users s →
    send_connection s a b = (s, flash to_discover ERROR connection_not_allowed)) ∧
   (∀ id act now, activities s !! id = Some act → creator act = b →
      join_activity s a id now
        = (s, flash to_discover ERROR cannot_join_this_activity)) ∧
   (∀ id req now, (rate_user s a id b req now).1 = s)) ∧
  (b ∈ users s → a ≠ b → Block_exists s a b = false →
   let out := block_user s a b in
   let s' := out.1 in
   out.2 = flash to_discover SUCCESS user_blocked ∧
   ((a, b) ∈ blocks s') ∧
   Block_exists s' a b = true ∧
   Block_exists_between s' a b = true ∧
   Block_exists_between s' b a = true ∧
   send_connection s' a b
     = (s', flash to_discover ERROR connection_not_allowed) ∧
   (a ∈ users s →
    send_connection s' b a
      = (s', flash to_discover ERROR connection_not_allowed)) ∧
   (∀ id act now, activities s' !! id = Some act → creator act = b →
      join_activity s' a id now
        = (s', flash to_discover ERROR cannot_join_this_activity)) ∧
   (∀ id act now, activities s' !! id = Some act → creator act = a →
      join_activity s' b id now
        = (s', flash to_discover ERROR cannot_join_this_activity)) ∧
   (∀ id req now, (rate_user s' a id b req now).1 = s') ∧
   (∀ id req now, (rate_user s' b id a req now).1 = s')).
Proof.
  split.
  - intros Hblock. split; [| split].
    + by apply send_connection_blocked.
    + intros id act now. by apply join_activity_blocked.
    + intros id req now. by apply rate_user_blocked.
  - intros Hb Hne Hfree out s'.
    assert (Hout : out = (set_blocks (union {[(a, b)]})
                            (set_connections
                               (filter (λ c, ¬ Connection_between a b c)) s),
                          flash to_discover SUCCESS user_blocked)).
    { subst out. unfold block_user.
      by rewrite (bool_decide_eq_true_2 _ Hb), (bool_decide_eq_false_2 _ Hne),
        Hfree. }
    assert (Hrow : (a, b) ∈ blocks s').
    { subst s'. rewrite Hout. simpl. apply elem_of_union_l, elem_of_singleton.
      done. }
    assert (Hex : Block_exists s' a b = true)
      by (by apply bool_decide_eq_true).
    assert (Hab : Block_exists_between s' a b = true)
      by (unfold Block_exists_between; by rewrite Hex).
    assert (Hba : Block_exists_between s' b a = true)
      by (by rewrite Block_exists_between_sym).
    assert (Hus : users s' = users s) by (subst s'; by rewrite Hout).
    split_and!; try done.
    + by rewrite Hout.
    + apply send_connection_blocked; [done | by rewrite Hus].
    + intros Ha. apply send_connection_blocked; [done | by rewrite Hus].
    + intros id act now. by apply join_activity_blocked.
    + intros id act now. by apply join_activity_blocked.
    + intros id req now. by apply rate_user_blocked.
    + intros id req now. by apply rate_user_blocked.
Qed.

(** X15.  [unblock_user] on an existing user always answers success.
    It removes the caller's block on that user and nothing else: a
    block held by the other user stays, as does every other row, and
    when the caller held no such block the store is left as it was.
    Blocking and then unblocking restores the block table, but the
    connection rows the block deleted stay deleted. *)
Theorem unblock_user_contract (s : Store) (user target : nat) :
  target ∈ users s →
  let out := unblock_user s user target in
  out.2 = flash to_discover SUCCESS user_unblocked ∧
  out.1 = set_blocks (λ b, b ∖ {[(user, target)]}) s ∧
  Block_exists out.1 user target = false ∧
  (∀ a b, (a, b) ≠ (user, target) → Block_exists out.1 a b = Block_exists s a b) ∧
  (Block_exists s user target = false → out.1 = s) ∧
  (user ≠ target → Block_exists s user target = false →
   (unblock_user (block_user s user target).1 user target).1
     = set_connections (filter (λ c, ¬ Connection_between user target c)) s).
Proof.
  intros Ht out. subst out. unfold unblock_user at 1 2 3 4 5.
  rewrite (bool_decide_eq_true_2 _ Ht). simpl.
  split; [done |]. split; [done |]. split; [| split; [| split]].
  - unfold Block_exists. simpl. apply bool_decide_eq_false. set_solver.
  - intros a b Hab. unfold Block_exists. simpl.
    apply bool_decide_ext. set_solver.
  - intros Hfree%bool_decide_eq_false. apply Store_eq; try done.
    simpl. set_solver.
  - intros Hne Hfree. unfold unblock_user, block_user.
    rewrite (bool_decide_eq_true_2 _ Ht), (bool_decide_eq_false_2 _ Hne), Hfree.
    simpl. rewrite (bool_decide_eq_true_2 _ Ht). simpl.
    apply bool_decide_eq_false in Hfree.
    apply Store_eq; try done. simpl. set_solver.
Qed.

Lemma replace_row_other (c row : Connection) (cs : list Connection) :
  c ∈ cs → connection_pk c ≠ connection_pk row → c ∈ replace_row row cs.
Proof.
  intros Hc Hpk. unfold replace_row. apply list_elem_of_fmap.
  exists c. split; [| done]. by rewrite bool_decide_eq_false_2.
Qed.

Lemma replace_status_keeps (s : Store) (c e row : Connection) :
  ledger_ok s → c ∈ connections s → e ∈ connections s →
  status c = ACCEPTED → status e ≠ ACCEPTED →
  connection_pk row = connection_pk e →
  c ∈ replace_row row (connections s).
Proof.
  intros Hok Hc He Hsc Hse Hpk. apply replace_row_other; [done |].
  rewrite Hpk. intros Heq.
  assert (c = e) by by apply (pk_determines_row (connections s)); [apply Hok | | |].
  congruence.
Qed.

(** X16.  In any store a history of requests leads to, an Accepted
    connection survives every request as it is, except a block between
    its two users, which deletes it: no route turns an accepted
    connection back into a pending or rejected one. *)
Theorem accepted_connection_stays
    (h : list (Z * Request)) (now : Z) (req : Request) (c : Connection) :
  let s := serve empty_store h in
  c ∈ connections s →
  status c = ACCEPTED →
  let s' := (urlpatterns s now req).1 in
  c ∈ connections s' ∨
  Block_exists_between s' (sender c) (receiver c) = true.
Proof.
  intros s Hc Hst s'. subst s'.
  pose proof (history_ledger h) as Hok. fold s in Hok.
  assert (Hsame : ∀ s1 : Store, connections s1 = connections s →
            c ∈ connections s1 ∨
            Block_exists_between s1 (sender c) (receiver c) = true)
    by (intros s1 ->; by left).
  unfold urlpatterns, login_required, require_POST.
  destruct (route req); try (destruct (request_user s req) as [u |] eqn:Hreq;
    [| by left]).
  - unfold home. case_match; by left.
  - by left.
  - apply Hsame. unfold register. repeat case_match; try done. simpl.
    by destruct (post_save_User_frame (set_users (union {[fresh (users s)]}) s)
                  (fresh (users s)) true) as (_ & -> & _).
  - unfold login_view. repeat case_match; by left.
  - by left.
  - apply Hsame. unfold edit_profile. by repeat case_match.
  - apply Hsame. unfold create_activity. by repeat case_match.
  - apply Hsame. unfold join_activity. by repeat case_match.
  - left. unfold send_connection.
    repeat case_match; try done; rows_written; simpl.
    + match goal with H : find _ _ = Some ?e |- _ =>
        apply find_elem_of in H as [He _];
        apply (replace_status_keeps s c e); try done; congruence end.
    + by apply elem_of_cons; right.
  - left. unfold accept_connection.
    destruct (get_connection s id) as [e |] eqn:Hget; [| done].
    apply find_elem_of in Hget as [He _].
    repeat case_match; try done; rows_written; simpl.
    match goal with H : negb (bool_decide (status e = PENDING)) = false |- _ =>
      apply negb_false_iff, bool_decide_eq_true in H end.
    apply (replace_status_keeps s c e); try done; congruence.
  - left. unfold reject_connection.
    destruct (get_connection s id) as [e |] eqn:Hget; [| done].
    apply find_elem_of in Hget as [He _].
    repeat case_match; try done; rows_written; simpl.
    match goal with H : negb (bool_decide (status e = PENDING)) = false |- _ =>
      apply negb_false_iff, bool_decide_eq_true in H end.
    apply (replace_status_keeps s c e); try done; congruence.
  - apply Hsame. case_bool_decide; [| done].
    apply (rate_user_frame s u activity_id user_id req now).
  - apply Hsame. unfold report_user. by repeat case_match.
  - unfold block_user. repeat case_match; try by left. simpl.
    destruct (Connection_between u user_id c) eqn:Hbetween.
    + right. apply Connection_between_spec in Hbetween.
      unfold Block_exists_between, Block_exists. simpl.
      apply orb_true_iff.
      destruct Hbetween as [[-> ->] | [-> ->]]; [left | right];
        apply bool_decide_eq_true; set_solver.
    + left. apply list_elem_of_filter. split; [| done].
      rewrite Hbetween. simpl. auto.
  - apply Hsame. unfold unblock_user. by repeat case_match.
Qed.

(** ** Activities: creating and joining *)

(** X17.  A POST to [create_activity] with a form the framework accepts
    is refused, writing nothing, when the date is before the day of the
    request.  Otherwise exactly one activity row is added, under a key
    no row has: it carries the form's fields and the caller as creator,
    and it is stored active exactly when its date and time are not
    already past; every other row and table is untouched.  A row stored
    inactive can never be joined.  Any other request to the view writes
    nothing. *)
Theorem create_activity_contract
    (s : Store) (user : nat) (form : ActivityFields) (now : Z) :
  let out := create_activity s user POST true form now in
  let i := fresh (dom (activities s)) in
  let a := mkActivity (f_title form) (f_description form) (f_location form)
             (f_activity_city form) (f_date form) (f_time form) user
             (negb (Activity_is_past
                      (mkActivity (f_title form) (f_description form)
                         (f_location form) (f_activity_city form)
                         (f_date form) (f_time form) user true) now)) in
  (f_date form < now `div` MICROSECONDS_PER_DAY →
   out = (s, Render "create_activity.html" None)) ∧
  (now `div` MICROSECONDS_PER_DAY ≤ f_date form →
   activities s !! i = None ∧
   out = (set_activities (insert i a) s,
          flash to_discover SUCCESS activity_created) ∧
   activities out.1 !! i = Some a ∧
   (∀ j, j ≠ i → activities out.1 !! j = activities s !! j) ∧
   is_active a = negb (Activity_is_past a now) ∧
   (is_active a = false → ∀ v now', (join_activity out.1 v i now').1 = out.1)) ∧
  (∀ m ok, m ≠ POST ∨ ok = false →
           (create_activity s user m ok form now).1 = s).
Proof.
  intros out i a. subst out. unfold create_activity.
  rewrite (bool_decide_eq_true_2 (POST = POST)) by done. simpl.
  split; [| split].
  - intros Hlt. unfold clean_date.
    replace (f_date form <? now `div` MICROSECONDS_PER_DAY) with true
      by (symmetry; by apply Z.ltb_lt).
    done.
  - intros Hle. unfold clean_date.
    replace (f_date form <? now `div` MICROSECONDS_PER_DAY) with false
      by (symmetry; by apply Z.ltb_ge).
    simpl. split; [apply fresh_activity |].
    assert (Activity_pre_save
              (mkActivity (f_title form) (f_description form) (f_location form)
                 (f_activity_city form) (f_date form) (f_time form) user true)
              now = a) as Hsaved.
    { unfold Activity_pre_save, a. simpl. by destruct (Activity_is_past _ now). }
    rewrite Hsaved. fold i. split; [done |].
    split; [simpl; apply lookup_insert_eq |].
    split; [intros j Hj; simpl; by apply lookup_insert_ne |].
    split; [done |].
    intros Hinactive v now'. unfold join_activity. simpl.
    rewrite lookup_insert_eq.
    destruct (Block_exists_between _ v (creator a)); [done |].
    replace (is_active a) with false by (symmetry; exact Hinactive). done.
  - intros m ok [Hm | ->].
    + by rewrite bool_decide_eq_false_2.
    + by case_bool_decide.
Qed.

Lemma participant_count_insert (s : Store) (id user j : nat) :
  (id, user) ∉ participants s →
  Activity_participant_count (set_participants (union {[(id, user)]}) s) j
    = if decide (j = id) then S (Activity_participant_count s j)
      else Activity_participant_count s j.
Proof.
  intros Hnew. unfold Activity_participant_count. simpl.
  destruct (decide (j = id)) as [-> | Hj].
  - replace (filter (λ row : nat * nat, row.1 = id) ({[(id, user)]} ∪ participants s))
      with ({[(id, user)]} ∪ filter (λ row : nat * nat, row.1 = id) (participants s))
      by set_solver.
    rewrite size_union by set_solver. by rewrite size_singleton.
  - f_equal. set_solver.
Qed.

Lemma join_activity_success (s : Store) (user id : nat) (now : Z) :
  level_of (join_activity s user id now).2 = Some SUCCESS →
  ∃ a, activities s !! id = Some a ∧ ((id, user) ∉ participants s) ∧
       (join_activity s user id now).1
         = set_participants (union {[(id, user)]}) s.
Proof.
  unfold join_activity.
  destruct (activities s !! id) as [a |]; [| done].
  destruct (Block_exists_between s user (creator a)); [done |].
  destruct (negb (is_active a)); [done |].
  destruct (Activity_is_past a now); [done |].
  destruct (bool_decide (creator a = user)); [done |].
  destruct (is_participant s id user) eqn:Hpart; [done |].
  intros _. exists a. split; [done |]. split; [| done].
  by apply bool_decide_eq_false in Hpart.
Qed.

(** X18.  When [join_activity] answers success, the caller is a
    participant afterwards, the participant count of that activity has
    grown by exactly one and no other count has changed; and whenever
    the same user asks to join the same activity again, nothing is
    written and the answer is not a success. *)
Theorem join_activity_once (s : Store) (user id : nat) (now : Z) :
  let out := join_activity s user id now in
  level_of out.2 = Some SUCCESS →
  is_participant out.1 id user = true ∧
  Activity_participant_count out.1 id = S (Activity_participant_count s id) ∧
  (∀ j, j ≠ id →
        Activity_participant_count out.1 j = Activity_participant_count s j) ∧
  (∀ now', (join_activity out.1 user id now').1 = out.1 ∧
           level_of (join_activity out.1 user id now').2 ≠ Some SUCCESS).
Proof.
  intros out (a & Ha & Hnew & Hstore)%join_activity_success. subst out.
  rewrite Hstore.
  assert (is_participant (set_participants (union {[(id, user)]}) s) id user = true)
    as Hin by (apply bool_decide_eq_true; simpl; set_solver).
  split; [done |]. split; [| split].
  - rewrite participant_count_insert by done. by rewrite decide_True.
  - intros j Hj. rewrite participant_count_insert by done. by rewrite decide_False.
  - intros now'. unfold join_activity.
    change (activities (set_participants (union {[(id, user)]}) s))
      with (activities s).
    rewrite Ha.
    destruct (Block_exists_between _ user (creator a)); [by split |].
    destruct (negb (is_active a)); [by split |].
    destruct (Activity_is_past a now'); [by split |].
    destruct (bool_decide (creator a = user)); [by split |].
    rewrite Hin. by split.
Qed.

(** ** Who may write *)

(** X19.  A request that carries no session of an existing user can
    change the store only by registering: on every other route it
    leaves the store as it was, and every route but the home page and
    the login page answers it with a redirect to the login page. *)
Theorem anonymous_requests_write_nothing (s : Store) (now : Z) (req : Request) :
  request_user s req = None →
  (∀ ok, route req ≠ path_register ok) →
  (urlpatterns s now req).1 = s ∧
  ((urlpatterns s now req).2 = Redirect to_login None ∨
   route req = path_home ∨ ∃ c, route req = path_login c).
Proof.
  intros Hanon Hroute. unfold urlpatterns, login_required, home.
  rewrite Hanon.
  destruct (route req) eqn:Hr; try (split; [done | by left]).
  - split; [done | by right; left].
  - by destruct (Hroute builtin_ok).
  - unfold login_view. split; [by repeat case_match | right; right; eauto].
Qed.

(** X20.  [edit_profile] writes at most the caller's own profile row,
    and of that row never the rating statistics, the legacy rating or
    the verified flag; an age below 13 or above 120 is refused and
    nothing is written; a caller without a profile is answered with a
    server error. *)
Theorem edit_profile_keeps_statistics
    (s : Store) (user : nat) (m : Method) (ok : bool) (form : ProfileFields) :
  let out := edit_profile s user m ok form in
  users out.1 = users s ∧ activities out.1 = activities s ∧
  participants out.1 = participants s ∧ connections out.1 = connections s ∧
  reports out.1 = reports s ∧ blocks out.1 = blocks s ∧
  ratings out.1 = ratings s ∧
  (∀ v, v ≠ user → profiles out.1 !! v = profiles s !! v) ∧
  (∀ p, profiles s !! user = Some p →
        ∃ p', profiles out.1 !! user = Some p' ∧
              average_rating p' = average_rating p ∧
              total_ratings p' = total_ratings p ∧
              rating p' = rating p ∧ verified p' = verified p) ∧
  (∀ a, f_age form = Some a → a < 13 ∨ 120 < a → out.1 = s) ∧
  (profiles s !! user = None → out = (s, Http500)).
Proof.
  intros out. subst out. unfold edit_profile.
  destruct (profiles s !! user) as [p |] eqn:Hp.
  2: { split_and!; done. }
  destruct (bool_decide (m = POST)); simpl.
  2: { split_and!; try done. intros q [= <-]. eauto 10. }
  destruct (ok && clean_age (f_age form)) eqn:Hok; simpl.
  2: { split_and!; try done. intros q [= <-]. eauto 10. }
  split_and!; try done.
  - intros v Hv. by rewrite lookup_insert_ne.
  - intros q [= <-]. rewrite lookup_insert_eq. eauto 10.
  - intros a Ha Hrange. apply andb_true_iff in Hok as [_ Hage].
    rewrite Ha in Hage. simpl in Hage. lia.
Qed.

(** ** The discover listing *)

(** X21.  The user listing of [discover] shows a profile exactly when
    it belongs to another user and no block exists between the two in
    either direction, and shows it as stored.  Visibility is mutual:
    whoever the caller sees, sees the caller (if the caller has a
    profile).  The activity listing shows exactly the rows flagged
    active. *)
Theorem discover_hides_blocked (s : Store) (user v : nat) :
  (∀ p, discover_users s user !! v = Some p ↔
        profiles s !! v = Some p ∧ v ≠ user ∧
        Block_exists_between s user v = false) ∧
  (is_Some (profiles s !! user) →
   is_Some (discover_users s user !! v) →
   is_Some (discover_users s v !! user)) ∧
  (∀ id a, discover_activities s !! id = Some a ↔
           activities s !! id = Some a ∧ is_active a = true).
Proof.
  assert (Hchar : ∀ u w p, discover_users s u !! w = Some p ↔
            profiles s !! w = Some p ∧ w ≠ u ∧
            Block_exists_between s u w = false).
  { intros u w p. unfold discover_users. rewrite map_lookup_filter_Some. simpl.
    unfold Block_exists_between, Block_exists.
    rewrite orb_false_iff, !bool_decide_eq_false. naive_solver. }
  split; [apply Hchar |]. split.
  - intros [q Hq] [p (Hp & Hne & Hb)%Hchar]. exists q. apply Hchar.
    split; [done |]. split; [done |].
    unfold Block_exists_between in *. by rewrite orb_comm.
  - intros id a. unfold discover_activities.
    by rewrite map_lookup_filter_Some.
Qed.

(** ** Reporting and rating once *)

Lemma report_user_success (s : Store) (user user_id : nat) (req : Request) :
  level_of (report_user s user user_id req).2 = Some SUCCESS →
  user_id ∈ users s ∧ user ≠ user_id ∧
  strip (default "" (POST_data req !! "reason")) ≠ "" ∧
  (report_user s user user_id req).1
    = set_reports
        (cons (mkReport user user_id
                 (strip (default "" (POST_data req !! "reason"))))) s.
Proof.
  unfold report_user.
  destruct (bool_decide (user_id ∈ users s)) eqn:Hid; simpl; [| done].
  destruct (bool_decide (user = user_id)) eqn:Hself; [done |].
  destruct (Report_exists s user user_id); [done |].
  destruct (bool_decide (method req = POST)); [| done].
  destruct (bool_decide (strip _ = "")) eqn:Hreason; [done |].
  intros _. apply bool_decide_eq_true in Hid.
  by apply bool_decide_eq_false in Hreason, Hself.
Qed.

(** X23.  [report_user] writes only on a POST: any other method leaves
    the store as it was.  When it answers success, the report, with its
    stripped non-empty reason, heads the report table and nothing else
    changed; from then on every request by the same user against the
    same user, whatever its method and reason, is answered "You have
    already reported this user." and writes nothing. *)
Theorem report_user_once (s : Store) (user user_id : nat) (req : Request) :
  let out := report_user s user user_id req in
  (method req ≠ POST → out.1 = s) ∧
  (level_of out.2 = Some SUCCESS →
   let r := mkReport user user_id (strip (default "" (POST_data req !! "reason"))) in
   out.1 = set_reports (cons r) s ∧ reason r ≠ "" ∧ user ≠ user_id ∧
   ∀ req', report_user out.1 user user_id req'
             = (out.1, flash to_discover INFO already_reported)).
Proof.
  intros out. subst out. split.
  - intros Hm. unfold report_user.
    rewrite (bool_decide_eq_false_2 (method req = POST)) by done.
    by repeat case_match.
  - intros (Hid & Hself & Hreason & Hstore)%report_user_success. cbv zeta.
    rewrite Hstore.
    set (r := mkReport user user_id _). split; [done |]. split; [done |]. split; [done |].
    assert (Report_exists (set_reports (cons r) s) user user_id = true) as Hdup.
    { unfold Report_exists. simpl. by rewrite !bool_decide_eq_true_2. }
    intros req'. unfold report_user.
    change (users (set_reports (cons r) s)) with (users s).
    rewrite (bool_decide_eq_true_2 _ Hid), (bool_decide_eq_false_2 _ Hself).
    simpl negb. cbv iota. by rewrite Hdup.
Qed.

Lemma rate_user_success
    (s : Store) (user activity_id user_id : nat) (req : Request) (now : Z) :
  level_of (rate_user s user activity_id user_id req now).2 = Some SUCCESS →
  ∃ r, rater r = user ∧ rated_user r = user_id ∧ activity r = activity_id ∧
       Rating_acceptable s r now ∧
       (rate_user s user activity_id user_id req now).1
         = Profile_update_rating_stats (set_ratings (cons r) s) user_id.
Proof.
  intros Hsuccess.
  destruct (rate_user_store s user activity_id user_id req now)
    as [Hs | Hcreated]; [| done].
  destruct (rate_user_unchanged_or_created s user activity_id user_id req now)
    as [[_ Hlevel] | (z & a & _ & _ & _ & Hstore)]; [done |].
  exfalso. rewrite Hs in Hstore. cbv zeta in Hstore.
  apply (f_equal ratings) in Hstore. revert Hstore.
  match goal with
  | |- context [post_save_Rating ?s0 ?r0] =>
      pose proof (proj2 (post_save_Rating_frame s0 r0)) as Hr
  end.
  case_match; simpl; rewrite ?Hr; simpl; intros Heq;
    apply (f_equal length) in Heq; simpl in Heq; lia.
Qed.

(** X24.  When [rate_user] answers success, exactly one rating row was
    added, from the caller to the rated user for that activity, with a
    score in 1..5; of all profiles only the rated user's may differ, and
    the other tables are untouched.  From then on no request by the same
    rater to rate anyone for the same activity, at any time, writes
    anything. *)
Theorem rate_user_once
    (s : Store) (user activity_id user_id : nat) (req : Request) (now : Z) :
  let out := rate_user s user activity_id user_id req now in
  level_of out.2 = Some SUCCESS →
  (∃ r, ratings out.1 = r :: ratings s ∧
        rater r = user ∧ rated_user r = user_id ∧ activity r = activity_id ∧
        1 ≤ score r ≤ 5) ∧
  same_but_ratings_and_profiles s out.1 ∧
  (∀ v, v ≠ user_id → profiles out.1 !! v = profiles s !! v) ∧
  (∀ user_id' req' now',
     (rate_user out.1 user activity_id user_id' req' now').1 = out.1).
Proof.
  intros out (r & Hr1 & Hr2 & Hr3 & Hacc & Hstore)%rate_user_success.
  subst out. rewrite Hstore.
  split; [| split; [| split]].
  - exists r. split; [done |]. split; [done |]. split; [done |]. split; [done |].
    apply Hacc.
  - done.
  - intros v Hv. rewrite Profile_update_rating_stats_lookup.
    by rewrite decide_False.
  - intros user_id' req' now'.
    destruct (rate_user_store
                (Profile_update_rating_stats (set_ratings (cons r) s) user_id)
                user activity_id user_id' req' now')
      as [Hs | (r' & Hr1' & _ & Hr3' & Hacc' & _)]; [done |].
    exfalso. destruct Hacc' as (_ & _ & _ & _ & Hdup & _).
    apply (proj1 (Rating_exists_false _ _ _) Hdup r).
    + simpl. apply list_elem_of_here.
    + split; congruence.
Qed.

End Further.

(** ** The admin preview *)

Lemma length_append (a b : string) :
  String.length (String.append a b) = (String.length a + String.length b)%nat.
Proof. induction a as [| c a IH]; simpl; [done | by rewrite IH]. Qed.

Lemma length_substring_0 (n : nat) (s : string) :
  String.length (String.substring 0 n s) = Nat.min n (String.length s).
Proof.
  revert s. induction n as [| n IH]; intros [| c s]; simpl; try done.
  by rewrite IH.
Qed.

Lemma substring_0_get (n i : nat) (s : string) :
  (i < n)%nat → String.get i (String.substring 0 n s) = String.get i s.
Proof.
  revert i s. induction n as [| n IH]; intros i [| c s] Hi; simpl; try done; [lia |].
  destruct i as [| i]; simpl; [done |]. apply IH. lia.
Qed.

Lemma append_get_l (a b : string) (i : nat) :
  (i < String.length a)%nat → String.get i (String.append a b) = String.get i a.
Proof.
  revert i. induction a as [| c a IH]; intros i Hi; simpl in *; [lia |].
  destruct i as [| i]; [done |]. apply IH. lia.
Qed.

(** X22.  [reason_preview] returns a reason of at most 50 characters as
    it is; a longer one becomes its first 50 characters followed by
    three dots, so a preview never exceeds 53 characters and always
    agrees with the reason on the first 50. *)
Theorem reason_preview_bounds (reason : string) :
  (String.length (reason_preview reason) ≤ 53)%nat ∧
  ((String.length reason ≤ 50)%nat → reason_preview reason = reason) ∧
  ((50 < String.length reason)%nat →
   String.length (reason_preview reason) = 53%nat ∧
   reason_preview reason = String.append (String.substring 0 50 reason) "...") ∧
  (∀ i, (i < 50)%nat → (i < String.length reason)%nat →
        String.get i (reason_preview reason) = String.get i reason).
Proof.
  unfold reason_preview.
  destruct (50 <? String.length reason)%nat eqn:Hlong.
  - apply Nat.ltb_lt in Hlong.
    assert (String.length (String.append (String.substring 0 50 reason) "...") = 53%nat)
      as Hlen.
    { rewrite length_append, length_substring_0.
      rewrite Nat.min_l by lia. reflexivity. }
    split; [lia |]. split; [lia |]. split; [done |].
    intros i Hi Hr. rewrite append_get_l.
    + by apply substring_0_get.
    + rewrite length_substring_0. lia.
  - apply Nat.ltb_ge in Hlong.
    split; [lia |]. split; [done |]. split; [lia | done].
Qed.

(** * The properties on the sample data *)

#[local] Existing Instance exact_runtime.

Ltac by_computation := apply (bool_decide_unpack _); vm_compute; exact I.

Lemma Activity_save_deactivates_past_witness :
  Activity_save sample_store (Some 0%nat) hike (day 11)
    = (set_activities (insert 0%nat (Activity_set_is_active false hike)) sample_store,
       0%nat, Activity_set_is_active false hike) ∧
  Activity_is_past (Activity_set_is_active false hike) (day 11) = true ∧
  is_active (Activity_set_is_active false hike) = false.
Proof.
  assert (H1 : Activity_save sample_store (Some 0%nat) hike (day 11)
    = (set_activities (insert 0%nat (Activity_set_is_active false hike)) sample_store,
       0%nat, Activity_set_is_active false hike)) by reflexivity.
  assert (H2 : Activity_is_past (Activity_set_is_active false hike) (day 11) = true)
    by reflexivity.
  split; [exact H1 |]. split; [exact H2 |].
  exact (proj1 (Activity_save_deactivates_past _ _ _ _ _ _ _ H1 H2)).
Defined.

Lemma join_activity_check_order_witness :
  let s' := (join_activity sample_store bob 0 (day 9)).1 in
  activities sample_store !! 0%nat = Some hike ∧
  level_of (join_activity sample_store bob 0 (day 9)).2 = Some SUCCESS ∧
  ((0%nat, bob) ∉ participants sample_store) ∧
  ((0%nat, bob) ∈ participants s') ∧
  is_participant s' 0 bob = true ∧
  participants s' = {[(0%nat, bob)]} ∪ participants sample_store.
Proof.
  intros s'.
  assert (H : activities sample_store !! 0%nat = Some hike) by reflexivity.
  split; [exact H |].
  destruct (join_activity_check_order sample_store bob 0 hike (day 9) H)
    as (_ & R1 & R2 & R3 & R4 & R5 & _).
  exact (conj R1 (conj R2 (conj R3 (conj R4 R5)))).
Defined.

Lemma creator_cannot_rate_witness :
  let r := mkRating carol alice 0 5 "" in
  activities sample_store !! activity r = Some hike ∧
  rater r = creator hike ∧
  (∃ msgs, Rating_save sample_store r (day 11) = Raise (ValidationError msgs) ∧
           creator_cannot_rate_themselves ∈ msgs).
Proof.
  intros r.
  assert (H1 : activities sample_store !! activity r = Some hike) by reflexivity.
  assert (H2 : rater r = creator hike) by reflexivity.
  split; [exact H1 |]. split; [exact H2 |].
  exact (proj1 (creator_cannot_rate sample_store r hike (day 11) H1 H2)).
Defined.

Lemma rating_creation_refreshes_stats_witness :
  let r := mkRating alice carol 0 4 "" in
  let req := post_request_from "foo" alice (path_rate 0 carol) [("score", "4")] in
  let out := rate_user sample_store (rater r) (activity r) (rated_user r) req
               (day 11) in
  let s' := set_profiles (insert carol (mkProfile "" None "" "" "" false 0%Q 4%Q 1))
              (set_ratings (cons r) sample_store) in
  let p := mkProfile "" None "" "" "" false 0%Q 4%Q 1 in
  (out.1 = s' ∧
   message_of out.2
     = Some (SUCCESS, successfully_rated (rated_user r) (score r))) ∧
  out.2 = Raised [(SUCCESS, successfully_rated carol 4); (ERROR, unexpected_error)] ∧
  profiles s' !! rated_user r = Some p ∧
  average_rating p = expected_average [4] ∧
  total_ratings p = 1 ∧
  ratings s' = [r].
Proof.
  intros r req out s' p.
  assert (H1 : out.1 = s' ∧
               message_of out.2
                 = Some (SUCCESS, successfully_rated (rated_user r) (score r)))
    by (split; reflexivity).
  assert (H2 : profiles s' !! rated_user r = Some p) by reflexivity.
  split; [exact H1 |]. split; [reflexivity |]. split; [exact H2 |].
  destruct (rating_creation_refreshes_stats sample_store s' r req (day 11) p
              (or_introl H1) H2) as (R1 & R2 & _).
  split; [| split; [| reflexivity]].
  - exact (eq_trans R1 eq_refl).
  - exact (eq_trans R2 eq_refl).
Defined.

Lemma rate_user_check_order_witness :
  let req := post_request alice (path_rate 0 carol) [("score", "4")] in
  let out := rate_user sample_store alice 0 carol req (day 11) in
  POST_data req !! "score" = Some "4" ∧
  py_int "4" = Some 4 ∧
  alice ∈ users sample_store ∧
  carol ∈ users sample_store ∧
  activities sample_store !! 0%nat = Some hike ∧
  out.2 = Redirect to_discover (Some (SUCCESS, successfully_rated carol 4)) ∧
  ∃ l t,
    answered req l t out.2 ∧
    match first_failure (rate_user_checks sample_store alice carol 0 hike (day 11)) with
    | Some r =>
        out.1 = sample_store ∧
        filter (λ x, x ≠ InvalidScore) (reasons_of_text t) = [r]
    | None =>
        filter (λ x, x ≠ InvalidScore) (reasons_of_text t) = [] ∧
        (1 ≤ 4 ≤ 5 →
         l = SUCCESS ∧ t = successfully_rated carol 4 ∧
         ratings out.1
           = mkRating alice carol 0 4
               (strip (default "" (POST_data req !! "feedback")))
             :: ratings sample_store) ∧
        (¬ (1 ≤ 4 ≤ 5) → out.1 = sample_store)
    end.
Proof.
  intros req out.
  assert (H1 : POST_data req !! "score" = Some "4") by (vm_compute; reflexivity).
  assert (H2 : py_int "4" = Some 4) by (vm_compute; reflexivity).
  assert (H3 : alice ∈ users sample_store) by by_computation.
  assert (H4 : carol ∈ users sample_store) by by_computation.
  assert (H5 : activities sample_store !! 0%nat = Some hike) by reflexivity.
  assert (H6 : out.2 = Redirect to_discover
                         (Some (SUCCESS, successfully_rated carol 4)))
    by reflexivity.
  repeat (split; [assumption |]).
  exact (rate_user_check_order sample_store alice 0 carol req (day 11) "4" 4 hike
           H1 H2 H3 H4 H5).
Defined.

Lemma out_of_range_score_writes_nothing_witness :
  let req := post_request_from "foo" alice (path_rate 0 carol) [("score", "6")] in
  let out := rate_user sample_store alice 0 carol req (day 11) in
  POST_data req !! "score" = Some "6" ∧
  py_int "6" = Some 6 ∧
  ¬ (1 ≤ 6 ≤ 5) ∧
  alice ∈ users sample_store ∧
  carol ∈ users sample_store ∧
  activities sample_store !! 0%nat = Some hike ∧
  creator hike = carol ∧
  is_participant sample_store 0 alice = true ∧
  out.2 = Raised [(ERROR, rating_validation_failed [max_value_5]);
                  (ERROR, unexpected_error)] ∧
  out.1 = sample_store ∧ ratings out.1 = ratings sample_store ∧
  profiles out.1 = profiles sample_store ∧
  ∃ l t,
    answered req l t out.2 ∧
    reasons_of_text t
      = [default InvalidScore
           (first_failure (rate_user_checks sample_store alice carol 0 hike (day 11)))].
Proof.
  intros req out.
  assert (H1 : POST_data req !! "score" = Some "6") by (vm_compute; reflexivity).
  assert (H2 : py_int "6" = Some 6) by (vm_compute; reflexivity).
  assert (H3 : ¬ (1 ≤ 6 ≤ 5)) by lia.
  assert (H4 : alice ∈ users sample_store) by by_computation.
  assert (H5 : carol ∈ users sample_store) by by_computation.
  assert (H6 : activities sample_store !! 0%nat = Some hike) by reflexivity.
  assert (H7 : creator hike = carol) by reflexivity.
  assert (H8 : is_participant sample_store 0 alice = true) by (vm_compute; reflexivity).
  assert (H9 : out.2 = Raised [(ERROR, rating_validation_failed [max_value_5]);
                               (ERROR, unexpected_error)]) by reflexivity.
  repeat (split; [assumption |]).
  exact (out_of_range_score_writes_nothing sample_store alice 0 carol req (day 11)
           "6" 6 hike H1 H2 H3 H4 H5 H6 H7 H8).
Defined.

Lemma report_user_check_order_witness :
  let req := post_request carol (path_report bob) [("reason", " rude ")] in
  let out := report_user sample_store carol bob req in
  method req = POST ∧
  bob ∈ users sample_store ∧
  out.1 = set_reports (cons (mkReport carol bob "rude")) sample_store ∧
  level_of out.2 = Some SUCCESS ∧
  reports out.1 = mkReport carol bob "rude" :: reports sample_store.
Proof.
  intros req out.
  assert (H1 : method req = POST) by reflexivity.
  assert (H2 : bob ∈ users sample_store) by by_computation.
  repeat (split; [assumption |]).
  exact (report_user_check_order sample_store carol bob req H1 H2).
Defined.

Lemma rejected_connection_rerequest_witness :
  let s := serve empty_store sample_history in
  let c := mkConnection 1 0 1 REJECTED in
  let out := send_connection s 1 0 in
  let row := mkConnection 1 1 0 PENDING in
  c ∈ connections s ∧
  Connection_between 1 0 c = true ∧
  status c = REJECTED ∧
  out.2 = flash to_discover SUCCESS (connection_request_sent 0) ∧
  out.1 = set_connections (replace_row row) s ∧
  row ∈ connections out.1 ∧
  length (connections out.1) = length (connections s).
Proof.
  intros s c out row.
  assert (H1 : c ∈ connections s) by by_computation.
  assert (H2 : Connection_between 1 0 c = true) by reflexivity.
  assert (H3 : status c = REJECTED) by reflexivity.
  repeat (split; [assumption |]).
  destruct (rejected_connection_rerequest sample_history 1 0 c H1 H2 H3)
    as (R1 & R2 & R3 & R4 & _).
  exact (conj R1 (conj R2 (conj R3 R4))).
Defined.


(** ** Where the code departs from the specification's order *)

(** C1 fails as stated.  [bob] never joined the hike and rates [alice],
    who is not its creator.  In the specification's order the second
    check fails first, [OnlyCreatorCanBeRated]; the view reports
    [NotAParticipant]. *)
Lemma can_rate_order_counterexample :
  let req := post_request bob (path_rate 0 alice) [("score", "5")] in
  first_failure (can_rate_checks sample_store bob alice 0 hike (day 11))
    = Some OnlyCreatorCanBeRated ∧
  (urlpatterns sample_store (day 11) req).2
    = flash to_discover ERROR must_have_participated ∧
  reasons (urlpatterns sample_store (day 11) req).2 = [NotAParticipant] ∧
  reasons (urlpatterns sample_store (day 11) req).2 ≠ [OnlyCreatorCanBeRated].
Proof. vm_compute. repeat split; discriminate. Qed.

(** C4 fails as stated.  [alice], a participant, rates the creator
    [carol] with 6 two days before the hike: the view answers "You can
    only rate after the activity is completed.", not an invalid score. *)
Lemma invalid_score_counterexample :
  let req := post_request alice (path_rate 0 carol) [("score", "6")] in
  is_participant sample_store 0 alice = true ∧
  creator hike = carol ∧
  py_int "6" = Some 6 ∧
  (urlpatterns sample_store (day 8) req).2
    = flash to_discover ERROR only_after_completed ∧
  reasons (urlpatterns sample_store (day 8) req).2 ≠ [InvalidScore].
Proof. vm_compute. repeat split; discriminate. Qed.

(** C8 fails as stated.  [alice] has reported [bob] before and posts a
    blank reason.  In the specification's order the empty reason comes
    first, [InvalidInput]; the view reports [AlreadyExists]. *)
Lemma file_report_order_counterexample :
  let req := post_request alice (path_report bob) [("reason", "  ")] in
  first_failure (file_report_checks sample_store alice bob "  ")
    = Some InvalidInput ∧
  (urlpatterns sample_store 0 req).2 = flash to_discover INFO already_reported ∧
  reasons (urlpatterns sample_store 0 req).2 = [AlreadyExists] ∧
  reasons (urlpatterns sample_store 0 req).2 ≠ [InvalidInput].
Proof. vm_compute. repeat split; discriminate. Qed.

(** * The further properties on the sample data *)

Lemma profile_stats_never_stale_witness :
  let s := serve empty_store busy_history in
  let p := mkProfile "" None "" "" "" false 0%Q 4%Q 1 in
  profiles s !! 2%nat = Some p ∧
  2%nat ∈ users s ∧
  average_rating p = expected_average (scores_received s 2) ∧
  total_ratings p = Z.of_nat (length (scores_received s 2)).
Proof.
  intros s p.
  assert (H : profiles s !! 2%nat = Some p) by reflexivity.
  split; [exact H |].
  exact (profile_stats_never_stale busy_history 2%nat p H).
Defined.

Lemma every_user_has_a_profile_witness :
  signals_ready = true ∧
  1%nat ∈ users (serve empty_store busy_history) ∧
  is_Some (profiles (serve empty_store busy_history) !! 1%nat) ∧
  ∀ m ok form,
    (edit_profile (serve empty_store busy_history) 1 m ok form).2 ≠ Http500.
Proof.
  assert (H1 : signals_ready = true) by reflexivity.
  assert (H2 : 1%nat ∈ users (serve empty_store busy_history)) by by_computation.
  split; [exact H1 |]. split; [exact H2 |].
  exact (every_user_has_a_profile busy_history 1%nat H1 H2).
Defined.

Lemma creator_never_participant_witness :
  let s := serve empty_store busy_history in
  (0%nat, 0%nat) ∈ participants s ∧
  0%nat ∈ users s ∧
  ∃ a, activities s !! 0%nat = Some a ∧ creator a ≠ 0%nat.
Proof.
  intros s.
  assert (H : (0%nat, 0%nat) ∈ participants s) by by_computation.
  split; [exact H |].
  exact (creator_never_participant busy_history 0%nat 0%nat H).
Defined.

Lemma accept_connection_contract_witness :
  let s := serve empty_store pending_history in
  let c := mkConnection 1 0 1 PENDING in
  let out := accept_connection s 1 (connection_pk c) in
  c ∈ connections s ∧
  out.1 = set_connections (replace_row (Connection_set_status ACCEPTED c)) s ∧
  out.2 = flash to_discover SUCCESS (now_connected_with (sender c)) ∧
  Connection_set_status ACCEPTED c ∈ connections out.1.
Proof.
  intros s c out.
  assert (H : c ∈ connections s) by by_computation.
  split; [exact H |].
  destruct (accept_connection_contract pending_history 1%nat c H) as (_ & _ & R & _).
  exact (R eq_refl eq_refl).
Defined.

Lemma reject_connection_contract_witness :
  let s := serve empty_store pending_history in
  let c := mkConnection 1 0 1 PENDING in
  let out := reject_connection s 0 (connection_pk c) in
  c ∈ connections s ∧
  out.1 = s ∧ reasons out.2 = [Forbidden].
Proof.
  intros s c out.
  assert (H : c ∈ connections s) by by_computation.
  split; [exact H |].
  destruct (reject_connection_contract pending_history 0%nat c H) as (R & _).
  apply R. discriminate.
Defined.

Lemma send_connection_existing_witness :
  let s := serve empty_store pending_history in
  let c := mkConnection 1 0 1 PENDING in
  let out := send_connection s 1 0 in
  c ∈ connections s ∧
  Connection_between 1 0 c = true ∧
  status c ≠ REJECTED ∧
  out.1 = s ∧
  reasons out.2
    = [match status c with
       | ACCEPTED => AlreadyConnected
       | _ => if decide (sender c = 1%nat) then RequestAlreadySent
              else IncomingRequestExists
       end] ∧
  level_of out.2 = Some INFO.
Proof.
  intros s c out.
  assert (H1 : c ∈ connections s) by by_computation.
  assert (H2 : Connection_between 1 0 c = true) by reflexivity.
  assert (H3 : status c ≠ REJECTED) by discriminate.
  split; [exact H1 |]. split; [exact H2 |]. split; [exact H3 |].
  exact (send_connection_existing pending_history 1%nat 0%nat c H1 H2 H3).
Defined.

Lemma send_connection_new_witness :
  let s := serve empty_store unblocked_history in
  let out := send_connection s 0 1 in
  let row := mkConnection 2 0 1 PENDING in
  (1%nat ∈ users s) ∧
  0%nat ≠ 1%nat ∧
  Block_exists_between s 0 1 = false ∧
  (∀ c, c ∈ connections s → Connection_between 0 1 c = false) ∧
  connections s = [] ∧
  out.2 = flash to_discover SUCCESS (connection_request_sent 1) ∧
  connections out.1 = [row] ∧
  connection_seq out.1 = 2%nat.
Proof.
  intros s out row.
  assert (H1 : 1%nat ∈ users s) by by_computation.
  assert (H2 : 0%nat ≠ 1%nat) by discriminate.
  assert (H3 : Block_exists_between s 0 1 = false) by (vm_compute; reflexivity).
  assert (H0 : connections s = []) by reflexivity.
  assert (H4 : ∀ c, c ∈ connections s → Connection_between 0 1 c = false).
  { intros c Hc. rewrite H0 in Hc. by apply elem_of_nil in Hc. }
  split; [exact H1 |]. split; [exact H2 |]. split; [exact H3 |].
  split; [exact H4 |]. split; [exact H0 |].
  destruct (send_connection_new s 0 1 H1 H2 H3 H4) as (R1 & R2 & R3 & _).
  split; [exact R1 |]. split; [| exact (eq_trans R3 eq_refl)].
  exact (eq_trans R2 eq_refl).
Defined.

Lemma block_gates_interactions_witness :
  let s' := (block_user sample_store alice bob).1 in
  bob ∈ users sample_store ∧
  alice ≠ bob ∧
  Block_exists sample_store alice bob = false ∧
  Block_exists_between s' bob alice = true ∧
  send_connection s' bob alice
    = (s', flash to_discover ERROR connection_not_allowed) ∧
  (∀ id req now, (rate_user s' bob id alice req now).1 = s').
Proof.
  intros s'.
  assert (H1 : bob ∈ users sample_store) by by_computation.
  assert (H2 : alice ≠ bob) by discriminate.
  assert (H3 : Block_exists sample_store alice bob = false)
    by (vm_compute; reflexivity).
  assert (H4 : alice ∈ users sample_store) by by_computation.
  split; [exact H1 |]. split; [exact H2 |]. split; [exact H3 |].
  destruct (proj2 (block_gates_interactions sample_store alice bob) H1 H2 H3)
    as (_ & _ & _ & _ & R1 & _ & R2 & _ & _ & _ & R3).
  exact (conj R1 (conj (R2 H4) R3)).
Defined.

Lemma unblock_user_contract_witness :
  let out := unblock_user sample_store alice bob in
  bob ∈ users sample_store ∧
  out.2 = flash to_discover SUCCESS user_unblocked ∧
  Block_exists out.1 alice bob = false ∧
  (Block_exists sample_store alice bob = false → out.1 = sample_store).
Proof.
  intros out.
  assert (H : bob ∈ users sample_store) by by_computation.
  split; [exact H |].
  destruct (unblock_user_contract sample_store alice bob H) as (R1 & _ & R3 & _ & R5 & _).
  exact (conj R1 (conj R3 R5)).
Defined.

Lemma accepted_connection_stays_witness :
  let s := serve empty_store busy_history in
  let c := mkConnection 1 0 1 ACCEPTED in
  let req := post_request 0 (path_block 1) [] in
  let s' := (urlpatterns s (day 12) req).1 in
  c ∈ connections s ∧
  status c = ACCEPTED ∧
  (c ∈ connections s' ∨
   Block_exists_between s' (sender c) (receiver c) = true).
Proof.
  intros s c req s'.
  assert (H1 : c ∈ connections s) by by_computation.
  assert (H2 : status c = ACCEPTED) by reflexivity.
  split; [exact H1 |]. split; [exact H2 |].
  exact (accepted_connection_stays busy_history (day 12) req c H1 H2).
Defined.

Lemma join_activity_once_witness :
  let out := join_activity sample_store bob 0 (day 9) in
  level_of out.2 = Some SUCCESS ∧
  is_participant out.1 0 bob = true ∧
  Activity_participant_count out.1 0
    = S (Activity_participant_count sample_store 0).
Proof.
  intros out.
  assert (H : level_of out.2 = Some SUCCESS) by reflexivity.
  split; [exact H |].
  destruct (join_activity_once sample_store bob 0%nat (day 9) H) as (R1 & R2 & _).
  exact (conj R1 R2).
Defined.

Lemma anonymous_requests_write_nothing_witness :
  let req := mkRequest None POST (path_block bob) ∅ None in
  request_user sample_store req = None ∧
  (∀ ok, route req ≠ path_register ok) ∧
  (urlpatterns sample_store 0 req).1 = sample_store.
Proof.
  intros req.
  assert (H1 : request_user sample_store req = None) by reflexivity.
  assert (H2 : ∀ ok, route req ≠ path_register ok) by (intros ok; discriminate).
  split; [exact H1 |]. split; [exact H2 |].
  exact (proj1 (anonymous_requests_write_nothing sample_store 0 req H1 H2)).
Defined.

Lemma rate_user_once_witness :
  let req := post_request alice (path_rate 0 carol) [("score", "4")] in
  let out := rate_user sample_store alice 0 carol req (day 11) in
  level_of out.2 = Some SUCCESS ∧
  (∃ r, ratings out.1 = r :: ratings sample_store ∧
        rater r = alice ∧ rated_user r = carol ∧ activity r = 0%nat ∧
        1 ≤ score r ≤ 5) ∧
  (∀ user_id' req' now',
     (rate_user out.1 alice 0 user_id' req' now').1 = out.1).
Proof.
  intros req out.
  assert (H : level_of out.2 = Some SUCCESS) by reflexivity.
  split; [exact H |].
  destruct (rate_user_once sample_store alice 0%nat carol req (day 11) H)
    as (R1 & _ & _ & R4).
  exact (conj R1 R4).
Defined.
